(** * go-logger: leveled console and file logging

    A shallow embedding of the Go package [logger] (level.go, file.go,
    logger.go, colors.go, env.go and the legacy single-file variant of
    logger.go) together with the properties of its level gates, its log
    line layout, its date-suffixed file path and its file rotation.

    Go pointers are addresses into typed stores kept in the [World];
    [nil] is [None].  Every function that touches a pointer, a stream,
    a file or the clock runs in the monad [M], whose outcomes tell a
    normal return from a panic, from [os.Exit] and from a goroutine
    that blocks for ever on a mutex it holds itself. *)

From Stdlib Require Import ZArith String Ascii DecimalString Decimal List Lia Bool.
From stdpp Require Import base option gmap strings.

Open Scope Z_scope.

(** ** Strings: the functions of [strings], [strconv] and [fmt] the package calls *)

Module Strings.

(** [strings.ToLower] on the ASCII range: bytes outside 'A'..'Z' are kept. *)
Definition lower_byte (c : ascii) : ascii :=
  let n := nat_of_ascii c in
  if ((65 <=? n)%nat && (n <=? 90)%nat)%bool then ascii_of_nat (n + 32) else c.

Fixpoint ToLower (s : string) : string :=
  match s with
  | EmptyString => EmptyString
  | String c r => String (lower_byte c) (ToLower r)
  end.

(** [strings.ReplaceAll s old new] for a non-empty [old]: left to right,
    non-overlapping.  [skip] counts the bytes of a match still to drop. *)
Fixpoint replace_from (old new : string) (skip : nat) (s : string) : string :=
  match s with
  | EmptyString => EmptyString
  | String c r =>
      match skip with
      | S k => replace_from old new k r
      | O =>
          if String.prefix old s
          then new +:+ replace_from old new (String.length old - 1) r
          else String c (replace_from old new O r)
      end
  end.

Definition ReplaceAll (s old new : string) : string := replace_from old new O s.

(** [strings.LastIndex s sep]: the byte index of the last occurrence of
    [sep] in [s], or -1. *)
Fixpoint last_index_from (sep : string) (i acc : Z) (s : string) : Z :=
  let acc' := if String.prefix sep s then i else acc in
  match s with
  | EmptyString => acc'
  | String _ r => last_index_from sep (i + 1) acc' r
  end.

Definition LastIndex (s sep : string) : Z := last_index_from sep 0 (-1) s.

(** [len(s)] *)
Definition len (s : string) : Z := Z.of_nat (String.length s).

(** [s[i:]] for [0 <= i <= len(s)] *)
Fixpoint drop (n : nat) (s : string) : string :=
  match n, s with
  | O, _ => s
  | S k, String _ r => drop k r
  | S _, EmptyString => EmptyString
  end.

Definition slice_from (s : string) (i : Z) : string := drop (Z.to_nat i) s.

(** [strings.TrimSpace] on the ASCII white space: tab, line feed, vertical
    tab, form feed, carriage return and space. *)
Definition is_space (c : ascii) : bool :=
  let n := nat_of_ascii c in
  (((9 <=? n)%nat && (n <=? 13)%nat) || (n =? 32)%nat)%bool.

Fixpoint trim_left (s : string) : string :=
  match s with
  | EmptyString => EmptyString
  | String c r => if is_space c then trim_left r else s
  end.

Fixpoint trim_right (s : string) : string :=
  match s with
  | EmptyString => EmptyString
  | String c r =>
      match trim_right r with
      | EmptyString => if is_space c then EmptyString else String c EmptyString
      | t => String c t
      end
  end.

Definition TrimSpace (s : string) : string := trim_right (trim_left s).

(** [strconv.Itoa] *)
Definition Itoa (z : Z) : string := NilZero.string_of_int (Z.to_int z).

(** Padding with spaces on the right up to [width] bytes, the effect of
    the flag and width of the verb [%-5s]. *)
Fixpoint spaces (n : nat) : string :=
  match n with
  | O => EmptyString
  | S k => String " " (spaces k)
  end.

Definition pad_right (width : nat) (s : string) : string :=
  s +:+ spaces (width - String.length s).

(** Padding with zeros on the left, as [time.Format] does for the
    fields of its layout. *)
Fixpoint zeros (n : nat) : string :=
  match n with
  | O => EmptyString
  | S k => String "0" (zeros k)
  end.

Definition zero_pad (width : nat) (z : Z) : string :=
  let d := Itoa z in zeros (width - String.length d) +:+ d.

End Strings.

Import Strings.

(** ** level.go *)

(** [type Level uint8]: a level is any value in [0, 256). *)
Definition Level := Z.

Definition LevelTrace : Level := 0.
Definition LevelDebug : Level := 1.
Definition LevelInfo : Level := 2.
Definition LevelWarning : Level := 3.
Definition LevelError : Level := 4.
Definition LevelFatal : Level := 5.

Definition is_uint8 (z : Z) : Prop := 0 <= z < 256.

(** The values of the enumeration. *)
Definition defined_level (lvl : Level) : Prop := 0 <= lvl <= 5.

(** [func (lvl Level) String() string] *)
Definition String_ (lvl : Level) : string :=
  if lvl =? LevelTrace then "TRACE"
  else if lvl =? LevelDebug then "DEBUG"
  else if lvl =? LevelInfo then "INFO"
  else if lvl =? LevelWarning then "WARN"
  else if lvl =? LevelError then "ERROR"
  else if lvl =? LevelFatal then "FATAL"
  else "DEBUG".

(** The [switch] of [GetLevelByName] on the lowered name: [Some] for a
    recognised branch, [None] for the [default] branch. *)
Definition level_of_name (lowered : string) : option Level :=
  if String.eqb lowered "trace" then Some LevelTrace
  else if String.eqb lowered "debug" then Some LevelDebug
  else if String.eqb lowered "info" then Some LevelInfo
  else if (String.eqb lowered "warn" || String.eqb lowered "warning")%bool then Some LevelWarning
  else if String.eqb lowered "error" then Some LevelError
  else if (String.eqb lowered "panic" || String.eqb lowered "fatal")%bool then Some LevelFatal
  else None.

(** ** fmt.Sprintf

    The verbs the package's own format strings use: [%s], [%d], [%v] and
    [%%].  A verb that finds no operand, an operand of the wrong kind,
    a character that is none of these verbs, a lone [%] at the end and
    operands left over are rendered with Go's [%!] markers.  Flags and
    widths are not parsed here; the one padded verb of the package,
    [%-5s], is [pad_right 5]. *)

Inductive any :=
| AString (s : string)
| AInt (z : Z).

Definition type_and_value (a : any) : string :=
  match a with
  | AString s => "string=" +:+ s
  | AInt z => "int=" +:+ Itoa z
  end.

Definition format_verb (verb : ascii) (a : any) : string :=
  match a with
  | AString s =>
      if (Ascii.eqb verb "s" || Ascii.eqb verb "v")%bool then s
      else "%!" +:+ String verb ("(" +:+ type_and_value a +:+ ")")
  | AInt z =>
      if (Ascii.eqb verb "d" || Ascii.eqb verb "v")%bool then Itoa z
      else "%!" +:+ String verb ("(" +:+ type_and_value a +:+ ")")
  end.

Fixpoint extra_operands (args : list any) : string :=
  match args with
  | [] => EmptyString
  | [a] => type_and_value a
  | a :: r => type_and_value a +:+ ", " +:+ extra_operands r
  end.

Definition extra (args : list any) : string :=
  match args with
  | [] => EmptyString
  | _ => "%!(EXTRA " +:+ extra_operands args +:+ ")"
  end.

Fixpoint Sprintf (format : string) (args : list any) : string :=
  match format with
  | EmptyString => extra args
  | String c r =>
      if Ascii.eqb c "%" then
        match r with
        | EmptyString => "%!(NOVERB)" +:+ extra args
        | String verb r' =>
            if Ascii.eqb verb "%" then String "%" (Sprintf r' args)
            else
              match args with
              | [] => "%!" +:+ String verb ("(MISSING)" +:+ Sprintf r' [])
              | a :: args' => format_verb verb a +:+ Sprintf r' args'
              end
        end
      else String c (Sprintf r args)
  end.

(** ** The world the package runs in *)

(** A Go pointer: an address into the store of its type, or [nil]. *)
Definition ref := option nat.

(** [time.Now().Local()], to the second. *)
Record Clock := mkClock {
  year : Z; month : Z; day : Z; hour : Z; minute : Z; second : Z
}.

(** [t.Format("2006-01-02")] *)
Definition format_date (t : Clock) : string :=
  zero_pad 4 (year t) +:+ "-" +:+ zero_pad 2 (month t) +:+ "-" +:+ zero_pad 2 (day t).

(** [t.Format("2006-01-02 15:04:05")] *)
Definition format_date_time (t : Clock) : string :=
  format_date t +:+ " " +:+ zero_pad 2 (hour t) +:+ ":" +:+ zero_pad 2 (minute t)
    +:+ ":" +:+ zero_pad 2 (second t).

(** A calendar date and time of day with a four-digit year. *)
Definition valid_clock (t : Clock) : Prop :=
  0 <= year t <= 9999 /\ 1 <= month t <= 12 /\ 1 <= day t <= 31 /\
  0 <= hour t <= 23 /\ 0 <= minute t <= 59 /\ 0 <= second t <= 59.

(** [os.File]: the name it was opened under and whether [Close] ran. *)
Record OsFile := mkOsFile { name : string; closed : bool }.

(** [sync.RWMutex] as one goroutine sees it. *)
Record RWMutex := mkRWMutex { readers : nat; writer : bool }.

(** What a [log.Logger] made by [log.New(w, "", 0)] writes to. *)
Inductive Writer :=
| Stdout
| Stderr
| FileWriter (f : nat).

(** [type FileLogger struct] (file.go).  The field [Level] is [fLevel]
    here, the name [Level] being the type's. *)
Record FileLogger := mkFileLogger {
  fLevel : Level;
  Path : string;
  AppendDate : bool;
  fileSync : ref;
  fileSyncWrite : ref;
  logger : option Writer;
  file : ref;
  rootLogger : ref
}.

(** [type colorConfig struct] (colors.go) *)
Record colorConfig := mkColorConfig { enableColors : bool }.

(** [type Logger struct] (logger.go).  The field [Level] is [lLevel]. *)
Record Logger := mkLogger {
  lLevel : Level;
  ColoredOutput : bool;
  PrintSource : bool;
  OnlyPrintMessage : bool;
  FuncCallIncrement : Z;
  Prefix : string;
  File : ref;
  colorConf : colorConfig;
  consoleLogger : option Writer;
  consoleLoggerErr : option Writer
}.

(** The build target decides which [isColoringSupported] is compiled in.
    On Windows the answer comes from two console system calls: [vt] is
    their combined answer, [None] when the low-level access panics. *)
Inductive Platform :=
| Unix
| Windows (vt : option bool).

Record World := mkWorld {
  clock : Clock;
  platform : Platform;
  (** the process environment *)
  environ : gmap string string;
  (** [runtime.Caller(skip)]: file and line of the frame, if there is one *)
  callers : Z -> option (string * Z);
  (** the error text of [os.OpenFile] on a path, [None] when it succeeds *)
  open_error : string -> option string;
  (** the lines each file on disk holds *)
  disk : gmap string (list string);
  (** the lines written to standard output and standard error *)
  stdout : list string;
  stderr : list string;
  (** the stores of [os.File], [sync.RWMutex], [FileLogger] and [Logger] *)
  files : gmap nat OsFile;
  mutexes : gmap nat RWMutex;
  fileLoggers : gmap nat FileLogger;
  loggers : gmap nat Logger
}.

Definition set_disk (d : gmap string (list string)) (w : World) : World :=
  mkWorld (clock w) (platform w) (environ w) (callers w) (open_error w) d
    (stdout w) (stderr w) (files w) (mutexes w) (fileLoggers w) (loggers w).
Definition set_stdout (o : list string) (w : World) : World :=
  mkWorld (clock w) (platform w) (environ w) (callers w) (open_error w) (disk w)
    o (stderr w) (files w) (mutexes w) (fileLoggers w) (loggers w).
Definition set_stderr (e : list string) (w : World) : World :=
  mkWorld (clock w) (platform w) (environ w) (callers w) (open_error w) (disk w)
    (stdout w) e (files w) (mutexes w) (fileLoggers w) (loggers w).
Definition set_files (f : gmap nat OsFile) (w : World) : World :=
  mkWorld (clock w) (platform w) (environ w) (callers w) (open_error w) (disk w)
    (stdout w) (stderr w) f (mutexes w) (fileLoggers w) (loggers w).
Definition set_mutexes (m : gmap nat RWMutex) (w : World) : World :=
  mkWorld (clock w) (platform w) (environ w) (callers w) (open_error w) (disk w)
    (stdout w) (stderr w) (files w) m (fileLoggers w) (loggers w).
Definition set_fileLoggers (f : gmap nat FileLogger) (w : World) : World :=
  mkWorld (clock w) (platform w) (environ w) (callers w) (open_error w) (disk w)
    (stdout w) (stderr w) (files w) (mutexes w) f (loggers w).
Definition set_loggers (l : gmap nat Logger) (w : World) : World :=
  mkWorld (clock w) (platform w) (environ w) (callers w) (open_error w) (disk w)
    (stdout w) (stderr w) (files w) (mutexes w) (fileLoggers w) l.
(** The clock moves on between two calls. *)
Definition set_clock (t : Clock) (w : World) : World :=
  mkWorld t (platform w) (environ w) (callers w) (open_error w) (disk w)
    (stdout w) (stderr w) (files w) (mutexes w) (fileLoggers w) (loggers w).

(** ** The monad of the package's code *)

Inductive Outcome (A : Type) :=
| Return (a : A) (w : World)
  (** a run-time panic that carries [v] *)
| Panic (v : string) (w : World)
  (** [os.Exit(code)] *)
| Exit (code : Z) (w : World)
  (** the goroutine waits for a mutex that nobody will release *)
| Blocked (w : World)
| OutOfFuel.
Arguments Return {A} a w.
Arguments Panic {A} v w.
Arguments Exit {A} code w.
Arguments Blocked {A} w.
Arguments OutOfFuel {A}.

Definition M (A : Type) := World -> Outcome A.

Definition ret {A} (a : A) : M A := fun w => Return a w.

(** Only a normal return lets the rest of the code run. *)
Definition and_then {A B} (o : Outcome A) (k : A -> M B) : Outcome B :=
  match o with
  | Return a w' => k a w'
  | Panic v w' => Panic v w'
  | Exit c w' => Exit c w'
  | Blocked w' => Blocked w'
  | OutOfFuel => OutOfFuel
  end.

Definition bind {A B} (m : M A) (k : A -> M B) : M B :=
  fun w => and_then (m w) k.

Declare Scope go_scope.
Delimit Scope go_scope with go.
Notation "x <- m ;; k" := (bind m (fun x => k))
  (at level 100, m at next level, right associativity) : go_scope.
Notation "m ;;; k" := (bind m (fun _ => k))
  (at level 100, right associativity) : go_scope.
Open Scope go_scope.

Definition panic {A} (v : string) : M A := fun w => Panic v w.
Definition exit {A} (code : Z) : M A := fun w => Exit code w.
Definition block {A} : M A := fun w => Blocked w.
Definition out_of_fuel {A} : M A := fun _ => OutOfFuel.
Definition get {A} (f : World -> A) : M A := fun w => Return (f w) w.
Definition modify (f : World -> World) : M unit := fun w => Return tt (f w).

Definition nil_dereference : string :=
  "runtime error: invalid memory address or nil pointer dereference".

(** [defer func() { if err := recover(); err != nil { handler(err) } }()]
    around [body]: a panic of [body] is handed to [handler]; an exit or
    a blocked goroutine is not a panic. *)
Definition recovering {A} (body : M A) (handler : string -> M unit) (dflt : A) : M A :=
  fun w =>
    match body w with
    | Panic v w' => (handler v ;;; ret dflt) w'
    | o => o
    end.

(** ** Primitives: the store, mutexes, files, streams, the clock *)

(** Reading through a pointer.  [nil] panics; an address with nothing
    behind it does not arise in Go and is treated like [nil]. *)
Definition load {A} (store : World -> gmap nat A) (p : ref) : M A :=
  fun w =>
    match p with
    | Some a =>
        match store w !! a with
        | Some x => Return x w
        | None => Panic nil_dereference w
        end
    | None => Panic nil_dereference w
    end.

Definition loadLogger : ref -> M Logger := load loggers.
Definition loadFileLogger : ref -> M FileLogger := load fileLoggers.

(** Writing the fields of the struct behind a pointer. *)
Definition updateLogger (p : ref) (f : Logger -> Logger) : M unit :=
  l <- loadLogger p ;;
  match p with
  | Some a => modify (fun w => set_loggers (<[a := f l]> (loggers w)) w)
  | None => panic nil_dereference
  end.

Definition updateFileLogger (p : ref) (f : FileLogger -> FileLogger) : M unit :=
  l <- loadFileLogger p ;;
  match p with
  | Some a => modify (fun w => set_fileLoggers (<[a := f l]> (fileLoggers w)) w)
  | None => panic nil_dereference
  end.

Definition with_rootLogger (r : ref) (l : FileLogger) : FileLogger :=
  mkFileLogger (fLevel l) (Path l) (AppendDate l) (fileSync l) (fileSyncWrite l)
    (logger l) (file l) r.
Definition with_mutexes (m1 m2 : ref) (l : FileLogger) : FileLogger :=
  mkFileLogger (fLevel l) (Path l) (AppendDate l) m1 m2
    (logger l) (file l) (rootLogger l).
Definition with_file (lg : option Writer) (f : ref) (l : FileLogger) : FileLogger :=
  mkFileLogger (fLevel l) (Path l) (AppendDate l) (fileSync l) (fileSyncWrite l)
    lg f (rootLogger l).
Definition with_fLevel (v : Level) (l : FileLogger) : FileLogger :=
  mkFileLogger v (Path l) (AppendDate l) (fileSync l) (fileSyncWrite l)
    (logger l) (file l) (rootLogger l).
Definition with_Path (v : string) (l : FileLogger) : FileLogger :=
  mkFileLogger (fLevel l) v (AppendDate l) (fileSync l) (fileSyncWrite l)
    (logger l) (file l) (rootLogger l).
Definition with_AppendDate (v : bool) (l : FileLogger) : FileLogger :=
  mkFileLogger (fLevel l) (Path l) v (fileSync l) (fileSyncWrite l)
    (logger l) (file l) (rootLogger l).

Definition with_console (out err : option Writer) (l : Logger) : Logger :=
  mkLogger (lLevel l) (ColoredOutput l) (PrintSource l) (OnlyPrintMessage l)
    (FuncCallIncrement l) (Prefix l) (File l) (colorConf l) out err.
Definition with_colorConf (c : colorConfig) (l : Logger) : Logger :=
  mkLogger (lLevel l) (ColoredOutput l) (PrintSource l) (OnlyPrintMessage l)
    (FuncCallIncrement l) (Prefix l) (File l) c (consoleLogger l) (consoleLoggerErr l).
Definition with_lLevel (v : Level) (l : Logger) : Logger :=
  mkLogger v (ColoredOutput l) (PrintSource l) (OnlyPrintMessage l)
    (FuncCallIncrement l) (Prefix l) (File l) (colorConf l) (consoleLogger l)
    (consoleLoggerErr l).
Definition with_ColoredOutput (v : bool) (l : Logger) : Logger :=
  mkLogger (lLevel l) v (PrintSource l) (OnlyPrintMessage l)
    (FuncCallIncrement l) (Prefix l) (File l) (colorConf l) (consoleLogger l)
    (consoleLoggerErr l).
Definition with_PrintSource (v : bool) (l : Logger) : Logger :=
  mkLogger (lLevel l) (ColoredOutput l) v (OnlyPrintMessage l)
    (FuncCallIncrement l) (Prefix l) (File l) (colorConf l) (consoleLogger l)
    (consoleLoggerErr l).
Definition with_OnlyPrintMessage (v : bool) (l : Logger) : Logger :=
  mkLogger (lLevel l) (ColoredOutput l) (PrintSource l) v
    (FuncCallIncrement l) (Prefix l) (File l) (colorConf l) (consoleLogger l)
    (consoleLoggerErr l).

(** [&sync.RWMutex{}] *)
Definition newRWMutex : M ref :=
  fun w =>
    let a := fresh (dom (mutexes w)) in
    Return (Some a) (set_mutexes (<[a := mkRWMutex 0 false]> (mutexes w)) w).

Definition updateMutex (p : ref) (step : RWMutex -> M RWMutex) : M unit :=
  m <- load mutexes p ;;
  m' <- step m ;;
  match p with
  | Some a => modify (fun w => set_mutexes (<[a := m']> (mutexes w)) w)
  | None => panic nil_dereference
  end.

(** [Lock] waits until no reader and no writer holds the mutex; in a
    single goroutine that wait never ends. *)
Definition Lock (p : ref) : M unit :=
  updateMutex p (fun m =>
    if (Nat.eqb (readers m) 0 && negb (writer m))%bool
    then ret (mkRWMutex 0 true) else block).

Definition Unlock (p : ref) : M unit :=
  updateMutex p (fun m =>
    if writer m then ret (mkRWMutex (readers m) false)
    else panic "fatal error: sync: Unlock of unlocked RWMutex").

Definition RLock (p : ref) : M unit :=
  updateMutex p (fun m =>
    if writer m then block else ret (mkRWMutex (S (readers m)) false)).

Definition RUnlock (p : ref) : M unit :=
  updateMutex p (fun m =>
    match readers m with
    | S n => ret (mkRWMutex n (writer m))
    | O => panic "fatal error: sync: RUnlock of unlocked RWMutex"
    end).

(** [os.OpenFile(path, os.O_APPEND|os.O_CREATE|os.O_WRONLY, 0644)]:
    the error text, or a fresh open [os.File] named [path]; the file is
    created empty when the disk has none at [path]. *)
Definition OpenFile (path : string) : M (nat + string) :=
  fun w =>
    match open_error w path with
    | Some err => Return (inr err) w
    | None =>
        let a := fresh (dom (files w)) in
        let d := match disk w !! path with
                 | Some _ => disk w
                 | None => <[path := []]> (disk w)
                 end in
        Return (inl a)
          (set_disk d (set_files (<[a := mkOsFile path false]> (files w)) w))
    end.

(** [f.Name()]: panics on a nil [*os.File]. *)
Definition Name (f : ref) : M string :=
  x <- load files f ;; ret (name x).

(** [f.Close()]: a nil receiver only returns an error, which the
    package drops. *)
Definition Close (f : ref) : M unit :=
  match f with
  | Some a =>
      modify (fun w =>
        match files w !! a with
        | Some x => set_files (<[a := mkOsFile (name x) true]> (files w)) w
        | None => w
        end)
  | None => ret tt
  end.

(** [f.Sync()]: the disk of the model holds every line as soon as it is
    written, so forcing it out changes nothing. *)
Definition Sync (f : ref) : M unit := ret tt.

(** One [Println] on a [log.Logger]: one line on its writer.  A write
    to a closed file fails and [log] drops the error.  A nil
    [*log.Logger] panics. *)
Definition Println (lg : option Writer) (line : string) : M unit :=
  match lg with
  | None => panic nil_dereference
  | Some Stdout => modify (fun w => set_stdout (stdout w ++ [line]) w)
  | Some Stderr => modify (fun w => set_stderr (stderr w ++ [line]) w)
  | Some (FileWriter a) =>
      modify (fun w =>
        match files w !! a with
        | Some x =>
            if closed x then w
            else set_disk
                   (<[name x := default [] (disk w !! name x) ++ [line]]> (disk w)) w
        | None => w
        end)
  end.

(** [lg.Fatal(line)]: the line, then [os.Exit(1)]. *)
Definition Fatal_ (lg : option Writer) (line : string) : M unit :=
  Println lg line ;;; exit 1.

(** [os.LookupEnv] *)
Definition LookupEnv (key : string) : M (option string) :=
  get (fun w => environ w !! key).

(** [os.Getenv] *)
Definition Getenv (key : string) : M string :=
  v <- LookupEnv key ;; ret (default EmptyString v).

(** [runtime.Caller(skip)] *)
Definition Caller (skip : Z) : M (option (string * Z)) :=
  get (fun w => callers w skip).

(** ** colors.go *)

Definition ESC : string := String (ascii_of_nat 27) EmptyString.

(** [func color(code, termination string) func(str string) string] *)
Definition color (code termination : string) : string -> string :=
  fun str => code +:+ str +:+ termination.

Definition colPurple := color (ESC +:+ "[1;35m") (ESC +:+ "[0m").
Definition colPurpleLight := color (ESC +:+ "[0;35m") (ESC +:+ "[0m").
Definition colRed := color (ESC +:+ "[1;31m") (ESC +:+ "[0m").
Definition colYellow := color (ESC +:+ "[1;33m") (ESC +:+ "[0m").
Definition colBlue := color (ESC +:+ "[1;34m") (ESC +:+ "[0m").
Definition colBlueLight := color (ESC +:+ "[0;34m") (ESC +:+ "[0m").
Definition colCyan := color (ESC +:+ "[1;36m") (ESC +:+ "[0m").
Definition colGreen := color (ESC +:+ "[0;32m") (ESC +:+ "[0m").

(** [func (l Level) getColor() func(str string) string] *)
Definition getColor (l : Level) : string -> string :=
  if l =? LevelTrace then colPurpleLight
  else if l =? LevelDebug then colGreen
  else if l =? LevelInfo then colBlue
  else if l =? LevelWarning then colYellow
  else colRed.

(** [func (c colorConfig) isColoringSupported() bool], one per platform. *)
Definition isColoringSupported : M bool :=
  p <- get platform ;;
  match p with
  | Unix => term <- Getenv "TERM" ;; ret (negb (String.eqb term EmptyString))
  | Windows (Some b) => ret b
  | Windows None => panic "console access failed"
  end.

(** [func newColorConfig(enable bool) (conf *colorConfig)] *)
Definition newColorConfig (enable : bool) : M colorConfig :=
  if enable then
    off <- LookupEnv "TERMINAL_DISABLE_COLORS" ;;
    match off with
    | Some _ => ret (mkColorConfig false)
    | None =>
        on <- LookupEnv "TERMINAL_ENABLE_COLORS" ;;
        match on with
        | Some _ => ret (mkColorConfig true)
        | None => b <- isColoringSupported ;; ret (mkColorConfig b)
        end
    end
  else ret (mkColorConfig false).

(** ** file.go *)

Definition backslash : string := String (ascii_of_nat 92) EmptyString.
Definition newline : string := String (ascii_of_nat 10) EmptyString.

(** [func getFileDate() string] *)
Definition getFileDate : M string :=
  t <- get clock ;; ret (format_date t).

(** [func (l *FileLogger) getFilePath() string] *)
Definition getFilePath (l : ref) : M string :=
  fl <- loadFileLogger l ;;
  let path := ReplaceAll (Path fl) backslash "/" in
  if AppendDate fl then
    let lastSlash := LastIndex path "/" in
    if (negb (lastSlash =? -1) && (lastSlash + 1 <? len path))%bool then
      d <- getFileDate ;; ret (path +:+ "." +:+ d)
    else if lastSlash =? -1 then
      d <- getFileDate ;; ret (path +:+ "." +:+ d)
    else
      d <- getFileDate ;; ret (path +:+ d)
  else ret path.

(** [func (l *FileLogger) CloseFile()] *)
Definition CloseFile (l : ref) : M unit :=
  fl <- loadFileLogger l ;;
  match file fl with
  | Some _ =>
      Lock (fileSync fl) ;;;
      Close (file fl) ;;;
      updateFileLogger l (with_file None None) ;;;
      Unlock (fileSync fl)
  | None => ret tt
  end.

(** The type of the method [Log] of a [Logger], which [openFile] calls
    back through [rootLogger]. *)
Definition LogFn := ref -> Level -> string -> list any -> M unit.

(** [func (l *FileLogger) openFile()] *)
Definition openFile (Log : LogFn) (l : ref) : M unit :=
  fl <- loadFileLogger l ;;
  match fileSync fl with
  | None =>
      m1 <- newRWMutex ;;
      m2 <- newRWMutex ;;
      updateFileLogger l (with_mutexes m1 m2)
  | Some _ => ret tt
  end ;;;
  fl <- loadFileLogger l ;;
  Lock (fileSync fl) ;;;
  path <- getFilePath l ;;
  r <- OpenFile path ;;
  match r with
  | inl f => updateFileLogger l (with_file (Some (FileWriter f)) (Some f))
  | inr err =>
      Log (rootLogger fl) LevelError
        (Sprintf ("Cannot access the log file '%s'" +:+ newline +:+ "%s")
           [AString path; AString err]) []
  end ;;;
  Unlock (fileSync fl).

(** [func (l *FileLogger) writeToFile(message string, level Level)].
    The two mutex pointers are read once: nothing on this path assigns
    them, [openFile] creating mutexes only where there are none. *)
Definition writeToFile (Log : LogFn) (l : ref) (message : string) (level : Level) : M unit :=
  fl <- loadFileLogger l ;;
  RLock (fileSync fl) ;;;
  RLock (fileSyncWrite fl) ;;;
  (if AppendDate fl then
     currentPath <- getFilePath l ;;
     n <- Name (file fl) ;;
     if negb (String.eqb n currentPath) then
       RUnlock (fileSync fl) ;;;
       RUnlock (fileSyncWrite fl) ;;;
       Lock (fileSyncWrite fl) ;;;
       fl1 <- loadFileLogger l ;;
       n1 <- Name (file fl1) ;;
       (if negb (String.eqb n1 currentPath) then
          CloseFile l ;;;
          openFile Log l
        else ret tt) ;;;
       Unlock (fileSyncWrite fl) ;;;
       RLock (fileSync fl) ;;;
       RLock (fileSyncWrite fl)
     else ret tt
   else ret tt) ;;;
  fl2 <- loadFileLogger l ;;
  Println (logger fl2) message ;;;
  Sync (file fl2) ;;;
  RUnlock (fileSync fl2) ;;;
  RUnlock (fileSyncWrite fl2) ;;;
  if level =? LevelFatal then CloseFile l else ret tt.

(** ** logger.go *)

(** [var dLogger Logger]: the global logger lives at a fixed address. *)
Definition dLogger : ref := Some 0%nat.

(** [func (l *Logger) getColored(message string, color func(str string) string) string] *)
Definition getColored (l : Logger) (message : string) (col : string -> string) : string :=
  if enableColors (colorConf l) then col message else message.

(** [func getSourceMessage(file string, line int, _ uintptr, l *Logger) string] *)
Definition getSourceMessage (file : string) (line : Z) (l : Logger) : string :=
  if negb (PrintSource l) then EmptyString
  else
    let fileName := slice_from file (LastIndex file "/" + 1) +:+ ":" +:+ Itoa line in
    " (" +:+ fileName +:+ ")".

(** [fmt.Sprintf("%-5s", level)] *)
Definition levelName (level : Level) : string := pad_right 5 (String_ level).

(** The plain line [printMessage] that [log] builds (logger.go, the
    statements from "Build the message to print" on). *)
Definition printMessage (l : Logger) (level : Level) (message : string)
    (parameters : list any) (file : string) (line : Z) (now : Clock) : string :=
  let printMessage :=
    match parameters with
    | [] => message
    | _ => Sprintf message parameters
    end in
  if negb (OnlyPrintMessage l) then
    "[" +:+ levelName level +:+ "] " +:+ format_date_time now +:+
      getSourceMessage file line l +:+ Prefix l +:+ " - " +:+ printMessage
  else printMessage.

(** The console line [printMessageColored]: the colored variant is
    built from [printMessage] as it stands after the header was put in
    front of it. *)
Definition printMessageColored (l : Logger) (level : Level) (message : string)
    (parameters : list any) (file : string) (line : Z) (now : Clock) : string :=
  let printMessage := printMessage l level message parameters file line now in
  let printMessageColored := getColored l printMessage (getColor level) in
  if negb (OnlyPrintMessage l) then
    getColored l ("[" +:+ levelName level +:+ "] ") (getColor level) +:+
      getColored l (format_date_time now) colCyan +:+
      getColored l (getSourceMessage file line l) colPurple +:+
      getColored l (Prefix l) colBlueLight +:+
      " - " +:+ printMessageColored
  else printMessageColored.

(** The console half of [log]: [if l.Level <= level { ... }]. *)
Definition toConsole (l : ref) (level : Level) (line : string) : M unit :=
  lg <- loadLogger l ;;
  if lLevel lg <=? level then
    if level =? LevelError then Println (consoleLoggerErr lg) line
    else if level =? LevelFatal then Fatal_ (consoleLoggerErr lg) line
    else Println (consoleLogger lg) line
  else ret tt.

(** [func (l *Logger) log(level Level, message string, parameters ...any)].
    [log] reaches itself through [writeToFile], [openFile] and the
    [rootLogger]; [fuel] bounds that nesting.  The clock stands still
    during one call, so the several [time.Now()] of a call agree. *)
Fixpoint log (fuel : nat) (l : ref) (level : Level) (message : string)
    (parameters : list any) : M unit :=
  match fuel with
  | O => out_of_fuel
  | S fuel' =>
      lg <- loadLogger l ;;
      c <- Caller (3 + FuncCallIncrement lg) ;;
      let '(file, line) := default ("#unknown"%string, 0) c in
      now <- get clock ;;
      let plain := printMessage lg level message parameters file line now in
      let colored := printMessageColored lg level message parameters file line now in
      fl <- loadFileLogger (File lg) ;;
      (if ((fLevel fl <=? level) && bool_decide (logger fl <> None))%bool
       then writeToFile (log fuel') (File lg) plain level
       else ret tt) ;;;
      toConsole l level colored
  end.

(** [func (l *Logger) Log(level Level, message string, parameters ...any)] *)
Definition Log (fuel : nat) : LogFn := log fuel.

(** [func (l *Logger) setup(keepFile bool)] *)
Definition setup (fuel : nat) (l : ref) (keepFile : bool) : M unit :=
  lg <- loadLogger l ;;
  updateFileLogger (File lg) (with_rootLogger l) ;;;
  updateLogger l (with_console (Some Stdout) (Some Stderr)) ;;;
  fl <- loadFileLogger (File lg) ;;
  (if (negb (String.eqb (TrimSpace (Path fl)) EmptyString) && negb keepFile)%bool
   then openFile (Log fuel) (File lg)
   else if negb keepFile then CloseFile (File lg)
   else ret tt) ;;;
  recovering
    (lg' <- loadLogger l ;;
     conf <- newColorConfig (ColoredOutput lg') ;;
     updateLogger l (with_colorConf conf))
    (fun err => log fuel l LevelDebug "Panic occured: %s" [AString err])
    tt.

(** [func NewLogger(logger *Logger) *Logger] *)
Definition NewLogger (fuel : nat) (l : ref) : M ref :=
  setup fuel l false ;;; ret l.

(** [func Warning(message string, parameters ...any)] on the global logger *)
Definition Warning (fuel : nat) (message : string) (parameters : list any) : M unit :=
  Log fuel dLogger LevelWarning message parameters.

(** ** level.go, continued *)

(** [func GetLevelByName(levelName string) Level] *)
Definition GetLevelByName (fuel : nat) (levelName : string) : M Level :=
  let levelName := ToLower levelName in
  match level_of_name levelName with
  | Some lvl => ret lvl
  | None =>
      Warning fuel
        "Unable to parse the level name '%s'. Expected 'debug', 'info', 'warn', 'error' or 'fatal'"
        [AString levelName] ;;;
      ret LevelWarning
  end.

(** ** env.go *)

(** [func getEnvBool(name string, defaultValue bool) bool] *)
Definition getEnvBool (name : string) (defaultValue : bool) : M bool :=
  v <- LookupEnv name ;;
  match v with
  | Some strVal =>
      let strVal := ToLower strVal in
      ret (String.eqb strVal "1" || String.eqb strVal "true" ||
           String.eqb strVal "yes" || String.eqb strVal "ja")%bool
  | None => ret defaultValue
  end.

(** [func getEnvString(name string, defaultValue string) string] *)
Definition getEnvString (name : string) (defaultValue : string) : M string :=
  v <- LookupEnv name ;;
  match v with
  | Some strVal => ret strVal
  | None => ret defaultValue
  end.

(** [func GetLoggerFromEnv(defaultLogger *Logger) *Logger] *)
Definition GetLoggerFromEnv (fuel : nat) (defaultLogger : ref) : M ref :=
  lg <- loadLogger defaultLogger ;;
  b <- getEnvBool "LOGGER_COLOREDOUTPUT" (ColoredOutput lg) ;;
  updateLogger defaultLogger (with_ColoredOutput b) ;;;
  lg <- loadLogger defaultLogger ;;
  s <- getEnvString "LOGGER_LEVEL" (String_ (lLevel lg)) ;;
  v <- GetLevelByName fuel s ;;
  updateLogger defaultLogger (with_lLevel v) ;;;
  lg <- loadLogger defaultLogger ;;
  b <- getEnvBool "LOGGER_ONLYPRINTMESSAGE" (OnlyPrintMessage lg) ;;
  updateLogger defaultLogger (with_OnlyPrintMessage b) ;;;
  lg <- loadLogger defaultLogger ;;
  fl <- loadFileLogger (File lg) ;;
  s <- getEnvString "LOGGER_FILE_LEVEL" (String_ (fLevel fl)) ;;
  v <- GetLevelByName fuel s ;;
  updateFileLogger (File lg) (with_fLevel v) ;;;
  lg <- loadLogger defaultLogger ;;
  fl <- loadFileLogger (File lg) ;;
  s <- getEnvString "LOGGER_FILE_PATH" (Path fl) ;;
  updateFileLogger (File lg) (with_Path s) ;;;
  lg <- loadLogger defaultLogger ;;
  fl <- loadFileLogger (File lg) ;;
  b <- getEnvBool "LOGGER_FILE_APPENDDATE" (AppendDate fl) ;;
  updateFileLogger (File lg) (with_AppendDate b) ;;;
  lg <- loadLogger defaultLogger ;;
  b <- getEnvBool "LOGGER_PRINTSOURCE" (PrintSource lg) ;;
  updateLogger defaultLogger (with_PrintSource b) ;;;
  NewLogger fuel defaultLogger.

(** ** logger.go, continued: sharing a file, cloning, the global logger *)

Definition with_handle (f : ref) (l : FileLogger) : FileLogger :=
  mkFileLogger (fLevel l) (Path l) (AppendDate l) (fileSync l) (fileSyncWrite l)
    (logger l) f (rootLogger l).
Definition with_logger (lg : option Writer) (l : FileLogger) : FileLogger :=
  mkFileLogger (fLevel l) (Path l) (AppendDate l) (fileSync l) (fileSyncWrite l)
    lg (file l) (rootLogger l).
Definition with_fileSync (m : ref) (l : FileLogger) : FileLogger :=
  mkFileLogger (fLevel l) (Path l) (AppendDate l) m (fileSyncWrite l)
    (logger l) (file l) (rootLogger l).
Definition with_fileSyncWrite (m : ref) (l : FileLogger) : FileLogger :=
  mkFileLogger (fLevel l) (Path l) (AppendDate l) (fileSync l) m
    (logger l) (file l) (rootLogger l).
Definition with_File (f : ref) (l : Logger) : Logger :=
  mkLogger (lLevel l) (ColoredOutput l) (PrintSource l) (OnlyPrintMessage l)
    (FuncCallIncrement l) (Prefix l) f (colorConf l) (consoleLogger l)
    (consoleLoggerErr l).

(** A struct whose address is taken lives at a fresh address of its
    store.  The global logger has address 0, which is never handed out. *)
Definition allocLogger (v : Logger) : M ref :=
  fun w =>
    let a := fresh ({[ 0%nat ]} ∪ dom (loggers w)) in
    Return (Some a) (set_loggers (<[a := v]> (loggers w)) w).

Definition allocFileLogger (v : FileLogger) : M ref :=
  fun w =>
    let a := fresh (dom (fileLoggers w)) in
    Return (Some a) (set_fileLoggers (<[a := v]> (fileLoggers w)) w).

(** One statement [logger.File.x = file.File.x] of [NewLoggerWithFile]:
    [assign s] writes the field [x] of [s] into its argument. *)
Definition copyFromFile (logger_ file_ : ref)
    (assign : FileLogger -> FileLogger -> FileLogger) : M unit :=
  dst <- loadLogger logger_ ;;
  src <- loadLogger file_ ;;
  s <- loadFileLogger (File src) ;;
  updateFileLogger (File dst) (assign s).

(** [func NewLoggerWithFile(logger *Logger, file *Logger) *Logger] *)
Definition NewLoggerWithFile (fuel : nat) (logger_ file_ : ref) : M ref :=
  copyFromFile logger_ file_ (fun s => with_handle (file s)) ;;;
  copyFromFile logger_ file_ (fun s => with_Path (Path s)) ;;;
  copyFromFile logger_ file_ (fun s => with_logger (logger s)) ;;;
  copyFromFile logger_ file_ (fun s => with_fileSync (fileSync s)) ;;;
  copyFromFile logger_ file_ (fun s => with_fileSyncWrite (fileSyncWrite s)) ;;;
  setup fuel logger_ true ;;;
  ret logger_.

(** [func CloneLogger(logger *Logger) *Logger] *)
Definition CloneLogger (fuel : nat) (logger_ : ref) : M ref :=
  copyIn <- loadLogger logger_ ;;
  copy <- allocLogger copyIn ;;
  c <- loadLogger copy ;;
  fileIn <- loadFileLogger (File c) ;;
  file_ <- allocFileLogger fileIn ;;
  updateLogger copy (with_File file_) ;;;
  updateLogger copy (fun l => with_console None (consoleLoggerErr l) l) ;;;
  updateLogger copy (fun l => with_console (consoleLogger l) None l) ;;;
  NewLoggerWithFile fuel copy logger_.

(** [dLogger = *l]: the global variable always exists, the store may
    just not hold a value for it yet. *)
Definition assignLogger (p : ref) (v : Logger) : M unit :=
  match p with
  | Some a => modify (fun w => set_loggers (<[a := v]> (loggers w)) w)
  | None => panic nil_dereference
  end.



(** [func CloseFile()], the package-level function on the global logger *)
Definition CloseFile_global : M unit :=
  d <- loadLogger dLogger ;;
  CloseFile (File d).

(** [func init()] *)
Definition init (fuel : nat) : M unit :=
  f <- allocFileLogger
         (mkFileLogger LevelInfo EmptyString false None None None None None) ;;
  assignLogger dLogger
    (mkLogger LevelDebug false false false 0 EmptyString f (mkColorConfig false)
       None None) ;;;
  setup fuel dLogger false.

(** ** The legacy variant of logger.go and colors.go

    The earlier single-file logger: the level name comes from a
    [switch] inside [log], and the file is a field of the [Logger]
    itself.  Its [Logger] points to no other struct of the package, so
    the struct behind the receiver is passed in and handed back. *)

Module Legacy.

Record Logger := mkLogger {
  PrintLevel : Level;
  LogLevel : Level;
  LogFilePath : string;
  PrintSource : bool;
  ColoredOutput : bool;
  FuncCallIncrement : Z;
  colorConf : colorConfig;
  consoleLogger : option Writer;
  consoleLoggerErr : option Writer;
  fileLogger : option Writer;
  logFile : ref
}.

Definition with_file (lg : option Writer) (f : ref) (l : Logger) : Logger :=
  mkLogger (PrintLevel l) (LogLevel l) (LogFilePath l) (PrintSource l)
    (ColoredOutput l) (FuncCallIncrement l) (colorConf l) (consoleLogger l)
    (consoleLoggerErr l) lg f.

(** [func color(colorString string) func(str string, parameters ...any) string] *)
Definition color (colorString : string) : string -> list any -> string :=
  fun str parameters => Sprintf colorString [AString (Sprintf str parameters)].

Definition colPurple := color (ESC +:+ "[1;35m%s" +:+ ESC +:+ "[0m").
Definition colPurpleLight := color (ESC +:+ "[0;35m%s" +:+ ESC +:+ "[0m").
Definition colRed := color (ESC +:+ "[1;31m%s" +:+ ESC +:+ "[0m").
Definition colYellow := color (ESC +:+ "[1;33m%s" +:+ ESC +:+ "[0m").
Definition colBlue := color (ESC +:+ "[1;34m%s" +:+ ESC +:+ "[0m").
Definition colCyan := color (ESC +:+ "[1;36m%s" +:+ ESC +:+ "[0m").
Definition colGreen := color (ESC +:+ "[0;32m%s" +:+ ESC +:+ "[0m").

Definition getColor (l : Level) : string -> list any -> string :=
  if l =? LevelTrace then colPurpleLight
  else if l =? LevelDebug then colGreen
  else if l =? LevelInfo then colBlue
  else if l =? LevelWarning then colYellow
  else colRed.

Definition getColored (l : Logger) (message : string)
    (col : string -> list any -> string) : string :=
  if enableColors (colorConf l) then col message [] else message.

Definition getSourceMessage (file : string) (line : Z) (l : Logger) : string :=
  if negb (PrintSource l) then EmptyString
  else
    let fileName := slice_from file (LastIndex file "/" + 1) +:+ ":" +:+ Itoa line in
    " (" +:+ fileName +:+ ")".

(** [func (l *Logger) CloseFile()] *)
Definition CloseFile (l : Logger) : M Logger :=
  match logFile l with
  | Some _ => Close (logFile l) ;;; ret (with_file None None l)
  | None => ret l
  end.

(** The [switch level] of [log]; no case leaves [levelName] empty. *)
Definition levelName (level : Level) : string :=
  if level =? LevelTrace then "TRACE"
  else if level =? LevelDebug then "DEBUG"
  else if level =? LevelInfo then "INFO "
  else if level =? LevelWarning then "WARN "
  else if level =? LevelError then "ERROR"
  else if level =? LevelFatal then "FATAL"
  else EmptyString.

(** [func (l *Logger) log(level Level, message string, parameters ...any)] *)
Definition log (l : Logger) (level : Level) (message : string)
    (parameters : list any) : M Logger :=
  c <- Caller (3 + FuncCallIncrement l) ;;
  let '(file, line) := default ("#unknown"%string, 0) c in
  let name := levelName level in
  let '(message, name, level) :=
    if String.eqb name EmptyString
    then (Sprintf "Invalid level value given: %d. Original message: " [AInt level]
            +:+ message, "WARN "%string, LevelWarning)
    else (message, name, level) in
  now <- get clock ;;
  let printMessage :=
    "[" +:+ name +:+ "] " +:+ format_date_time now +:+
      getSourceMessage file line l +:+ " - " +:+ Sprintf message parameters in
  let printMessageColored :=
    getColored l ("[" +:+ name +:+ "] ") (getColor level) +:+
      getColored l (format_date_time now) colCyan +:+
      getColored l (getSourceMessage file line l) colPurple +:+ " - " +:+
      getColored l (Sprintf message parameters) (getColor level) in
  l' <- (if ((LogLevel l <=? level) && bool_decide (fileLogger l <> None))%bool then
           Println (fileLogger l) printMessage ;;;
           Sync (logFile l) ;;;
           if level =? LevelFatal then CloseFile l else ret l
         else ret l) ;;
  (if PrintLevel l' <=? level then
     if level =? LevelError then Println (consoleLoggerErr l') printMessageColored
     else if level =? LevelFatal then Fatal_ (consoleLoggerErr l') printMessageColored
     else Println (consoleLogger l') printMessageColored
   else ret tt) ;;;
  ret l'.

(** [func (l *Logger) Log(level Level, message string, parameters ...any)] *)
Definition Log := log.

End Legacy.

(** ** The specification's reading of the path rule and of the line layout *)

Module Spec.

(** Every backslash turned into a slash, byte by byte. *)
Definition slash_byte (c : ascii) : ascii :=
  if Ascii.eqb c (ascii_of_nat 92) then "/"%char else c.

Fixpoint canonical (s : string) : string :=
  match s with
  | EmptyString => EmptyString
  | String c r => String (slash_byte c) (canonical r)
  end.

Fixpoint has_slash (s : string) : bool :=
  match s with
  | EmptyString => false
  | String c r => (Ascii.eqb c "/" || has_slash r)%bool
  end.

Fixpoint ends_with_slash (s : string) : bool :=
  match s with
  | EmptyString => false
  | String c EmptyString => Ascii.eqb c "/"
  | String _ r => ends_with_slash r
  end.

(** The path rule in the specification's words: backslashes become
    slashes; with date suffixing on, a path that ends with a slash gets
    the date directly, every other path gets a dot and the date. *)
Definition path (l : FileLogger) (date : string) : string :=
  let p := canonical (Path l) in
  if AppendDate l then
    if ends_with_slash p then p +:+ date else p +:+ "." +:+ date
  else p.

Definition is_digit (c : ascii) : bool :=
  let n := nat_of_ascii c in ((48 <=? n)%nat && (n <=? 57)%nat)%bool.

(** The shape YYYY-MM-DD: ten bytes, digits around two dashes. *)
Definition date_form (s : string) : bool :=
  match s with
  | String y1 (String y2 (String y3 (String y4 (String d1
      (String m1 (String m2 (String d2 (String a1 (String a2 EmptyString))))))))) =>
      (is_digit y1 && is_digit y2 && is_digit y3 && is_digit y4 && Ascii.eqb d1 "-"
       && is_digit m1 && is_digit m2 && Ascii.eqb d2 "-" && is_digit a1 && is_digit a2)%bool
  | _ => false
  end.

(** The shape YYYY-MM-DD HH:MM:SS. *)
Definition date_time_form (s : string) : bool :=
  (date_form (substring 0 10 s) &&
   match Strings.drop 10 s with
   | String sp (String h1 (String h2 (String c1 (String m1 (String m2
       (String c2 (String s1 (String s2 EmptyString)))))))) =>
       (Ascii.eqb sp " " && is_digit h1 && is_digit h2 && Ascii.eqb c1 ":"
        && is_digit m1 && is_digit m2 && Ascii.eqb c2 ":" && is_digit s1 && is_digit s2)%bool
   | _ => false
   end)%bool.

(** Padding with spaces on the left up to [width] bytes. *)
Definition pad_left (width : nat) (s : string) : string :=
  spaces (width - String.length s) +:+ s.

(** The line as the specification words it:
    [[LEVELNAME] YYYY-MM-DD HH:MM:SS (file:line) PREFIX - message], the
    fields one space apart, the locator left out when [PrintSource] is
    off, the prefix left out when empty, the level name padded on the
    left to five bytes. *)
Definition line (l : Logger) (level : Level) (message : string)
    (file : string) (ln : Z) (now : Clock) : string :=
  "[" +:+ pad_left 5 (String_ level) +:+ "] " +:+ format_date_time now +:+
    (if PrintSource l
     then " (" +:+ slice_from file (LastIndex file "/" + 1) +:+ ":" +:+ Itoa ln +:+ ")"
     else EmptyString) +:+
    (if String.eqb (Prefix l) EmptyString then EmptyString else " " +:+ Prefix l) +:+
    " - " +:+ message.

(** The note the legacy logger puts in front of a message whose level
    is no value of the enumeration. *)
Definition invalid_level_note (level : Level) : string :=
  "Invalid level value given: " +:+ Itoa level +:+ ". Original message: ".

End Spec.

(** ** Notions the statements use *)

(** A mutex nobody holds. *)
Definition unlocked : RWMutex := mkRWMutex 0 false.

(** One more line at the end of the file at [p]. *)
Definition append_line (p line : string) (d : gmap string (list string)) :
    gmap string (list string) :=
  <[p := default [] (d !! p) ++ [line]]> d.

(** The logger at [a] as [setup] leaves it: both console writers
    installed, the sink [f] attached and pointing back at [a]. *)
Record ready (w : World) (a : nat) (lg : Logger) (f : nat) (fl : FileLogger) : Prop :=
  mkReady {
    ready_logger : loggers w !! a = Some lg;
    ready_out : consoleLogger lg = Some Stdout;
    ready_err : consoleLoggerErr lg = Some Stderr;
    ready_File : File lg = Some f;
    ready_sink : fileLoggers w !! f = Some fl;
    ready_root : rootLogger fl = Some a
  }.

(** The sink holds the open handle [h], named [n], and the [log.Logger]
    on it; its two mutexes are distinct and free. *)
Record sink_open (w : World) (fl : FileLogger) (h m1 m2 : nat) (n : string) : Prop :=
  mkSinkOpen {
    open_file : file fl = Some h;
    open_logger : logger fl = Some (FileWriter h);
    open_fileSync : fileSync fl = Some m1;
    open_fileSyncWrite : fileSyncWrite fl = Some m2;
    open_distinct : m1 <> m2;
    open_free1 : mutexes w !! m1 = Some unlocked;
    open_free2 : mutexes w !! m2 = Some unlocked;
    open_handle : files w !! h = Some (mkOsFile n false)
  }.

(** The path [getFilePath] computes for [fl] in [w]. *)
Definition current_path (w : World) (fl : FileLogger) : string :=
  Spec.path fl (format_date (clock w)).

(** The file a write through the sink ends up in: with date suffixing
    the path of today, without it the file the handle is on. *)
Definition target_path (w : World) (fl : FileLogger) (n : string) : string :=
  if AppendDate fl then current_path w fl else n.

(** A rotation is due: date suffixing is on and the handle's name is
    not today's path. *)
Definition rotation_due (w : World) (fl : FileLogger) (n : string) : Prop :=
  AppendDate fl = true /\ n <> current_path w fl.

(** File and line [log] gets from [runtime.Caller]. *)
Definition source_of (w : World) (lg : Logger) : string * Z :=
  default ("#unknown"%string, 0) (callers w (3 + FuncCallIncrement lg)).

(** The line [log] hands to the file, and the one it hands to the console. *)
Definition plain_line (w : World) (lg : Logger) (level : Level) (message : string)
    (parameters : list any) : string :=
  printMessage lg level message parameters (source_of w lg).1 (source_of w lg).2 (clock w).

Definition console_line (w : World) (lg : Logger) (level : Level) (message : string)
    (parameters : list any) : string :=
  printMessageColored lg level message parameters (source_of w lg).1 (source_of w lg).2
    (clock w).

(** The file gate of [log]. *)
Definition file_gate (fl : FileLogger) (level : Level) : bool :=
  ((fLevel fl <=? level) && bool_decide (logger fl <> None))%bool.

(** Bounded universal quantification, for checks by computation. *)
Fixpoint all_below (n : nat) (P : nat -> bool) : bool :=
  match n with
  | O => true
  | S k => (P k && all_below k P)%bool
  end.

Definition digits_only (n : nat) (s : string) : bool :=
  (Nat.eqb (String.length s) n && forallb Spec.is_digit (list_ascii_of_string s))%bool.

(** The last statement of [writeToFile]: a fatal line closes the file. *)
Definition fatal_close (f : nat) (level : Level) : M unit :=
  if level =? LevelFatal then CloseFile (Some f) else ret tt.

(** What one successful [writeToFile] of [msg] leaves behind: [h] was
    the handle before the call, [h'] is the handle the line went
    through. *)
Record written (w w' : World) (f : nat) (fl : FileLogger) (h h' : nat)
    (n msg : string) (level : Level) : Prop :=
  mkWritten {
    written_disk : disk w' = append_line (target_path w fl n) msg (disk w);
    written_stdout : stdout w' = stdout w;
    written_stderr : stderr w' = stderr w;
    written_loggers : loggers w' = loggers w;
    written_mutexes : mutexes w' = mutexes w;
    written_handle :
      files w' !! h' = Some (mkOsFile (target_path w fl n) (level =? LevelFatal));
    written_sink :
      fileLoggers w' =
        <[f := if level =? LevelFatal then with_file None None fl
               else with_file (Some (FileWriter h')) (Some h') fl]> (fileLoggers w);
    written_rotated : rotation_due w fl n -> h' <> h /\ files w' !! h = Some (mkOsFile n true);
    written_kept : ~ rotation_due w fl n -> h' = h;
    written_clock : clock w' = clock w;
    written_callers : callers w' = callers w;
    written_open_error : open_error w' = open_error w
  }.

(** The sink can take a line: it has no [log.Logger] at all, or it is
    open and the file of a due rotation can be opened. *)
Definition sink_usable (w : World) (fl : FileLogger) : Prop :=
  logger fl = None \/
  exists h m1 m2 n,
    sink_open w fl h m1 m2 n /\
    (rotation_due w fl n -> open_error w (current_path w fl) = None).

(** What the console half of [log] prints of [line] on each stream. *)
Definition stdout_lines (lg : Logger) (level : Level) (line : string) : list string :=
  if ((lLevel lg <=? level) && negb (level =? LevelError) && negb (level =? LevelFatal))%bool
  then [line] else [].

Definition stderr_lines (lg : Logger) (level : Level) (line : string) : list string :=
  if ((lLevel lg <=? level) && ((level =? LevelError) || (level =? LevelFatal)))%bool
  then [line] else [].

(** ** A running example

    The global logger of main.go in miniature: console threshold Error,
    file threshold Debug, one log file per day under [logs]. *)

Module Demo.

Definition april10 : Clock := mkClock 2024 4 10 19 0 0.
Definition april11 : Clock := mkClock 2024 4 11 0 0 1.

Definition stack : Z -> option (string * Z) :=
  fun _ => Some ("/src/app/main.go"%string, 42).

Definition today : string := "logs/app.log.2024-04-10".
Definition tomorrow : string := "logs/app.log.2024-04-11".

(** The sink after a successful [setup] on April 10. *)
Definition sink : FileLogger :=
  mkFileLogger LevelDebug ("logs" +:+ backslash +:+ "app.log") true
    (Some 0%nat) (Some 1%nat) (Some (FileWriter 0%nat)) (Some 0%nat) (Some 7%nat).

Definition facade : Logger :=
  mkLogger LevelError false true false 0 "PREFIX" (Some 1%nat) (mkColorConfig false)
    (Some Stdout) (Some Stderr).

Definition world : World :=
  mkWorld april10 Unix ∅ stack (fun _ => None)
    {[ today := ["an earlier line"%string] ]} [] []
    {[ 0%nat := mkOsFile today false ]}
    {[ 0%nat := unlocked; 1%nat := unlocked ]}
    {[ 1%nat := sink ]}
    {[ 7%nat := facade ]}.

(** The directory turns read-only: tomorrow's file cannot be created. *)
Definition read_only : string -> option string :=
  fun p => if String.eqb p tomorrow then Some "permission denied"%string else None.

Definition next_day_read_only : World :=
  mkWorld april11 Unix ∅ stack read_only
    {[ today := ["an earlier line"%string] ]} [] []
    {[ 0%nat := mkOsFile today false ]}
    {[ 0%nat := unlocked; 1%nat := unlocked ]}
    {[ 1%nat := sink ]}
    {[ 7%nat := facade ]}.

(** A configuration as the caller writes it down, before [setup]. *)
Definition fresh_sink : FileLogger :=
  mkFileLogger LevelDebug ("logs" +:+ backslash +:+ "app.log") true
    None None None None None.

Definition fresh_facade : Logger :=
  mkLogger LevelError false true false 0 "PREFIX" (Some 1%nat) (mkColorConfig false)
    None None.

Definition fresh_world : World :=
  mkWorld april10 Unix ∅ stack (fun _ => None) ∅ [] [] ∅ ∅
    {[ 1%nat := fresh_sink ]} {[ 7%nat := fresh_facade ]}.

(** [setup] has installed the console writers and the back reference
    and is about to call [openFile], but no log file can be opened. *)
Definition unopened_sink : FileLogger :=
  mkFileLogger LevelDebug ("logs" +:+ backslash +:+ "app.log") true
    None None None None (Some 7%nat).

Definition no_disk : string -> option string :=
  fun _ => Some "no such file or directory"%string.

Definition no_disk_world : World :=
  mkWorld april10 Unix ∅ stack no_disk ∅ [] [] ∅ ∅
    {[ 1%nat := unopened_sink ]} {[ 7%nat := facade ]}.

(** A facade that prints the message alone. *)
Definition bare_facade : Logger :=
  mkLogger LevelError false true true 0 "PREFIX" (Some 1%nat) (mkColorConfig false)
    (Some Stdout) (Some Stderr).

Definition bare_world : World :=
  mkWorld april10 Unix ∅ stack (fun _ => None)
    {[ today := ["an earlier line"%string] ]} [] []
    {[ 0%nat := mkOsFile today false ]}
    {[ 0%nat := unlocked; 1%nat := unlocked ]}
    {[ 1%nat := sink ]}
    {[ 7%nat := bare_facade ]}.

(** A legacy logger with both thresholds at Trace and no file. *)
Definition legacy : Legacy.Logger :=
  Legacy.mkLogger LevelTrace LevelTrace EmptyString false false 0 (mkColorConfig false)
    (Some Stdout) (Some Stderr) None None.

End Demo.

(** ** Sequences of calls *)

(** A caller logging one message after the other through the same
    logger, none with parameters. *)
Fixpoint LogEach (fuel : nat) (l : ref) (calls : list (Level * string)) : M unit :=
  match calls with
  | [] => ret tt
  | c :: rest => Log fuel l c.1 c.2 [] ;;; LogEach fuel l rest
  end.

(** The calls that pass the threshold [min], in call order. *)
Definition passing (min : Level) (calls : list (Level * string)) : list (Level * string) :=
  List.filter (fun c => min <=? c.1) calls.

(** The handle [h] of the sink was closed behind its back: the sink
    still points at it and at its [log.Logger]. *)
Record sink_stale (w : World) (fl : FileLogger) (h m1 m2 : nat) (n : string) : Prop :=
  mkSinkStale {
    stale_file : file fl = Some h;
    stale_logger : logger fl = Some (FileWriter h);
    stale_fileSync : fileSync fl = Some m1;
    stale_fileSyncWrite : fileSyncWrite fl = Some m2;
    stale_distinct : m1 <> m2;
    stale_free1 : mutexes w !! m1 = Some unlocked;
    stale_free2 : mutexes w !! m2 = Some unlocked;
    stale_handle : files w !! h = Some (mkOsFile n true)
  }.

(** The terminal can be asked whether it takes colors: the one thing
    that makes [newColorConfig] panic is a console that cannot be
    reached on Windows. *)
Definition terminal_known (w : World) : Prop := platform w <> Windows None.

(** [newColorConfig] as a function of the environment and the
    platform. *)
Definition colors_decided (enable : bool) (w : World) : Outcome colorConfig :=
  if enable then
    match environ w !! "TERMINAL_DISABLE_COLORS"%string with
    | Some _ => Return (mkColorConfig false) w
    | None =>
        match environ w !! "TERMINAL_ENABLE_COLORS"%string with
        | Some _ => Return (mkColorConfig true) w
        | None =>
            match platform w with
            | Unix =>
                Return (mkColorConfig
                  (negb (String.eqb (default EmptyString (environ w !! "TERM"%string))
                           EmptyString))) w
            | Windows (Some b) => Return (mkColorConfig b) w
            | Windows None => Panic "console access failed"%string w
            end
        end
    end
  else Return (mkColorConfig false) w.

(** The sink of a logger at [a] after [NewLoggerWithFile] took the
    file of [src]: threshold and date suffixing are its own, the rest
    is the other's. *)
Definition sharing (a : nat) (own src : FileLogger) : FileLogger :=
  mkFileLogger (fLevel own) (Path src) (AppendDate own) (fileSync src) (fileSyncWrite src)
    (logger src) (file src) (Some a).

(** The number a string of decimal digits stands for. *)
Fixpoint digits_value_from (acc : Z) (s : string) : Z :=
  match s with
  | EmptyString => acc
  | String c r => digits_value_from (10 * acc + (Z.of_nat (nat_of_ascii c) - 48)) r
  end.

Definition digits_value (s : string) : Z := digits_value_from 0 s.

(** Two clocks show the same calendar day. *)
Definition same_day (t1 t2 : Clock) : Prop :=
  year t1 = year t2 /\ month t1 = month t2 /\ day t1 = day t2.

(** ** Further examples *)

Module Cases.

(** A logger whose [File] was never assigned. *)
Definition detached : Logger :=
  mkLogger LevelInfo false false false 0 EmptyString None (mkColorConfig false) None None.

Definition detached_world : World :=
  mkWorld Demo.april10 Unix ∅ Demo.stack (fun _ => None) ∅ [] [] ∅ ∅ ∅
    {[ 3%nat := detached ]}.

(** Thresholds above Fatal, picked to silence a logger. *)
Definition silent_sink : FileLogger :=
  mkFileLogger 7 EmptyString false None None None None None.

Definition silent_facade : Logger :=
  mkLogger 9 false false false 0 EmptyString (Some 1%nat) (mkColorConfig false) None None.

Definition silent_world : World :=
  mkWorld Demo.april10 Unix ∅ Demo.stack (fun _ => None) ∅ [] [] ∅ ∅
    {[ 1%nat := silent_sink ]} {[ 7%nat := silent_facade ]}.




(** A second configuration that is to write into the file of the
    running example: warnings and worse, no date of its own. *)
Definition audit_sink : FileLogger :=
  mkFileLogger LevelWarning EmptyString false None None None None None.

Definition audit : Logger :=
  mkLogger LevelFatal false false false 0 "AUDIT" (Some 2%nat) (mkColorConfig false)
    None None.

Definition two_configs : World :=
  mkWorld Demo.april10 Unix ∅ Demo.stack (fun _ => None)
    {[ Demo.today := ["an earlier line"%string] ]} [] []
    {[ 0%nat := mkOsFile Demo.today false ]}
    {[ 0%nat := unlocked; 1%nat := unlocked ]}
    {[ 1%nat := Demo.sink; 2%nat := audit_sink ]}
    {[ 7%nat := Demo.facade; 8%nat := audit ]}.

(** The same after [NewLoggerWithFile]: both sinks on one handle. *)
Definition audit_sink_shared : FileLogger :=
  mkFileLogger LevelWarning ("logs" +:+ backslash +:+ "app.log") false
    (Some 0%nat) (Some 1%nat) (Some (FileWriter 0%nat)) (Some 0%nat) (Some 8%nat).

Definition audit_ready : Logger :=
  mkLogger LevelFatal false false false 0 "AUDIT" (Some 2%nat) (mkColorConfig false)
    (Some Stdout) (Some Stderr).

Definition shared : World :=
  mkWorld Demo.april10 Unix ∅ Demo.stack (fun _ => None)
    {[ Demo.today := ["an earlier line"%string] ]} [] []
    {[ 0%nat := mkOsFile Demo.today false ]}
    {[ 0%nat := unlocked; 1%nat := unlocked ]}
    {[ 1%nat := Demo.sink; 2%nat := audit_sink_shared ]}
    {[ 7%nat := Demo.facade; 8%nat := audit_ready ]}.

(** The next day, before anyone has logged. *)
Definition shared_next_day : World :=
  mkWorld Demo.april11 Unix ∅ Demo.stack (fun _ => None)
    {[ Demo.today := ["an earlier line"%string] ]} [] []
    {[ 0%nat := mkOsFile Demo.today false ]}
    {[ 0%nat := unlocked; 1%nat := unlocked ]}
    {[ 1%nat := Demo.sink; 2%nat := audit_sink_shared ]}
    {[ 7%nat := Demo.facade; 8%nat := audit_ready ]}.

(** A logger that asks for colors. *)
Definition colorful : Logger :=
  mkLogger LevelDebug true false true 0 EmptyString (Some 1%nat) (mkColorConfig false)
    None None.

(** A sink without date suffix, open on its path. *)
Definition plain_sink : FileLogger :=
  mkFileLogger LevelInfo "app.log" false
    (Some 0%nat) (Some 1%nat) (Some (FileWriter 0%nat)) (Some 0%nat) (Some 7%nat).

Definition chatty : Logger :=
  mkLogger LevelWarning false false true 0 EmptyString (Some 1%nat) (mkColorConfig false)
    (Some Stdout) (Some Stderr).

Definition plain_world : World :=
  mkWorld Demo.april10 Unix ∅ Demo.stack (fun _ => None)
    {[ "app.log"%string := [] ]} [] []
    {[ 0%nat := mkOsFile "app.log" false ]}
    {[ 0%nat := unlocked; 1%nat := unlocked ]}
    {[ 1%nat := plain_sink ]}
    {[ 7%nat := chatty ]}.

(** The running example started with both level variables set. *)
Definition from_env : World :=
  mkWorld Demo.april10 Unix
    {[ "LOGGER_LEVEL"%string := "Warning"%string;
       "LOGGER_FILE_LEVEL"%string := "panic"%string ]}
    Demo.stack (fun _ => None) ∅ [] [] ∅ ∅
    {[ 1%nat := Demo.fresh_sink ]} {[ 7%nat := Demo.fresh_facade ]}.

(** The terminal cannot be probed. *)
Definition no_console : World :=
  mkWorld Demo.april10 (Windows None) ∅ Demo.stack (fun _ => None) ∅ [] [] ∅ ∅
    {[ 1%nat := silent_sink ]}
    {[ 7%nat := colorful ]}.

End Cases.

(** * Properties *)

(** ** Strings *)

Lemma prefix_slash (s : string) :
  String.prefix "/" s = match s with String c _ => Ascii.eqb c "/" | EmptyString => false end.
Proof.
  destruct s as [|c r]; [reflexivity|].
  cbn [String.prefix]. destruct (ascii_dec "/" c) as [<-|Hne].
  - destruct r; reflexivity.
  - symmetry. apply Ascii.eqb_neq. congruence.
Qed.

Lemma ReplaceAll_backslash (s : string) :
  ReplaceAll s backslash "/" = Spec.canonical s.
Proof.
  unfold ReplaceAll. induction s as [|c r IH]; [reflexivity|].
  cbn [replace_from Spec.canonical]. unfold Spec.slash_byte.
  change (String.prefix backslash (String c r))
    with (if ascii_dec (ascii_of_nat 92) c then String.prefix EmptyString r else false).
  destruct (ascii_dec (ascii_of_nat 92) c) as [<-|Hne].
  - replace (String.prefix EmptyString r) with true by (destruct r; reflexivity).
    cbn. now rewrite IH.
  - replace (Ascii.eqb c (ascii_of_nat 92)) with false
      by (symmetry; apply Ascii.eqb_neq; congruence).
    now rewrite IH.
Qed.

Lemma canonical_get (s : string) (i : nat) :
  String.get i (Spec.canonical s) = Spec.slash_byte <$> String.get i s.
Proof.
  revert i. induction s as [|c r IH]; intros [|i]; cbn; try reflexivity. apply IH.
Qed.

Lemma canonical_no_backslash (s : string) (i : nat) :
  String.get i (Spec.canonical s) <> Some (ascii_of_nat 92).
Proof.
  rewrite canonical_get. destruct (String.get i s) as [c|]; cbn; [|discriminate].
  unfold Spec.slash_byte. destruct (Ascii.eqb c (ascii_of_nat 92)) eqn:E.
  - discriminate.
  - apply Ascii.eqb_neq in E. congruence.
Qed.

Lemma app_nil_l (b : string) : EmptyString +:+ b = b.
Proof. reflexivity. Qed.

Lemma app_cons (c : ascii) (a b : string) : String c a +:+ b = String c (a +:+ b).
Proof. reflexivity. Qed.

Lemma last_index_no_slash (s : string) (i acc : Z) :
  Spec.has_slash s = false -> last_index_from "/" i acc s = acc.
Proof.
  revert i acc. induction s as [|c r IH]; intros i acc H.
  - reflexivity.
  - cbn [Spec.has_slash] in H. apply orb_false_iff in H as [Hc Hr].
    cbn [last_index_from]. rewrite prefix_slash, Hc. now apply IH.
Qed.

Lemma last_index_last_slash (q r : string) (i acc : Z) :
  Spec.has_slash r = false ->
  last_index_from "/" i acc (q +:+ "/" +:+ r) = i + len q.
Proof.
  revert i acc. induction q as [|c q IH]; intros i acc H.
  - rewrite app_nil_l, app_cons. cbn [last_index_from]. rewrite prefix_slash.
    rewrite (proj2 (Ascii.eqb_eq _ _) eq_refl), app_nil_l.
    rewrite last_index_no_slash by assumption. unfold len. cbn [String.length]. lia.
  - rewrite app_cons. cbn [last_index_from]. rewrite IH by assumption.
    unfold len. cbn [String.length]. lia.
Qed.

Lemma len_app (a b : string) : len (a +:+ b) = len a + len b.
Proof.
  unfold len. induction a as [|c a IH]; [rewrite app_nil_l; cbn; lia|].
  rewrite app_cons. cbn [String.length]. rewrite !Nat2Z.inj_succ. lia.
Qed.


(** ** Dates *)

Lemma all_below_spec (n : nat) (P : nat -> bool) :
  all_below n P = true -> forall k, (k < n)%nat -> P k = true.
Proof.
  induction n as [|n IH]; intros H k Hk; [lia|].
  cbn in H. apply andb_true_iff in H as [H1 H2].
  destruct (Nat.eq_dec k n) as [->|Hne]; [assumption|]. apply IH; [assumption|lia].
Qed.

Lemma zero_pad_digits (width : nat) (bound : Z) (z : Z) :
  all_below (Z.to_nat bound)
    (fun k => digits_only width (zero_pad width (Z.of_nat k))) = true ->
  0 <= z < bound ->
  digits_only width (zero_pad width z) = true.
Proof.
  intros Hall Hz. rewrite <- (Z2Nat.id z) by lia.
  apply (all_below_spec _ _ Hall). lia.
Qed.

Lemma zero_pad_4 (z : Z) : 0 <= z <= 9999 -> digits_only 4 (zero_pad 4 z) = true.
Proof.
  intros H. apply (zero_pad_digits 4 10000); [vm_compute; reflexivity|lia].
Qed.

Lemma zero_pad_2 (z : Z) : 0 <= z <= 99 -> digits_only 2 (zero_pad 2 z) = true.
Proof.
  intros H. apply (zero_pad_digits 2 100); [vm_compute; reflexivity|lia].
Qed.

Lemma digits_only_2 (s : string) :
  digits_only 2 s = true ->
  exists a b, s = String a (String b EmptyString) /\
    Spec.is_digit a = true /\ Spec.is_digit b = true.
Proof.
  unfold digits_only. destruct s as [|a [|b [|c r]]]; cbn; try discriminate.
  intros H. exists a, b. rewrite !andb_true_iff in H. tauto.
Qed.

Lemma digits_only_4 (s : string) :
  digits_only 4 s = true ->
  exists a b c d, s = String a (String b (String c (String d EmptyString))) /\
    Spec.is_digit a = true /\ Spec.is_digit b = true /\
    Spec.is_digit c = true /\ Spec.is_digit d = true.
Proof.
  unfold digits_only. destruct s as [|a [|b [|c [|d [|e r]]]]]; cbn; try discriminate.
  intros H. exists a, b, c, d. rewrite !andb_true_iff in H. tauto.
Qed.

Lemma format_date_form (t : Clock) :
  valid_clock t -> Spec.date_form (format_date t) = true.
Proof.
  intros (Hy & Hm & Hd & _). unfold format_date.
  destruct (digits_only_4 _ (zero_pad_4 (year t) Hy)) as (y1 & y2 & y3 & y4 & -> & ? & ? & ? & ?).
  destruct (digits_only_2 _ (zero_pad_2 (month t) ltac:(lia))) as (m1 & m2 & -> & ? & ?).
  destruct (digits_only_2 _ (zero_pad_2 (day t) ltac:(lia))) as (d1 & d2 & -> & ? & ?).
  repeat first [rewrite app_cons | rewrite app_nil_l]. cbn [Spec.date_form].
  repeat match goal with H : Spec.is_digit _ = true |- _ => rewrite H; clear H end.
  reflexivity.
Qed.

Lemma format_date_time_form (t : Clock) :
  valid_clock t -> Spec.date_time_form (format_date_time t) = true.
Proof.
  intros (Hy & Hm & Hd & Hh & Hmi & Hs). unfold format_date_time, format_date.
  destruct (digits_only_4 _ (zero_pad_4 (year t) Hy)) as (y1 & y2 & y3 & y4 & -> & ? & ? & ? & ?).
  destruct (digits_only_2 _ (zero_pad_2 (month t) ltac:(lia))) as (m1 & m2 & -> & ? & ?).
  destruct (digits_only_2 _ (zero_pad_2 (day t) ltac:(lia))) as (d1 & d2 & -> & ? & ?).
  destruct (digits_only_2 _ (zero_pad_2 (hour t) ltac:(lia))) as (h1 & h2 & -> & ? & ?).
  destruct (digits_only_2 _ (zero_pad_2 (minute t) ltac:(lia))) as (i1 & i2 & -> & ? & ?).
  destruct (digits_only_2 _ (zero_pad_2 (second t) ltac:(lia))) as (s1 & s2 & -> & ? & ?).
  repeat first [rewrite app_cons | rewrite app_nil_l]. unfold Spec.date_time_form.
  cbn [substring Strings.drop Spec.date_form].
  repeat match goal with H : Spec.is_digit _ = true |- _ => rewrite H; clear H end.
  reflexivity.
Qed.

(** ** The path rule *)

Lemma ends_with_slash_app (q : string) : Spec.ends_with_slash (q +:+ "/") = true.
Proof.
  induction q as [|c q IH]; [reflexivity|].
  rewrite app_cons. cbn [Spec.ends_with_slash]. rewrite IH.
  destruct q; reflexivity.
Qed.

Lemma ends_with_slash_inv (s : string) :
  Spec.ends_with_slash s = true -> exists q, s = q +:+ "/".
Proof.
  induction s as [|c r IH]; [discriminate|].
  cbn [Spec.ends_with_slash]. destruct r as [|c' r'].
  - intros H. apply Ascii.eqb_eq in H. subst. now exists EmptyString.
  - intros H. destruct (IH H) as [q Hq]. exists (String c q). now rewrite app_cons, <- Hq.
Qed.

Lemma ends_with_slash_tail (q r : string) :
  r <> EmptyString -> Spec.has_slash r = false ->
  Spec.ends_with_slash (q +:+ "/" +:+ r) = false.
Proof.
  intros Hr Hs.
  assert (Hend : Spec.ends_with_slash r = false).
  { clear Hr. induction r as [|c r IH]; [reflexivity|].
    cbn [Spec.has_slash] in Hs. apply orb_false_iff in Hs as [Hc Hs].
    cbn [Spec.ends_with_slash]. destruct r; [assumption|now apply IH]. }
  assert (Hcons : forall c, Spec.ends_with_slash (String c r) = false).
  { intros c. cbn [Spec.ends_with_slash]. destruct r; [congruence|assumption]. }
  induction q as [|c q IH].
  - rewrite app_nil_l, app_cons, app_nil_l. apply Hcons.
  - rewrite app_cons. cbn [Spec.ends_with_slash].
    destruct (q +:+ "/" +:+ r) eqn:E; [|assumption].
    destruct q; rewrite ?app_nil_l, ?app_cons in E; discriminate.
Qed.

Lemma no_slash_not_ends (s : string) :
  Spec.has_slash s = false -> Spec.ends_with_slash s = false.
Proof.
  induction s as [|c r IH]; [reflexivity|].
  cbn [Spec.has_slash]. intros H. apply orb_false_iff in H as [Hc Hr].
  cbn [Spec.ends_with_slash]. destruct r; [assumption|now apply IH].
Qed.

(** A string has no slash, or splits at its last slash. *)
Lemma split_last_slash (s : string) :
  Spec.has_slash s = false \/
  exists q r, s = q +:+ "/" +:+ r /\ Spec.has_slash r = false.
Proof.
  induction s as [|c s IH]; [now left|].
  destruct IH as [Hno|(q & r & -> & Hr)].
  - destruct (Ascii.eqb c "/") eqn:E.
    + right. apply Ascii.eqb_eq in E. subst. exists EmptyString, s. now split.
    + left. cbn [Spec.has_slash]. now rewrite E, Hno.
  - right. exists (String c q), r. now split.
Qed.

Lemma len_nonneg (s : string) : 0 <= len s.
Proof. unfold len. lia. Qed.

(** The branch [getFilePath] takes is the one the rule names. *)
Lemma dot_branch (p : string) :
  let lastSlash := LastIndex p "/" in
  ((negb (lastSlash =? -1) && (lastSlash + 1 <? len p)) || (lastSlash =? -1))%bool
    = negb (Spec.ends_with_slash p).
Proof.
  cbn zeta. unfold LastIndex.
  destruct (split_last_slash p) as [Hno|(q & r & -> & Hr)].
  - rewrite last_index_no_slash, no_slash_not_ends by assumption. reflexivity.
  - rewrite last_index_last_slash by assumption.
    pose proof (len_nonneg q) as Hq. pose proof (len_nonneg r) as Hlr.
    replace (0 + len q =? -1) with false by (symmetry; apply Z.eqb_neq; lia).
    rewrite !len_app. change (len "/") with 1. cbn [negb andb orb].
    destruct r as [|c r].
    + rewrite ends_with_slash_app.
      rewrite orb_false_r. apply Z.ltb_ge. change (len EmptyString) with 0. lia.
    + rewrite ends_with_slash_tail by (assumption || discriminate).
      rewrite orb_false_r. apply Z.ltb_lt.
      unfold len. cbn [String.length]. lia.
Qed.

Lemma run_bind {A B} (m : M A) (k : A -> M B) (w w' : World) (a : A) :
  m w = Return a w' -> bind m k w = k a w'.
Proof. intros H. unfold bind. now rewrite H. Qed.

Lemma bind_ret {A B} (a : A) (k : A -> M B) (w : World) : bind (ret a) k w = k a w.
Proof. reflexivity. Qed.

Lemma bind_assoc {A B C} (m : M A) (k : A -> M B) (k' : B -> M C) (w : World) :
  bind (bind m k) k' w = bind m (fun a => bind (k a) k') w.
Proof. unfold bind. destruct (m w); reflexivity. Qed.

Lemma bind_eq {A B} (m m' : M A) (k : A -> M B) (w w0 : World) :
  m w = m' w0 -> bind m k w = bind m' k w0.
Proof. intros H. unfold bind. now rewrite H. Qed.

Lemma bind_then {A B} (m : M A) (k : A -> M B) (w : World) (o : Outcome A) :
  m w = o -> bind m k w = and_then o k.
Proof. intros H. unfold bind. now rewrite H. Qed.

Lemma load_Some {A} (store : World -> gmap nat A) (a : nat) (x : A) (w : World) :
  store w !! a = Some x -> load store (Some a) w = Return x w.
Proof. intros H. unfold load. now rewrite H. Qed.

Lemma getFilePath_spec (w : World) (a : nat) (fl : FileLogger) :
  fileLoggers w !! a = Some fl ->
  getFilePath (Some a) w = Return (current_path w fl) w.
Proof.
  intros H. unfold getFilePath, loadFileLogger.
  rewrite (run_bind _ _ _ _ _ (load_Some fileLoggers a fl w H)).
  unfold current_path, Spec.path. rewrite ReplaceAll_backslash.
  destruct (AppendDate fl); [|reflexivity].
  pose proof (dot_branch (Spec.canonical (Path fl))) as Hb. cbn zeta in Hb.
  destruct (Spec.ends_with_slash (Spec.canonical (Path fl))).
  - apply orb_false_iff in Hb as [-> ->]. reflexivity.
  - apply orb_true_iff in Hb as [->| ->]; [reflexivity|].
    destruct (_ && _)%bool; reflexivity.
Qed.

(** ** Running the primitives *)

Lemma RLock_free (a : nat) (m : RWMutex) (w : World) :
  mutexes w !! a = Some m -> writer m = false ->
  RLock (Some a) w =
    Return tt (set_mutexes (<[a := mkRWMutex (S (readers m)) false]> (mutexes w)) w).
Proof.
  intros H Hw. unfold RLock, updateMutex.
  rewrite (run_bind _ _ _ _ _ (load_Some mutexes a m w H)). rewrite Hw. reflexivity.
Qed.

Lemma RUnlock_held (a : nat) (n : nat) (b : bool) (w : World) :
  mutexes w !! a = Some (mkRWMutex (S n) b) ->
  RUnlock (Some a) w = Return tt (set_mutexes (<[a := mkRWMutex n b]> (mutexes w)) w).
Proof.
  intros H. unfold RUnlock, updateMutex.
  rewrite (run_bind _ _ _ _ _ (load_Some mutexes a _ w H)). reflexivity.
Qed.

Lemma Lock_free (a : nat) (w : World) :
  mutexes w !! a = Some unlocked ->
  Lock (Some a) w = Return tt (set_mutexes (<[a := mkRWMutex 0 true]> (mutexes w)) w).
Proof.
  intros H. unfold Lock, updateMutex.
  rewrite (run_bind _ _ _ _ _ (load_Some mutexes a _ w H)). reflexivity.
Qed.

Lemma Unlock_held (a : nat) (n : nat) (w : World) :
  mutexes w !! a = Some (mkRWMutex n true) ->
  Unlock (Some a) w = Return tt (set_mutexes (<[a := mkRWMutex n false]> (mutexes w)) w).
Proof.
  intros H. unfold Unlock, updateMutex.
  rewrite (run_bind _ _ _ _ _ (load_Some mutexes a _ w H)). reflexivity.
Qed.

Lemma Println_file (h : nat) (n line : string) (w : World) :
  files w !! h = Some (mkOsFile n false) ->
  Println (Some (FileWriter h)) line w =
    Return tt (set_disk (append_line n line (disk w)) w).
Proof. intros H. unfold Println, modify. now rewrite H. Qed.

Lemma Name_Some (h : nat) (x : OsFile) (w : World) :
  files w !! h = Some x -> Name (Some h) w = Return (name x) w.
Proof.
  intros H. unfold Name. now rewrite (run_bind _ _ _ _ _ (load_Some files h x w H)).
Qed.

Lemma Close_Some (h : nat) (x : OsFile) (w : World) :
  files w !! h = Some x ->
  Close (Some h) w = Return tt (set_files (<[h := mkOsFile (name x) true]> (files w)) w).
Proof. intros H. unfold Close, modify. now rewrite H. Qed.

Lemma updateFileLogger_Some (a : nat) (fl : FileLogger) (g : FileLogger -> FileLogger)
    (w : World) :
  fileLoggers w !! a = Some fl ->
  updateFileLogger (Some a) g w =
    Return tt (set_fileLoggers (<[a := g fl]> (fileLoggers w)) w).
Proof.
  intros H. unfold updateFileLogger, loadFileLogger.
  now rewrite (run_bind _ _ _ _ _ (load_Some fileLoggers a fl w H)).
Qed.

Lemma updateLogger_Some (a : nat) (l : Logger) (g : Logger -> Logger) (w : World) :
  loggers w !! a = Some l ->
  updateLogger (Some a) g w = Return tt (set_loggers (<[a := g l]> (loggers w)) w).
Proof.
  intros H. unfold updateLogger, loadLogger.
  now rewrite (run_bind _ _ _ _ _ (load_Some loggers a l w H)).
Qed.

Lemma OpenFile_ok (p : string) (w : World) :
  open_error w p = None ->
  OpenFile p w =
    Return (inl (fresh (dom (files w))))
      (set_disk (match disk w !! p with Some _ => disk w | None => <[p := []]> (disk w) end)
         (set_files (<[fresh (dom (files w)) := mkOsFile p false]> (files w)) w)).
Proof. intros H. unfold OpenFile. now rewrite H. Qed.

Lemma OpenFile_error (p err : string) (w : World) :
  open_error w p = Some err -> OpenFile p w = Return (inr err) w.
Proof. intros H. unfold OpenFile. now rewrite H. Qed.

(** ** Symbolic execution *)

Ltac norm :=
  unfold set_mutexes, set_files, set_fileLoggers, set_loggers, set_disk,
    set_stdout, set_stderr, set_clock, unlocked, current_path in *;
  cbn [mutexes files fileLoggers loggers disk stdout stderr clock platform environ
       callers open_error readers writer name closed
       fLevel Path AppendDate fileSync fileSyncWrite logger file rootLogger
       lLevel ColoredOutput PrintSource OnlyPrintMessage FuncCallIncrement Prefix File
       colorConf consoleLogger consoleLoggerErr
       with_file with_mutexes with_rootLogger with_console with_colorConf] in *.

Ltac lookups :=
  repeat first [ rewrite lookup_insert_eq | rewrite lookup_insert_ne by congruence ].

Ltac step L :=
  rewrite ?bind_assoc; erewrite run_bind by (eapply L; norm; lookups; eauto); norm.
Ltac step_path :=
  rewrite ?bind_assoc;
  erewrite run_bind
    by (etransitivity; [apply getFilePath_spec; norm; lookups; eauto | norm; reflexivity]);
  norm.
Ltac pure_step := unfold Sync; rewrite bind_ret; norm.

Lemma insert_twice_id {A} (m : gmap nat A) (a : nat) (x y : A) :
  m !! a = Some y -> <[a := y]> (<[a := x]> m) = m.
Proof. intros H. rewrite insert_insert_eq. now apply insert_id. Qed.

Lemma mutexes_restored (ms : gmap nat RWMutex) (m1 m2 : nat) (x1 x2 y1 y2 : RWMutex) :
  m1 <> m2 -> ms !! m1 = Some y1 -> ms !! m2 = Some y2 ->
  <[m2 := y2]> (<[m1 := y1]> (<[m2 := x2]> (<[m1 := x1]> ms))) = ms.
Proof.
  intros Hne H1 H2. apply map_eq. intros i.
  rewrite !lookup_insert. repeat case_decide; subst; congruence.
Qed.

Lemma append_line_created (p line : string) (d : gmap string (list string)) :
  append_line p line (match d !! p with Some _ => d | None => <[p := []]> d end)
    = append_line p line d.
Proof.
  unfold append_line. destruct (d !! p) as [x|] eqn:E.
  - now rewrite E.
  - rewrite lookup_insert_eq, insert_insert_eq. reflexivity.
Qed.

(** ** file.go: CloseFile and openFile *)

Lemma CloseFile_closed (w : World) (f : nat) (fl : FileLogger) :
  fileLoggers w !! f = Some fl -> file fl = None ->
  CloseFile (Some f) w = Return tt w.
Proof.
  intros Hf Hn. unfold CloseFile, loadFileLogger.
  rewrite (run_bind _ _ _ _ _ (load_Some fileLoggers f fl w Hf)). now rewrite Hn.
Qed.

Lemma CloseFile_open (w : World) (f : nat) (fl : FileLogger) (h m1 : nat) (x : OsFile) :
  fileLoggers w !! f = Some fl -> file fl = Some h -> fileSync fl = Some m1 ->
  mutexes w !! m1 = Some unlocked -> files w !! h = Some x ->
  CloseFile (Some f) w =
    Return tt
      (set_fileLoggers (<[f := with_file None None fl]> (fileLoggers w))
         (set_files (<[h := mkOsFile (name x) true]> (files w)) w)).
Proof.
  intros Hf Hfile Hm1 Hu1 Hh.
  destruct w as [ck pf en cs oe dk so se fs ms fls ls].
  destruct fl as [lv pa ad s1 s2 lg fi rt]. norm. subst.
  unfold CloseFile, loadFileLogger.
  step @load_Some. step Lock_free. step Close_Some. step updateFileLogger_Some.
  erewrite Unlock_held by (norm; lookups; eauto). norm.
  rewrite insert_twice_id by assumption. reflexivity.
Qed.

(** With its mutexes in place and the path free to open, [openFile]
    installs a fresh handle on today's path. *)
Lemma openFile_ok (Log : LogFn) (w : World) (f : nat) (fl : FileLogger) (m1 : nat) :
  fileLoggers w !! f = Some fl -> fileSync fl = Some m1 ->
  mutexes w !! m1 = Some unlocked ->
  open_error w (current_path w fl) = None ->
  let p := current_path w fl in
  let h := fresh (dom (files w)) in
  openFile Log (Some f) w =
    Return tt
      (set_fileLoggers (<[f := with_file (Some (FileWriter h)) (Some h) fl]> (fileLoggers w))
         (set_disk (match disk w !! p with Some _ => disk w | None => <[p := []]> (disk w) end)
            (set_files (<[h := mkOsFile p false]> (files w)) w))).
Proof.
  intros Hf Hm1 Hu1 Hopen p h. subst p h.
  destruct w as [ck pf en cs oe dk so se fs ms fls ls].
  destruct fl as [lv pa ad s1 s2 lg fi rt]. norm. subst.
  unfold openFile, loadFileLogger.
  step @load_Some. pure_step. step @load_Some. step Lock_free.
  step_path.
  step OpenFile_ok. step updateFileLogger_Some.
  erewrite Unlock_held by (norm; lookups; eauto). norm.
  rewrite insert_twice_id by assumption. reflexivity.
Qed.

(** When the open fails, [openFile] reports through the root logger
    while it holds [fileSync], then lets go of it. *)
Lemma openFile_error (Log : LogFn) (w : World) (f : nat) (fl : FileLogger) (m1 : nat)
    (err : string) :
  fileLoggers w !! f = Some fl -> fileSync fl = Some m1 ->
  mutexes w !! m1 = Some unlocked ->
  open_error w (current_path w fl) = Some err ->
  openFile Log (Some f) w =
    (Log (rootLogger fl) LevelError
       (Sprintf ("Cannot access the log file '%s'" +:+ newline +:+ "%s")
          [AString (current_path w fl); AString err]) [] ;;;
     Unlock (Some m1))
      (set_mutexes (<[m1 := mkRWMutex 0 true]> (mutexes w)) w).
Proof.
  intros Hf Hm1 Hu1 Hopen.
  destruct w as [ck pf en cs oe dk so se fs ms fls ls].
  destruct fl as [lv pa ad s1 s2 lg fi rt]. norm. subst.
  unfold openFile, loadFileLogger.
  step @load_Some. pure_step. step @load_Some. step Lock_free.
  step_path.
  step OpenFile_error. reflexivity.
Qed.

Lemma newRWMutex_eq (w : World) :
  newRWMutex w =
    Return (Some (fresh (dom (mutexes w))))
      (set_mutexes (<[fresh (dom (mutexes w)) := unlocked]> (mutexes w)) w).
Proof. reflexivity. Qed.

(** A sink without mutexes gets two new ones first. *)
Lemma openFile_init (Log : LogFn) (w : World) (f : nat) (fl : FileLogger) :
  fileLoggers w !! f = Some fl -> fileSync fl = None ->
  let m1 := fresh (dom (mutexes w)) in
  let m2 := fresh (dom (<[m1 := unlocked]> (mutexes w))) in
  openFile Log (Some f) w =
    openFile Log (Some f)
      (set_fileLoggers (<[f := with_mutexes (Some m1) (Some m2) fl]> (fileLoggers w))
         (set_mutexes (<[m2 := unlocked]> (<[m1 := unlocked]> (mutexes w))) w)).
Proof.
  intros Hf Hm1 m1 m2. subst m1 m2.
  destruct w as [ck pf en cs oe dk so se fs ms fls ls].
  destruct fl as [lv pa ad s1 s2 lg fi rt]. norm. subst.
  unfold openFile at 1, loadFileLogger.
  step @load_Some.
  step newRWMutex_eq. step newRWMutex_eq.
  step updateFileLogger_Some.
  unfold openFile, loadFileLogger.
  symmetry. step @load_Some. pure_step. reflexivity.
Qed.

Lemma fresh_mutexes_distinct (ms : gmap nat RWMutex) :
  fresh (dom ms) <> fresh (dom (<[fresh (dom ms) := unlocked]> ms)).
Proof.
  intros E.
  pose proof (is_fresh (dom (<[fresh (dom ms) := unlocked]> ms))) as Hfresh.
  rewrite <- E in Hfresh. apply Hfresh. rewrite dom_insert_L. set_solver.
Qed.

(** ** file.go: writeToFile *)

(** No rotation is due: the line goes to the file the handle is on. *)
Lemma writeToFile_steady (Log : LogFn) (w : World) (f : nat) (fl : FileLogger)
    (h m1 m2 : nat) (n msg : string) (level : Level) :
  fileLoggers w !! f = Some fl -> sink_open w fl h m1 m2 n ->
  ~ rotation_due w fl n ->
  writeToFile Log (Some f) msg level w =
    fatal_close f level (set_disk (append_line n msg (disk w)) w).
Proof.
  intros Hf [Hfile Hlg Hm1 Hm2 Hne Hu1 Hu2 Hh] Hdue.
  assert (Hnd : AppendDate fl = false \/ n = current_path w fl).
  { unfold rotation_due in Hdue. destruct (AppendDate fl); [|now left].
    right. destruct (decide (n = current_path w fl)); [assumption|]. exfalso. auto. }
  clear Hdue.
  destruct w as [ck pf en cs oe dk so se fs ms fls ls].
  destruct fl as [lv pa ad s1 s2 lg fi rt]. norm. subst.
  unfold writeToFile, loadFileLogger.
  step @load_Some. step RLock_free. step RLock_free.
  assert (Hcheck : ad = false \/ (n =? Spec.path
           (mkFileLogger lv pa ad (Some m1) (Some m2) (Some (FileWriter h)) (Some h) rt)
           (format_date ck))%string = true).
  { destruct Hnd as [Hnd|Hnd]; [now left|right]. now apply String.eqb_eq. }
  clear Hnd. rewrite ?bind_assoc.
  destruct ad.
  - destruct Hcheck as [Hcheck|Hcheck]; [discriminate|].
    step_path. step Name_Some. rewrite Hcheck. cbn [negb]. pure_step.
    step @load_Some.
    step Println_file. pure_step.
    step RUnlock_held. step RUnlock_held.
    rewrite mutexes_restored by assumption. reflexivity.
  - pure_step. step @load_Some.
    step Println_file. pure_step.
    step RUnlock_held. step RUnlock_held.
    rewrite mutexes_restored by assumption. reflexivity.
Qed.

(** A rotation is due and today's path opens: the old handle is
    closed, a fresh one is installed, the line goes to today's file. *)
Lemma writeToFile_rotate (Log : LogFn) (w : World) (f : nat) (fl : FileLogger)
    (h m1 m2 : nat) (n msg : string) (level : Level) :
  fileLoggers w !! f = Some fl -> sink_open w fl h m1 m2 n ->
  rotation_due w fl n ->
  open_error w (current_path w fl) = None ->
  let p := current_path w fl in
  let h' := fresh (dom (<[h := mkOsFile n true]> (files w))) in
  writeToFile Log (Some f) msg level w =
    fatal_close f level
      (set_disk (append_line p msg (disk w))
         (set_fileLoggers
            (<[f := with_file (Some (FileWriter h')) (Some h') fl]> (fileLoggers w))
            (set_files (<[h' := mkOsFile p false]> (<[h := mkOsFile n true]> (files w)))
               w))).
Proof.
  intros Hf [Hfile Hlg Hm1 Hm2 Hne Hu1 Hu2 Hh] [Had Hdue] Hopen p h'. subst p h'.
  apply String.eqb_neq in Hdue.
  destruct w as [ck pf en cs oe dk so se fs ms fls ls].
  destruct fl as [lv pa ad s1 s2 lg fi rt]. norm. subst.
  unfold writeToFile, loadFileLogger.
  step @load_Some. step RLock_free. step RLock_free.
  step_path. step Name_Some. rewrite Hdue. cbn [negb].
  step RUnlock_held. step RUnlock_held. step Lock_free.
  step @load_Some. step Name_Some. rewrite Hdue. cbn [negb].
  rewrite ?bind_assoc.
  erewrite run_bind; cycle 1.
  { eapply (CloseFile_open _ f _ h m1); norm; lookups; eauto. }
  norm.
  rewrite ?bind_assoc.
  erewrite run_bind; cycle 1.
  { apply openFile_ok with (m1 := m1); norm; lookups; eauto. }
  norm.
  step Unlock_held. step RLock_free. step RLock_free.
  step @load_Some. step Println_file. pure_step.
  step RUnlock_held. step RUnlock_held.
  unfold fatal_close. f_equal. f_equal.
  - apply append_line_created.
  - apply map_eq. intros i. rewrite !lookup_insert.
    repeat case_decide; subst; congruence.
  - now rewrite insert_insert_eq.
Qed.

(** ** logger.go: the two halves of log *)

Lemma get_eq {A} (g : World -> A) (w : World) : get g w = Return (g w) w.
Proof. reflexivity. Qed.

Lemma toConsole_eq (w : World) (a : nat) (lg : Logger) (level : Level) (line : string) :
  loggers w !! a = Some lg ->
  consoleLogger lg = Some Stdout -> consoleLoggerErr lg = Some Stderr ->
  toConsole (Some a) level line w =
    if lLevel lg <=? level then
      if level =? LevelError then Return tt (set_stderr (stderr w ++ [line]) w)
      else if level =? LevelFatal then Exit 1 (set_stderr (stderr w ++ [line]) w)
      else Return tt (set_stdout (stdout w ++ [line]) w)
    else Return tt w.
Proof.
  intros Hl Hout Herr. unfold toConsole, loadLogger.
  rewrite (run_bind _ _ _ _ _ (load_Some loggers a lg w Hl)).
  rewrite Hout, Herr.
  destruct (lLevel lg <=? level); [|reflexivity].
  destruct (level =? LevelError); [reflexivity|].
  destruct (level =? LevelFatal); reflexivity.
Qed.

Lemma log_S (n : nat) (w : World) (a : nat) (lg : Logger) (f : nat) (fl : FileLogger)
    (level : Level) (message : string) (parameters : list any) :
  loggers w !! a = Some lg -> File lg = Some f -> fileLoggers w !! f = Some fl ->
  log (S n) (Some a) level message parameters w =
    ((if file_gate fl level
      then writeToFile (log n) (Some f) (plain_line w lg level message parameters) level
      else ret tt) ;;;
     toConsole (Some a) level (console_line w lg level message parameters)) w.
Proof.
  intros Hl HF Hf. cbn [log]. unfold loadLogger, loadFileLogger, Caller.
  rewrite (run_bind _ _ _ _ _ (load_Some loggers a lg w Hl)).
  rewrite (run_bind _ _ _ _ _ (get_eq _ w)).
  unfold plain_line, console_line, source_of.
  destruct (default _ (callers w (3 + FuncCallIncrement lg))) as [file line].
  rewrite (run_bind _ _ _ _ _ (get_eq _ w)).
  rewrite HF.
  rewrite (run_bind _ _ _ _ _ (load_Some fileLoggers f fl w Hf)).
  reflexivity.
Qed.

(** With no [log.Logger] on the sink, [log] is its console half. *)
Lemma log_console_only (n : nat) (w : World) (a : nat) (lg : Logger) (f : nat)
    (fl : FileLogger) (level : Level) (message : string) (parameters : list any) :
  loggers w !! a = Some lg -> File lg = Some f -> fileLoggers w !! f = Some fl ->
  logger fl = None ->
  log (S n) (Some a) level message parameters w =
    toConsole (Some a) level (console_line w lg level message parameters) w.
Proof.
  intros Hl HF Hf Hnone. rewrite (log_S n w a lg f fl) by assumption.
  unfold file_gate. rewrite Hnone.
  rewrite bool_decide_eq_false_2 by (intros H; now apply H).
  rewrite andb_false_r. reflexivity.
Qed.

(** The reopening of a due rotation fails: the error is reported, and
    the write that follows goes through the nil [log.Logger]. *)
Lemma writeToFile_rotate_error (k : nat) (w : World) (a : nat) (lg : Logger) (f : nat)
    (fl : FileLogger) (h m1 m2 : nat) (n msg err : string) (level : Level) :
  ready w a lg f fl -> sink_open w fl h m1 m2 n ->
  rotation_due w fl n ->
  open_error w (current_path w fl) = Some err ->
  exists w',
    writeToFile (log (S k)) (Some f) msg level w = Panic nil_dereference w' /\
    disk w' = disk w /\
    files w' = <[h := mkOsFile n true]> (files w) /\
    stdout w' = stdout w /\
    stderr w' = stderr w ++
      (if lLevel lg <=? LevelError
       then [console_line w lg LevelError
               (Sprintf ("Cannot access the log file '%s'" +:+ newline +:+ "%s")
                  [AString (current_path w fl); AString err]) []]
       else []).
Proof.
  intros [Hl Hout Herr HF Hf Hroot] [Hfile Hlg Hm1 Hm2 Hne Hu1 Hu2 Hh] [Had Hdue] Hopen.
  apply String.eqb_neq in Hdue.
  destruct w as [ck pf en cs oe dk so se fs ms fls ls].
  destruct fl as [lv pa ad s1 s2 lg' fi rt]. norm. subst.
  unfold writeToFile, loadFileLogger.
  step @load_Some. step RLock_free. step RLock_free.
  step_path. step Name_Some. rewrite Hdue. cbn [negb].
  step RUnlock_held. step RUnlock_held. step Lock_free.
  step @load_Some. step Name_Some. rewrite Hdue. cbn [negb].
  rewrite ?bind_assoc.
  erewrite run_bind; cycle 1.
  { eapply (CloseFile_open _ f _ h m1); norm; lookups; eauto. }
  norm. rewrite ?bind_assoc.
  erewrite bind_eq; cycle 1.
  { eapply openFile_error with (m1 := m1) (err := err); norm; lookups; eauto. }
  norm. rewrite ?bind_assoc.
  erewrite bind_then; cycle 1.
  { erewrite log_console_only by (norm; lookups; eauto).
    apply toConsole_eq with (lg := lg); norm; eauto. }
  norm.
  change (LevelError =? LevelError) with true. cbn match.
  destruct (lLevel lg <=? LevelError).
  - cbn [and_then].
    step Unlock_held. step Unlock_held. step RLock_free. step RLock_free.
    step @load_Some.
    eexists. split; [reflexivity|]. norm. repeat split; reflexivity.
  - cbn [and_then].
    step Unlock_held. step Unlock_held. step RLock_free. step RLock_free.
    step @load_Some.
    eexists. split; [reflexivity|]. norm. rewrite app_nil_r. repeat split; reflexivity.
Qed.

(** ** A write through a usable sink *)

Lemma fresh_handle_distinct (fs : gmap nat OsFile) (h : nat) (x : OsFile) :
  fresh (dom (<[h := x]> fs)) <> h.
Proof.
  intros E. pose proof (is_fresh (dom (<[h := x]> fs))) as Hfresh.
  rewrite E in Hfresh. apply Hfresh. rewrite dom_insert_L. set_solver.
Qed.

Lemma rotation_due_dec (w : World) (fl : FileLogger) (n : string) :
  rotation_due w fl n \/ ~ rotation_due w fl n.
Proof.
  unfold rotation_due. destruct (AppendDate fl).
  - destruct (decide (n = current_path w fl)) as [E|E]; [right|left]; tauto.
  - right. intros [H _]. discriminate.
Qed.

Lemma target_steady (w : World) (fl : FileLogger) (n : string) :
  ~ rotation_due w fl n -> target_path w fl n = n.
Proof.
  unfold rotation_due, target_path. destruct (AppendDate fl); [|reflexivity].
  intros H. destruct (decide (n = current_path w fl)) as [E|E]; [now symmetry|].
  exfalso. apply H. now split.
Qed.

Lemma target_rotated (w : World) (fl : FileLogger) (n : string) :
  rotation_due w fl n -> target_path w fl n = current_path w fl.
Proof. unfold rotation_due, target_path. intros [-> _]. reflexivity. Qed.

Lemma writeToFile_usable (Log : LogFn) (w : World) (f : nat) (fl : FileLogger)
    (h m1 m2 : nat) (n msg : string) (level : Level) :
  fileLoggers w !! f = Some fl -> sink_open w fl h m1 m2 n ->
  (rotation_due w fl n -> open_error w (current_path w fl) = None) ->
  exists w' h',
    writeToFile Log (Some f) msg level w = Return tt w' /\
    written w w' f fl h h' n msg level.
Proof.
  intros Hf Hopen Hcan.
  destruct (rotation_due_dec w fl n) as [Hdue|Hdue].
  - rewrite (writeToFile_rotate Log w f fl h m1 m2 n msg level Hf Hopen Hdue (Hcan Hdue)).
    rewrite (target_rotated w fl n Hdue) || idtac.
    pose proof (fresh_handle_distinct (files w) h (mkOsFile n true)) as Hnew.
    set (h' := fresh (dom (<[h := mkOsFile n true]> (files w)))) in *.
    destruct Hopen as [Hfile Hlg Hm1 Hm2 Hne Hu1 Hu2 Hh].
    exists (if level =? LevelFatal
            then set_fileLoggers (<[f := with_file None None fl]> (fileLoggers w))
                   (set_disk (append_line (current_path w fl) msg (disk w))
                      (set_files (<[h' := mkOsFile (current_path w fl) true]>
                                    (<[h := mkOsFile n true]> (files w))) w))
            else set_disk (append_line (current_path w fl) msg (disk w))
                   (set_fileLoggers
                      (<[f := with_file (Some (FileWriter h')) (Some h') fl]> (fileLoggers w))
                      (set_files (<[h' := mkOsFile (current_path w fl) false]>
                                    (<[h := mkOsFile n true]> (files w))) w))), h'.
    unfold fatal_close. destruct (level =? LevelFatal) eqn:Hfatal.
    + split.
      * erewrite (CloseFile_open _ f _ h' m1); norm; lookups; eauto.
        destruct w, fl; norm. f_equal. f_equal.
        -- now rewrite insert_insert_eq.
        -- now rewrite insert_insert_eq.
      * destruct w; split; norm; rewrite ?(target_rotated _ fl n Hdue), ?Hfatal; norm; lookups;
          try reflexivity; try tauto.
    + split; [reflexivity|].
      destruct w; split; norm; rewrite ?(target_rotated _ fl n Hdue), ?Hfatal; norm; lookups;
        try reflexivity; try tauto.
  - rewrite (writeToFile_steady Log w f fl h m1 m2 n msg level Hf Hopen Hdue).
    destruct Hopen as [Hfile Hlg Hm1 Hm2 Hne Hu1 Hu2 Hh].
    exists (if level =? LevelFatal
            then set_fileLoggers (<[f := with_file None None fl]> (fileLoggers w))
                   (set_disk (append_line n msg (disk w))
                      (set_files (<[h := mkOsFile n true]> (files w)) w))
            else set_disk (append_line n msg (disk w)) w), h.
    unfold fatal_close. destruct (level =? LevelFatal) eqn:Hfatal.
    + split.
      * erewrite (CloseFile_open _ f _ h m1); norm; lookups; eauto.
        destruct w, fl; norm. reflexivity.
      * destruct w; split; norm; rewrite ?(target_steady _ fl n Hdue), ?Hfatal; norm; lookups;
          try reflexivity; try tauto.
    + split; [reflexivity|].
      destruct w; split; norm; rewrite ?(target_steady _ fl n Hdue), ?Hfatal; norm; lookups;
        try reflexivity; try tauto.
      destruct fl; norm; subst. symmetry. now apply insert_id.
Qed.

(** ** The file half of log never touches the console *)

Lemma file_half_usable (Log : LogFn) (w : World) (f : nat) (fl : FileLogger)
    (line : string) (level : Level) :
  fileLoggers w !! f = Some fl -> sink_usable w fl ->
  exists w1,
    (if file_gate fl level then writeToFile Log (Some f) line level else ret tt) w
      = Return tt w1 /\
    stdout w1 = stdout w /\ stderr w1 = stderr w /\ loggers w1 = loggers w.
Proof.
  intros Hf [Hnone|(h & m1 & m2 & n & Hopen & Hcan)].
  - exists w. unfold file_gate. rewrite Hnone.
    rewrite bool_decide_eq_false_2 by (intros H; now apply H).
    rewrite andb_false_r. now repeat split.
  - destruct (file_gate fl level).
    + destruct (writeToFile_usable Log w f fl h m1 m2 n line level Hf Hopen Hcan)
        as (w1 & h' & -> & Hw).
      exists w1. destruct Hw. now repeat split.
    + exists w. now repeat split.
Qed.

(** The console half, as a change of the two streams. *)
Lemma console_half (w w1 : World) (a : nat) (lg : Logger) (level : Level) (line : string) :
  loggers w1 !! a = Some lg ->
  consoleLogger lg = Some Stdout -> consoleLoggerErr lg = Some Stderr ->
  exists w',
    toConsole (Some a) level line w1 =
      (if ((lLevel lg <=? level) && (level =? LevelFatal))%bool
       then Exit 1 w' else Return tt w') /\
    stdout w' = stdout w1 ++
      (if ((lLevel lg <=? level) && negb (level =? LevelError) && negb (level =? LevelFatal))%bool
       then [line] else []) /\
    stderr w' = stderr w1 ++
      (if ((lLevel lg <=? level) && ((level =? LevelError) || (level =? LevelFatal)))%bool
       then [line] else []) /\
    disk w' = disk w1 /\ files w' = files w1 /\ fileLoggers w' = fileLoggers w1 /\
    loggers w' = loggers w1 /\ mutexes w' = mutexes w1.
Proof.
  intros Hl Hout Herr. rewrite (toConsole_eq w1 a lg level line Hl Hout Herr).
  destruct (lLevel lg <=? level); cbn [andb].
  - destruct (level =? LevelError) eqn:E4.
    + apply Z.eqb_eq in E4. subst level. cbn.
      eexists. split; [reflexivity|]. destruct w1; cbn. rewrite app_nil_r. now repeat split.
    + destruct (level =? LevelFatal); cbn.
      * eexists. split; [reflexivity|]. destruct w1; cbn. rewrite app_nil_r.
        now repeat split.
      * eexists. split; [reflexivity|]. destruct w1; cbn. rewrite app_nil_r.
        now repeat split.
  - exists w1. rewrite !app_nil_r. now repeat split.
Qed.

(** ** One call of Log *)

Lemma file_gate_open (w : World) (fl : FileLogger) (h m1 m2 : nat) (n : string)
    (level : Level) :
  sink_open w fl h m1 m2 n -> file_gate fl level = (fLevel fl <=? level).
Proof.
  intros Hopen. unfold file_gate. rewrite (open_logger _ _ _ _ _ _ Hopen).
  rewrite bool_decide_eq_true_2 by discriminate. apply andb_true_r.
Qed.

(** [Log] through a usable sink: the console half runs on the world the
    file half returns. *)
Lemma Log_usable (fuel : nat) (w : World) (a : nat) (lg : Logger) (f : nat)
    (fl : FileLogger) (level : Level) (message : string) (parameters : list any) :
  ready w a lg f fl -> sink_usable w fl ->
  exists w1,
    (if file_gate fl level
     then writeToFile (log fuel) (Some f) (plain_line w lg level message parameters) level
     else ret tt) w = Return tt w1 /\
    stdout w1 = stdout w /\ stderr w1 = stderr w /\ loggers w1 = loggers w /\
    Log (S fuel) (Some a) level message parameters w =
      toConsole (Some a) level (console_line w lg level message parameters) w1.
Proof.
  intros [Hl Hout Herr HF Hf Hroot] Huse.
  destruct (file_half_usable (log fuel) w f fl
              (plain_line w lg level message parameters) level Hf Huse)
    as (w1 & Hrun & Hso & Hse & Hls).
  exists w1. repeat split; try assumption.
  unfold Log. rewrite (log_S fuel w a lg f fl) by assumption.
  now rewrite (run_bind _ _ _ _ _ Hrun).
Qed.

(** The streams after one [Log] through a usable sink. *)
Lemma Log_console (fuel : nat) (w : World) (a : nat) (lg : Logger) (f : nat)
    (fl : FileLogger) (level : Level) (message : string) (parameters : list any) :
  ready w a lg f fl -> sink_usable w fl ->
  exists w',
    Log (S fuel) (Some a) level message parameters w =
      (if ((lLevel lg <=? level) && (level =? LevelFatal))%bool
       then Exit 1 w' else Return tt w') /\
    stdout w' = stdout w ++
      (if ((lLevel lg <=? level) && negb (level =? LevelError) && negb (level =? LevelFatal))%bool
       then [console_line w lg level message parameters] else []) /\
    stderr w' = stderr w ++
      (if ((lLevel lg <=? level) && ((level =? LevelError) || (level =? LevelFatal)))%bool
       then [console_line w lg level message parameters] else []).
Proof.
  intros Hready Huse.
  destruct (Log_usable fuel w a lg f fl level message parameters Hready Huse)
    as (w1 & _ & Hso & Hse & Hls & ->).
  destruct Hready as [Hl Hout Herr HF Hf Hroot]. rewrite <- Hls in Hl.
  destruct (console_half w w1 a lg level (console_line w lg level message parameters)
              Hl Hout Herr) as (w' & -> & Ho & He & _).
  exists w'. rewrite Ho, He, Hso, Hse. now repeat split.
Qed.

(** [Log] through an open sink, both halves. *)
Lemma Log_open (fuel : nat) (w : World) (a : nat) (lg : Logger) (f : nat)
    (fl : FileLogger) (h m1 m2 : nat) (n : string) (level : Level) (message : string)
    (parameters : list any) :
  ready w a lg f fl -> sink_open w fl h m1 m2 n ->
  (rotation_due w fl n -> open_error w (current_path w fl) = None) ->
  exists w1 w' h',
    Log (S fuel) (Some a) level message parameters w =
      (if ((lLevel lg <=? level) && (level =? LevelFatal))%bool
       then Exit 1 w' else Return tt w') /\
    (if fLevel fl <=? level
     then written w w1 f fl h h' n (plain_line w lg level message parameters) level
     else w1 = w) /\
    stdout w' = stdout w1 ++
      (if ((lLevel lg <=? level) && negb (level =? LevelError) && negb (level =? LevelFatal))%bool
       then [console_line w lg level message parameters] else []) /\
    stderr w' = stderr w1 ++
      (if ((lLevel lg <=? level) && ((level =? LevelError) || (level =? LevelFatal)))%bool
       then [console_line w lg level message parameters] else []) /\
    disk w' = disk w1 /\ files w' = files w1 /\ fileLoggers w' = fileLoggers w1 /\
    loggers w' = loggers w1 /\ mutexes w' = mutexes w1.
Proof.
  intros Hready Hopen Hcan.
  pose proof Hready as [Hl Hout Herr HF Hf Hroot].
  unfold Log. rewrite (log_S fuel w a lg f fl) by assumption.
  rewrite (file_gate_open w fl h m1 m2 n level Hopen).
  destruct (fLevel fl <=? level).
  - destruct (writeToFile_usable (log fuel) w f fl h m1 m2 n
                (plain_line w lg level message parameters) level Hf Hopen Hcan)
      as (w1 & h' & Hrun & Hw).
    rewrite (run_bind _ _ _ _ _ Hrun).
    rewrite <- (written_loggers _ _ _ _ _ _ _ _ _ Hw) in Hl.
    destruct (console_half w w1 a lg level (console_line w lg level message parameters)
                Hl Hout Herr) as (w' & -> & Hrest).
    exists w1, w', h'. split; [reflexivity|]. split; assumption.
  - rewrite bind_ret.
    destruct (console_half w w a lg level (console_line w lg level message parameters)
                Hl Hout Herr) as (w' & -> & Hrest).
    exists w, w', h. split; [reflexivity|]. split; [reflexivity|assumption].
Qed.

(** * The claims *)

(** ** C4: the path rule *)

(** C4.  [getFilePath] turns every backslash of the configured path
    into a slash and changes nothing else; without date suffixing that
    is the path.  With date suffixing, a path with at least one
    character after its last slash, and a path with no slash at all,
    get a dot and the date; a path that ends with a slash gets the date
    alone.  The date has the shape YYYY-MM-DD. *)
Theorem getFilePath_rule (w : World) (a : nat) (fl : FileLogger) :
  fileLoggers w !! a = Some fl ->
  let p := Spec.canonical (Path fl) in
  let d := format_date (clock w) in
  (forall i, String.get i p = Spec.slash_byte <$> String.get i (Path fl)) /\
  (forall i, String.get i p <> Some (ascii_of_nat 92)) /\
  (AppendDate fl = false -> getFilePath (Some a) w = Return p w) /\
  (AppendDate fl = true ->
     (forall q r, p = q +:+ "/" +:+ r -> r <> EmptyString -> Spec.has_slash r = false ->
        getFilePath (Some a) w = Return (p +:+ "." +:+ d) w) /\
     (Spec.has_slash p = false -> getFilePath (Some a) w = Return (p +:+ "." +:+ d) w) /\
     (forall q, p = q +:+ "/" -> getFilePath (Some a) w = Return (p +:+ d) w)) /\
  (valid_clock (clock w) -> Spec.date_form d = true).
Proof.
  intros Hf p d. pose proof (getFilePath_spec w a fl Hf) as Hpath.
  unfold current_path, Spec.path in Hpath. fold p d in Hpath.
  split; [intros i; apply canonical_get|].
  split; [intros i; apply canonical_no_backslash|].
  split; [intros Had; now rewrite Had in Hpath|].
  split; [|apply format_date_form].
  intros Had. rewrite Had in Hpath. repeat split.
  - intros q r Hp Hr Hs. rewrite Hp in Hpath at 1.
    rewrite ends_with_slash_tail in Hpath by assumption. exact Hpath.
  - intros Hs. rewrite no_slash_not_ends in Hpath by assumption. exact Hpath.
  - intros q Hp. rewrite Hp in Hpath at 1.
    rewrite ends_with_slash_app in Hpath. exact Hpath.
Qed.

Lemma getFilePath_rule_witness :
  getFilePath (Some 1%nat) Demo.world = Return Demo.today Demo.world /\
  Spec.date_form (format_date (clock Demo.world)) = true.
Proof.
  destruct (getFilePath_rule Demo.world 1 Demo.sink eq_refl)
    as (_ & _ & _ & Hdate & Hform).
  destruct (Hdate eq_refl) as (Hdot & _ & _).
  split.
  - exact (Hdot "logs"%string "app.log"%string eq_refl ltac:(discriminate) eq_refl).
  - apply Hform. unfold valid_clock. cbn. lia.
Defined.

(** ** C2: the console threshold *)

(** C2.  A logger whose console threshold is [L2] prints nothing, on
    either stream, for a call at a level [L1 < L2]; for a call at any
    level [L >= L2] it prints exactly one line, on standard error for
    Error and Fatal (after which Fatal ends the process) and on
    standard output otherwise. *)
Theorem console_threshold (fuel : nat) (w : World) (a : nat) (lg : Logger) (f : nat)
    (fl : FileLogger) (L1 L2 : Level) (message : string) (parameters : list any) :
  ready w a lg f fl -> sink_usable w fl ->
  lLevel lg = L2 -> L1 < L2 ->
  (exists w',
     Log (S fuel) (Some a) L1 message parameters w = Return tt w' /\
     stdout w' = stdout w /\ stderr w' = stderr w) /\
  (forall L, L2 <= L ->
     exists w',
       Log (S fuel) (Some a) L message parameters w =
         (if L =? LevelFatal then Exit 1 w' else Return tt w') /\
       (length (stdout w') + length (stderr w')
          = length (stdout w) + length (stderr w) + 1)%nat /\
       (if ((L =? LevelError) || (L =? LevelFatal))%bool
        then stdout w' = stdout w /\
             stderr w' = stderr w ++ [console_line w lg L message parameters]
        else stdout w' = stdout w ++ [console_line w lg L message parameters] /\
             stderr w' = stderr w)).
Proof.
  intros Hready Huse HL2 Hlt. split.
  - destruct (Log_console fuel w a lg f fl L1 message parameters Hready Huse)
      as (w' & Hrun & Ho & He).
    replace (lLevel lg <=? L1) with false in * by (symmetry; apply Z.leb_gt; lia).
    cbn [andb] in *. rewrite app_nil_r in Ho, He. now exists w'.
  - intros L Hle.
    destruct (Log_console fuel w a lg f fl L message parameters Hready Huse)
      as (w' & Hrun & Ho & He).
    replace (lLevel lg <=? L) with true in * by (symmetry; apply Z.leb_le; lia).
    cbn [andb] in *. exists w'. split; [assumption|].
    rewrite Ho, He.
    destruct (L =? LevelError) eqn:E4; destruct (L =? LevelFatal) eqn:E5;
      cbn [negb andb orb]; rewrite ?app_nil_r, ?length_app; cbn [length];
      (split; [lia|now split]).
Qed.

Lemma console_threshold_witness :
  (exists w',
     Log 1 (Some 7%nat) LevelWarning "x" [] Demo.world = Return tt w' /\
     stdout w' = [] /\ stderr w' = []) /\
  (exists w',
     Log 1 (Some 7%nat) LevelFatal "x" [] Demo.world = Exit 1 w' /\
     stdout w' = [] /\
     stderr w' = [console_line Demo.world Demo.facade LevelFatal "x" []]).
Proof.
  assert (Hready : ready Demo.world 7 Demo.facade 1 Demo.sink)
    by (split; reflexivity).
  assert (Huse : sink_usable Demo.world Demo.sink).
  { right. exists 0%nat, 0%nat, 1%nat, Demo.today. split.
    - split; try reflexivity. discriminate.
    - intros _. reflexivity. }
  destruct (console_threshold 0 Demo.world 7 Demo.facade 1 Demo.sink
              LevelWarning LevelError "x" [] Hready Huse eq_refl ltac:(reflexivity))
    as [Hquiet Hloud].
  split; [exact Hquiet|].
  destruct (Hloud LevelFatal ltac:(discriminate)) as (w' & Hrun & _ & Ho & He).
  exists w'. auto.
Defined.

(** ** C3: the file threshold *)

(** C3.  Whether [Log] writes to the file depends on the sink's own
    threshold and on the sink having a [log.Logger], never on the
    console threshold: with an open sink the line is appended exactly
    when [File.Level <= level], and with console threshold Error and
    file threshold Debug a Debug message reaches the file and neither
    stream; with no [log.Logger] on the sink nothing is written. *)
Theorem file_threshold_independent (fuel : nat) (w : World) (a : nat) (lg : Logger)
    (f : nat) (fl : FileLogger) (h m1 m2 : nat) (n : string) (level : Level)
    (message : string) (parameters : list any) :
  ready w a lg f fl -> sink_open w fl h m1 m2 n ->
  (rotation_due w fl n -> open_error w (current_path w fl) = None) ->
  (exists w',
     (Log (S fuel) (Some a) level message parameters w = Return tt w' \/
      Log (S fuel) (Some a) level message parameters w = Exit 1 w') /\
     disk w' =
       if fLevel fl <=? level
       then append_line (target_path w fl n) (plain_line w lg level message parameters)
              (disk w)
       else disk w) /\
  (lLevel lg = LevelError -> fLevel fl = LevelDebug ->
   exists w',
     Log (S fuel) (Some a) LevelDebug message parameters w = Return tt w' /\
     disk w' =
       append_line (target_path w fl n) (plain_line w lg LevelDebug message parameters)
         (disk w) /\
     stdout w' = stdout w /\ stderr w' = stderr w) /\
  (forall w0 fl0,
     ready w0 a lg f fl0 -> logger fl0 = None ->
     exists w',
       (Log (S fuel) (Some a) level message parameters w0 = Return tt w' \/
        Log (S fuel) (Some a) level message parameters w0 = Exit 1 w') /\
       disk w' = disk w0).
Proof.
  intros Hready Hopen Hcan. repeat split.
  - destruct (Log_open fuel w a lg f fl h m1 m2 n level message parameters
                Hready Hopen Hcan)
      as (w1 & w' & h' & Hrun & Hfile & _ & _ & Hd & _).
    exists w'. split.
    + rewrite Hrun. destruct (_ && _)%bool; auto.
    + rewrite Hd. destruct (fLevel fl <=? level).
      * apply (written_disk _ _ _ _ _ _ _ _ _ Hfile).
      * now subst w1.
  - intros Hcon Hfil.
    destruct (Log_open fuel w a lg f fl h m1 m2 n LevelDebug message parameters
                Hready Hopen Hcan)
      as (w1 & w' & h' & Hrun & Hfile & Ho & He & Hd & _).
    rewrite Hcon, Hfil in *. cbn in Hrun, Hfile, Ho, He.
    rewrite app_nil_r in Ho, He. exists w'. split; [assumption|].
    rewrite Hd, Ho, He. destruct Hfile. now repeat split.
  - intros w0 fl0 Hready0 Hnone.
    pose proof Hready0 as [Hl Hout Herr HF Hf Hroot].
    unfold Log. rewrite (log_console_only fuel w0 a lg f fl0) by assumption.
    destruct (console_half w0 w0 a lg level
                (console_line w0 lg level message parameters) Hl Hout Herr)
      as (w' & -> & _ & _ & Hd & _).
    exists w'. split; [|assumption]. destruct (_ && _)%bool; auto.
Qed.

Lemma file_threshold_independent_witness :
  exists w',
    Log 1 (Some 7%nat) LevelDebug "x" [] Demo.world = Return tt w' /\
    disk w' = append_line Demo.today
                (plain_line Demo.world Demo.facade LevelDebug "x" [])
                (disk Demo.world) /\
    stdout w' = [] /\ stderr w' = [].
Proof.
  assert (Hready : ready Demo.world 7 Demo.facade 1 Demo.sink)
    by (split; reflexivity).
  assert (Hopen : sink_open Demo.world Demo.sink 0 0 1 Demo.today)
    by (split; try reflexivity; discriminate).
  destruct (file_threshold_independent 0 Demo.world 7 Demo.facade 1 Demo.sink
              0 0 1 Demo.today LevelDebug "x" [] Hready Hopen (fun _ => eq_refl))
    as (_ & Hdebug & _).
  exact (Hdebug eq_refl eq_refl).
Defined.

(** ** C1: rotation *)

Lemma path_date_inj (fl : FileLogger) (d1 d2 : string) :
  AppendDate fl = true -> Spec.path fl d1 = Spec.path fl d2 -> d1 = d2.
Proof.
  unfold Spec.path. intros ->.
  destruct (Spec.ends_with_slash (Spec.canonical (Path fl))); intros H.
  - now apply (inj (String.app _)) in H.
  - apply (inj (String.app _)) in H. now apply (inj (String.app _)) in H.
Qed.

Lemma append_line_lookup (p line : string) (d : gmap string (list string)) :
  append_line p line d !! p = Some (default [] (d !! p) ++ [line]).
Proof. unfold append_line. apply lookup_insert_eq. Qed.

Lemma append_line_other (p q line : string) (d : gmap string (list string)) :
  p <> q -> append_line p line d !! q = d !! q.
Proof. intros H. unfold append_line. now apply lookup_insert_ne. Qed.

(** C1.  With date suffixing on: when the open handle's name is not the
    path of the current date, [writeToFile] closes that handle, opens a
    new one on the path of the current date and writes the line there,
    all within the call, leaving the old file as it was.  When the date
    advances between two appends, the second one lands in the file of
    the new date and the file of the old date keeps exactly what it
    held after the first. *)
Theorem rotation_on_date_change (Log : LogFn) (w : World) (f : nat) (fl : FileLogger)
    (h m1 m2 : nat) (n : string) :
  fileLoggers w !! f = Some fl -> sink_open w fl h m1 m2 n -> AppendDate fl = true ->
  (forall msg level,
     n <> current_path w fl -> open_error w (current_path w fl) = None ->
     exists w' h',
       writeToFile Log (Some f) msg level w = Return tt w' /\
       h' <> h /\
       files w' !! h = Some (mkOsFile n true) /\
       files w' !! h' = Some (mkOsFile (current_path w fl) (level =? LevelFatal)) /\
       (level <> LevelFatal ->
        exists fl', fileLoggers w' !! f = Some fl' /\
                    file fl' = Some h' /\ logger fl' = Some (FileWriter h')) /\
       disk w' !! current_path w fl
         = Some (default [] (disk w !! current_path w fl) ++ [msg]) /\
       disk w' !! n = disk w !! n) /\
  (forall msg1 msg2 level1 level2 t2,
     n = current_path w fl -> level1 <> LevelFatal ->
     format_date t2 <> format_date (clock w) ->
     open_error w (Spec.path fl (format_date t2)) = None ->
     exists w1 w2 h',
       writeToFile Log (Some f) msg1 level1 w = Return tt w1 /\
       writeToFile Log (Some f) msg2 level2 (set_clock t2 w1) = Return tt w2 /\
       Spec.path fl (format_date t2) <> n /\
       h' <> h /\
       files w2 !! h = Some (mkOsFile n true) /\
       files w2 !! h'
         = Some (mkOsFile (Spec.path fl (format_date t2)) (level2 =? LevelFatal)) /\
       disk w1 !! n = Some (default [] (disk w !! n) ++ [msg1]) /\
       disk w2 !! n = disk w1 !! n /\
       disk w2 !! Spec.path fl (format_date t2)
         = Some (default [] (disk w !! Spec.path fl (format_date t2)) ++ [msg2])).
Proof.
  intros Hf Hopen Had. split.
  - intros msg level Hne Hcan.
    assert (Hdue : rotation_due w fl n) by now split.
    destruct (writeToFile_usable Log w f fl h m1 m2 n msg level Hf Hopen (fun _ => Hcan))
      as (w' & h' & Hrun & Hw).
    destruct Hw as [Hd _ _ _ _ Hh' Hs Hrot _ _ _ _].
    rewrite (target_rotated w fl n Hdue) in Hd, Hh'.
    destruct (Hrot Hdue) as [Hneq Hold].
    exists w', h'. repeat split; try assumption.
    + intros Hnf. apply Z.eqb_neq in Hnf. rewrite Hnf in Hs.
      eexists. rewrite Hs, lookup_insert_eq. now repeat split.
    + rewrite Hd. apply append_line_lookup.
    + rewrite Hd. apply append_line_other. congruence.
  - intros msg1 msg2 level1 level2 t2 Hn Hnf Hdate Hcan.
    assert (Hsteady : ~ rotation_due w fl n) by (intros [_ H]; now apply H).
    destruct (writeToFile_usable Log w f fl h m1 m2 n msg1 level1 Hf Hopen
                (fun H => False_ind _ (Hsteady H)))
      as (w1 & h1 & Hrun1 & Hw1).
    destruct Hw1 as [Hd1 _ _ _ Hm1' Hh1 Hs1 _ Hkept Hck1 _ Hoe1].
    rewrite (target_steady w fl n Hsteady) in Hd1, Hh1.
    specialize (Hkept Hsteady). subst h1.
    apply Z.eqb_neq in Hnf. rewrite Hnf in Hs1, Hh1.
    set (fl1 := with_file (Some (FileWriter h)) (Some h) fl) in *.
    set (w1' := set_clock t2 w1).
    assert (Hf1 : fileLoggers w1' !! f = Some fl1).
    { unfold w1'. destruct w1. cbn in *. rewrite Hs1. apply lookup_insert_eq. }
    assert (Hopen1 : sink_open w1' fl1 h m1 m2 n).
    { destruct Hopen as [Hfile Hlg Hs Hsw Hne Hu1 Hu2 Hh].
      unfold w1'. destruct w1. cbn in *. subst.
      split; cbn; try assumption; try reflexivity. }
    assert (Hpath : current_path w1' fl1 = Spec.path fl (format_date t2)).
    { unfold w1'. destruct w1. reflexivity. }
    assert (Hne : Spec.path fl (format_date t2) <> n).
    { rewrite Hn. unfold current_path. intros E.
      apply Hdate. now apply (path_date_inj fl). }
    assert (Hdue : rotation_due w1' fl1 n).
    { split; [exact Had|]. rewrite Hpath. congruence. }
    assert (Hcan1 : open_error w1' (current_path w1' fl1) = None).
    { rewrite Hpath. unfold w1'. destruct w1. cbn in *. now rewrite Hoe1. }
    destruct (writeToFile_usable Log w1' f fl1 h m1 m2 n msg2 level2 Hf1 Hopen1
                (fun _ => Hcan1))
      as (w2 & h' & Hrun2 & Hw2).
    destruct Hw2 as [Hd2 _ _ _ _ Hh2 _ Hrot _ _ _ _].
    rewrite (target_rotated w1' fl1 n Hdue), Hpath in Hd2, Hh2.
    destruct (Hrot Hdue) as [Hneq Hold].
    assert (Hdisk : disk w1' = disk w1) by (unfold w1'; now destruct w1).
    exists w1, w2, h'. repeat split; try assumption.
    + rewrite Hd1. apply append_line_lookup.
    + rewrite Hd2, Hdisk. now apply append_line_other.
    + rewrite Hd2, Hdisk, Hd1, append_line_lookup.
      rewrite append_line_other by congruence. reflexivity.
Qed.

Lemma rotation_on_date_change_witness :
  exists w1 w2,
    writeToFile (Log 0) (Some 1%nat) "x" LevelInfo Demo.world = Return tt w1 /\
    writeToFile (Log 0) (Some 1%nat) "y" LevelInfo (set_clock Demo.april11 w1)
      = Return tt w2 /\
    disk w2 !! Demo.today = disk w1 !! Demo.today /\
    disk w2 !! Demo.tomorrow = Some ["y"%string].
Proof.
  assert (Hopen : sink_open Demo.world Demo.sink 0 0 1 Demo.today)
    by (split; try reflexivity; discriminate).
  destruct (rotation_on_date_change (Log 0) Demo.world 1 Demo.sink 0 0 1
              Demo.today eq_refl Hopen eq_refl) as [_ Htwo].
  destruct (Htwo "x"%string "y"%string LevelInfo LevelInfo Demo.april11
              eq_refl ltac:(discriminate) ltac:(discriminate) eq_refl)
    as (w1 & w2 & h' & H1 & H2 & _ & _ & _ & _ & _ & Hold & Hnew).
  exists w1, w2. repeat split; assumption.
Defined.

(** ** C7: a fatal line *)

(** C7.  [Log] at level Fatal through an open sink: when the file gate
    admits it the line is appended to the file and the handle is then
    closed and taken off the sink; when the console gate admits it the
    line is printed on standard error and the process then exits with
    status 1.  The world the process exits in holds the line both in
    the file and on standard error. *)
Theorem fatal_writes_closes_exits (fuel : nat) (w : World) (a : nat) (lg : Logger)
    (f : nat) (fl : FileLogger) (h m1 m2 : nat) (n : string) (message : string)
    (parameters : list any) :
  ready w a lg f fl -> sink_open w fl h m1 m2 n ->
  (rotation_due w fl n -> open_error w (current_path w fl) = None) ->
  exists w' h',
    Log (S fuel) (Some a) LevelFatal message parameters w =
      (if lLevel lg <=? LevelFatal then Exit 1 w' else Return tt w') /\
    (fLevel fl <= LevelFatal ->
       disk w' = append_line (target_path w fl n)
                   (plain_line w lg LevelFatal message parameters) (disk w) /\
       files w' !! h' = Some (mkOsFile (target_path w fl n) true) /\
       (h' = h \/ files w' !! h = Some (mkOsFile n true)) /\
       fileLoggers w' !! f = Some (with_file None None fl)) /\
    stdout w' = stdout w /\
    stderr w' = stderr w ++
      (if lLevel lg <=? LevelFatal
       then [console_line w lg LevelFatal message parameters] else []).
Proof.
  intros Hready Hopen Hcan.
  destruct (Log_open fuel w a lg f fl h m1 m2 n LevelFatal message parameters
              Hready Hopen Hcan)
    as (w1 & w' & h' & Hrun & Hfile & Ho & He & Hd & Hfs & Hfls & _).
  change (LevelFatal =? LevelFatal) with true in *.
  change (LevelFatal =? LevelError) with false in *.
  rewrite andb_true_r in *. cbn [negb andb orb] in *. rewrite andb_false_r in Ho.
  rewrite app_nil_r in Ho.
  exists w', h'. split; [assumption|]. split; [|split].
  - intros Hgate. apply Z.leb_le in Hgate. rewrite Hgate in Hfile.
    destruct Hfile as [Hd1 _ _ _ _ Hh' Hs Hrot Hkept _ _ _].
    rewrite Hd, Hfs, Hfls. repeat split; try assumption.
    + destruct (rotation_due_dec w fl n) as [Hdue|Hdue].
      * right. now apply Hrot.
      * left. now apply Hkept.
    + rewrite Hs. apply lookup_insert_eq.
  - rewrite Ho. destruct (fLevel fl <=? LevelFatal).
    + apply (written_stdout _ _ _ _ _ _ _ _ _ Hfile).
    + now subst w1.
  - rewrite He. f_equal. destruct (fLevel fl <=? LevelFatal).
    + apply (written_stderr _ _ _ _ _ _ _ _ _ Hfile).
    + now subst w1.
Qed.

Lemma fatal_writes_closes_exits_witness :
  exists w',
    Log 1 (Some 7%nat) LevelFatal "x" [] Demo.world = Exit 1 w' /\
    disk w' !! Demo.today
      = Some ["an earlier line"%string;
              plain_line Demo.world Demo.facade LevelFatal "x" []] /\
    files w' !! 0%nat = Some (mkOsFile Demo.today true) /\
    stderr w' = [console_line Demo.world Demo.facade LevelFatal "x" []].
Proof.
  assert (Hready : ready Demo.world 7 Demo.facade 1 Demo.sink)
    by (split; reflexivity).
  assert (Hopen : sink_open Demo.world Demo.sink 0 0 1 Demo.today)
    by (split; try reflexivity; discriminate).
  destruct (fatal_writes_closes_exits 0 Demo.world 7 Demo.facade 1 Demo.sink
              0 0 1 Demo.today "x" [] Hready Hopen (fun _ => eq_refl))
    as (w' & h' & Hrun & Hfile & _ & Herr).
  destruct (Hfile ltac:(discriminate)) as (Hd & Hh' & Hh & _).
  exists w'. repeat split.
  - exact Hrun.
  - rewrite Hd. reflexivity.
  - destruct Hh as [->|Hh]; assumption.
  - exact Herr.
Defined.

(** ** C5: the log file cannot be opened *)

(** [openFile] on a sink whose mutexes are in place, when the open fails. *)
Lemma openFile_error_returns (fuel : nat) (w : World) (a : nat) (lg : Logger) (f : nat)
    (fl : FileLogger) (m1 : nat) (err : string) :
  ready w a lg f fl -> logger fl = None ->
  fileSync fl = Some m1 -> mutexes w !! m1 = Some unlocked ->
  open_error w (current_path w fl) = Some err ->
  let report :=
    Sprintf ("Cannot access the log file '%s'" +:+ newline +:+ "%s")
      [AString (current_path w fl); AString err] in
  exists w0 w1,
    openFile (Log (S fuel)) (Some f) w =
      (Log (S fuel) (rootLogger fl) LevelError report [] ;;; Unlock (Some m1)) w0 /\
    stdout w0 = stdout w /\ stderr w0 = stderr w /\
    openFile (Log (S fuel)) (Some f) w = Return tt w1 /\
    stdout w1 = stdout w /\
    stderr w1 = stderr w ++
      (if lLevel lg <=? LevelError then [console_line w lg LevelError report []] else []) /\
    disk w1 = disk w /\ files w1 = files w /\ fileLoggers w1 = fileLoggers w /\
    loggers w1 = loggers w.
Proof.
  intros [Hl Hout Herr HF Hf Hroot] Hnone Hm1 Hu1 Hopen report.
  rewrite (openFile_error (Log (S fuel)) w f fl m1 err Hf Hm1 Hu1 Hopen).
  fold report.
  exists (set_mutexes (<[m1 := mkRWMutex 0 true]> (mutexes w)) w).
  assert (Hrun : exists w1,
    (Log (S fuel) (rootLogger fl) LevelError report [] ;;; Unlock (Some m1))
      (set_mutexes (<[m1 := mkRWMutex 0 true]> (mutexes w)) w) = Return tt w1 /\
    stdout w1 = stdout w /\
    stderr w1 = stderr w ++
      (if lLevel lg <=? LevelError then [console_line w lg LevelError report []] else []) /\
    disk w1 = disk w /\ files w1 = files w /\ fileLoggers w1 = fileLoggers w /\
    loggers w1 = loggers w).
  { rewrite Hroot. unfold Log.
    destruct w as [ck pf en cs oe dk so se fs ms fls ls]. norm.
    erewrite bind_then; cycle 1.
    { erewrite log_console_only by (norm; eauto).
      apply toConsole_eq with (lg := lg); norm; eauto. }
    norm. change (LevelError =? LevelError) with true. cbn match.
    destruct (lLevel lg <=? LevelError); cbn [and_then].
    - erewrite Unlock_held by (norm; lookups; eauto). norm.
      rewrite insert_twice_id by assumption.
      eexists. split; [reflexivity|]. norm. now repeat split.
    - erewrite Unlock_held by (norm; lookups; eauto). norm.
      rewrite insert_twice_id by assumption.
      eexists. split; [reflexivity|]. norm. rewrite app_nil_r. now repeat split. }
  destruct Hrun as (w1 & Hrun & Hrest).
  exists w1. split; [reflexivity|].
  split; [now destruct w|]. split; [now destruct w|].
  split; assumption.
Qed.

Lemma console_line_same (w w2 : World) (lg : Logger) (level : Level) (message : string)
    (parameters : list any) :
  clock w = clock w2 -> callers w = callers w2 ->
  console_line w lg level message parameters = console_line w2 lg level message parameters.
Proof. intros Hc Hs. unfold console_line, source_of. now rewrite Hc, Hs. Qed.

(** The same on a sink as the caller wrote it down, without mutexes. *)
Lemma openFile_fresh_error (fuel : nat) (w : World) (a : nat) (lg : Logger) (f : nat)
    (fl : FileLogger) (err : string) :
  ready w a lg f fl -> logger fl = None -> fileSync fl = None ->
  open_error w (current_path w fl) = Some err ->
  let report :=
    Sprintf ("Cannot access the log file '%s'" +:+ newline +:+ "%s")
      [AString (current_path w fl); AString err] in
  let m1 := fresh (dom (mutexes w)) in
  let m2 := fresh (dom (<[m1 := unlocked]> (mutexes w))) in
  let fl1 := with_mutexes (Some m1) (Some m2) fl in
  exists w0 w1,
    openFile (Log (S fuel)) (Some f) w =
      (Log (S fuel) (rootLogger fl) LevelError report [] ;;; Unlock (Some m1)) w0 /\
    stdout w0 = stdout w /\ stderr w0 = stderr w /\
    openFile (Log (S fuel)) (Some f) w = Return tt w1 /\
    stdout w1 = stdout w /\
    stderr w1 = stderr w ++
      (if lLevel lg <=? LevelError then [console_line w lg LevelError report []] else []) /\
    disk w1 = disk w /\ files w1 = files w /\
    fileLoggers w1 = <[f := fl1]> (fileLoggers w) /\
    loggers w1 = loggers w.
Proof.
  intros Hready Hnone Hm Hopen report m1 m2 fl1.
  pose proof Hready as [Hl Hout Herr HF Hf Hroot].
  rewrite (openFile_init (Log (S fuel)) w f fl Hf Hm).
  fold m1 m2 fl1. set (wi := set_fileLoggers _ _).
  assert (Hready1 : ready wi a lg f fl1).
  { unfold wi. destruct w; split; norm; lookups; auto. }
  assert (Hu1 : mutexes wi !! m1 = Some unlocked).
  { pose proof (fresh_mutexes_distinct (mutexes w)) as Hneq. fold m1 m2 in Hneq.
    unfold wi. destruct w; norm. now lookups. }
  assert (Hopen1 : open_error wi (current_path wi fl1) = Some err).
  { unfold wi. destruct w, fl; norm. exact Hopen. }
  destruct (openFile_error_returns fuel wi a lg f fl1 m1 err Hready1
              ltac:(destruct fl; exact Hnone) eq_refl Hu1 Hopen1)
    as (w0 & w1 & Hcall & Ho0 & He0 & Hrun & Ho & He & Hd & Hfs & Hfls & Hls).
  exists w0, w1.
  assert (Hsame : current_path wi fl1 = current_path w fl)
    by (unfold wi; destruct w, fl; reflexivity).
  assert (Hline : forall m, console_line wi lg LevelError m []
                            = console_line w lg LevelError m [])
    by (intros m; apply console_line_same; unfold wi; destruct w; reflexivity).
  rewrite Hsame, Hline in *.
  assert (Hwi : stdout wi = stdout w /\ stderr wi = stderr w /\ disk wi = disk w /\
                files wi = files w /\ loggers wi = loggers w /\
                fileLoggers wi = <[f := fl1]> (fileLoggers w))
    by (unfold wi; destruct w; now repeat split).
  destruct Hwi as (Eo & Ee & Ed & Ef & El & Efl).
  split; [exact Hcall|]. split; [congruence|]. split; [congruence|].
  split; [exact Hrun|]. split; [congruence|].
  split; [rewrite He, Ee; reflexivity|].
  repeat split; congruence.
Qed.


Lemma stderr_lines_Error (lg : Logger) (line : string) :
  stderr_lines lg LevelError line = if lLevel lg <=? LevelError then [line] else [].
Proof.
  unfold stderr_lines. change (LevelError =? LevelError) with true.
  cbn [orb]. now rewrite andb_true_r.
Qed.

(** C5.  When the log file cannot be opened, [openFile] makes one call
    of [Log] at level Error on the root logger and returns; the sink
    has neither handle nor [log.Logger].  From then on every [Log]
    call leaves disk and handles alone, prints the line the console
    gate admits and nothing else, exactly the line a logger with a
    usable sink prints. *)
Theorem open_failure_degrades (fuel : nat) (w : World) (a : nat) (lg : Logger)
    (f : nat) (fl : FileLogger) (err : string) :
  ready w a lg f fl -> file fl = None -> logger fl = None ->
  (fileSync fl = None \/
   exists m1, fileSync fl = Some m1 /\ mutexes w !! m1 = Some unlocked) ->
  open_error w (current_path w fl) = Some err ->
  let report :=
    Sprintf ("Cannot access the log file '%s'" +:+ newline +:+ "%s")
      [AString (current_path w fl); AString err] in
  (exists w0 w1 fl1,
     openFile (Log (S fuel)) (Some f) w =
       (Log (S fuel) (rootLogger fl) LevelError report [] ;;; Unlock (fileSync fl1)) w0 /\
     stdout w0 = stdout w /\ stderr w0 = stderr w /\
     openFile (Log (S fuel)) (Some f) w = Return tt w1 /\
     stdout w1 = stdout w /\
     stderr w1 = stderr w ++ stderr_lines lg LevelError (console_line w lg LevelError report []) /\
     disk w1 = disk w /\ files w1 = files w /\
     ready w1 a lg f fl1 /\ logger fl1 = None /\ file fl1 = None) /\
  (forall w2 fl2 level message parameters,
     ready w2 a lg f fl2 -> logger fl2 = None ->
     exists w3,
       Log (S fuel) (Some a) level message parameters w2 =
         (if ((lLevel lg <=? level) && (level =? LevelFatal))%bool
          then Exit 1 w3 else Return tt w3) /\
       disk w3 = disk w2 /\ files w3 = files w2 /\
       ready w3 a lg f fl2 /\
       stdout w3 = stdout w2 ++
         stdout_lines lg level (console_line w2 lg level message parameters) /\
       stderr w3 = stderr w2 ++
         stderr_lines lg level (console_line w2 lg level message parameters) /\
       forall wk flk,
         ready wk a lg f flk -> sink_usable wk flk ->
         clock wk = clock w2 -> callers wk = callers w2 ->
         exists wk',
           Log (S fuel) (Some a) level message parameters wk =
             (if ((lLevel lg <=? level) && (level =? LevelFatal))%bool
              then Exit 1 wk' else Return tt wk') /\
           stdout wk' = stdout wk ++
             stdout_lines lg level (console_line w2 lg level message parameters) /\
           stderr wk' = stderr wk ++
             stderr_lines lg level (console_line w2 lg level message parameters)).
Proof.
  intros Hready Hfile Hnone Hmutex Hopen report. split.
  - destruct Hmutex as [Hm|(m1 & Hm1 & Hu1)].
    + destruct (openFile_fresh_error fuel w a lg f fl err Hready Hnone Hm Hopen)
        as (w0 & w1 & Hcall & Ho0 & He0 & Hrun & Ho & He & Hd & Hfs & Hfls & Hls).
      exists w0, w1, (with_mutexes (Some (fresh (dom (mutexes w))))
                        (Some (fresh (dom (<[fresh (dom (mutexes w)) := unlocked]>
                                             (mutexes w))))) fl).
      split; [exact Hcall|]. split; [assumption|]. split; [assumption|].
      split; [exact Hrun|]. split; [assumption|].
      split; [now rewrite stderr_lines_Error|].
      split; [assumption|]. split; [assumption|].
      split; [|split; destruct fl; assumption].
      destruct Hready as [Hl Hout Herr HF Hf Hroot].
      split; try assumption.
      * congruence.
      * rewrite Hfls. apply lookup_insert_eq.
    + destruct (openFile_error_returns fuel w a lg f fl m1 err Hready Hnone Hm1 Hu1 Hopen)
        as (w0 & w1 & Hcall & Ho0 & He0 & Hrun & Ho & He & Hd & Hfs & Hfls & Hls).
      exists w0, w1, fl. rewrite Hm1.
      split; [exact Hcall|]. repeat split; try assumption.
      * now rewrite stderr_lines_Error.
      * rewrite Hls. apply Hready.
      * apply Hready.
      * apply Hready.
      * apply Hready.
      * rewrite Hfls. apply Hready.
      * apply Hready.
  - intros w2 fl2 level message parameters Hready2 Hnone2.
    pose proof Hready2 as [Hl Hout Herr HF Hf Hroot].
    unfold Log. rewrite (log_console_only fuel w2 a lg f fl2) by assumption.
    destruct (console_half w2 w2 a lg level
                (console_line w2 lg level message parameters) Hl Hout Herr)
      as (w3 & -> & Ho & He & Hd & Hfs & Hfls & Hls & _).
    exists w3. split; [reflexivity|]. split; [assumption|]. split; [assumption|].
    split; [split; try assumption; congruence|].
    split; [exact Ho|]. split; [exact He|].
    intros wk flk Hreadyk Husek Hck Hcs.
    destruct (Log_console fuel wk a lg f flk level message parameters Hreadyk Husek)
      as (wk' & Hrun & Hok & Hek).
    exists wk'. rewrite (console_line_same wk w2) in Hok, Hek by assumption.
    now repeat split.
Qed.

Lemma open_failure_degrades_witness :
  (exists w1,
     openFile (Log 1) (Some 1%nat) Demo.no_disk_world = Return tt w1 /\
     length (stderr w1) = 1%nat /\ stdout w1 = [] /\ disk w1 = ∅) /\
  (exists w3,
     Log 1 (Some 7%nat) LevelError "x" [] Demo.no_disk_world = Return tt w3 /\
     disk w3 = ∅ /\
     stderr w3 = [console_line Demo.no_disk_world Demo.facade LevelError "x" []]).
Proof.
  assert (Hready : ready Demo.no_disk_world 7 Demo.facade 1 Demo.unopened_sink)
    by (split; reflexivity).
  destruct (open_failure_degrades 0 Demo.no_disk_world 7 Demo.facade 1
              Demo.unopened_sink "no such file or directory"
              Hready eq_refl eq_refl (or_introl eq_refl) eq_refl)
    as [(w0 & w1 & fl1 & _ & _ & _ & Hrun & Ho & He & Hd & _) Hlater].
  split.
  - exists w1. repeat split; try assumption. rewrite He. reflexivity.
  - destruct (Hlater Demo.no_disk_world Demo.unopened_sink LevelError "x"%string []
                Hready eq_refl)
      as (w3 & Hrun3 & Hd3 & _ & _ & _ & He3 & _).
    exists w3. repeat split; assumption.
Defined.

(** ** C6: a rotation whose reopening fails *)

(** The reopening of a due rotation fails inside [Log]: the call ends
    in a nil dereference, whatever fuel it is given beyond two. *)
Lemma Log_rotate_error (k : nat) (w : World) (a : nat) (lg : Logger) (f : nat)
    (fl : FileLogger) (h m1 m2 : nat) (n err : string) (level : Level)
    (message : string) (parameters : list any) :
  ready w a lg f fl -> sink_open w fl h m1 m2 n ->
  rotation_due w fl n -> open_error w (current_path w fl) = Some err ->
  fLevel fl <= level ->
  exists w',
    Log (S (S k)) (Some a) level message parameters w = Panic nil_dereference w' /\
    disk w' = disk w.
Proof.
  intros Hready Hopen Hdue Herr Hgate.
  pose proof Hready as [Hl Hout He HF Hf Hroot].
  unfold Log. rewrite (log_S (S k) w a lg f fl) by assumption.
  rewrite (file_gate_open w fl h m1 m2 n level Hopen).
  apply Z.leb_le in Hgate. rewrite Hgate.
  destruct (writeToFile_rotate_error k w a lg f fl h m1 m2 n
              (plain_line w lg level message parameters) err level
              Hready Hopen Hdue Herr) as (w' & Hrun & Hd & _).
  exists w'. split; [|assumption].
  unfold bind. now rewrite Hrun.
Qed.

(** C6.  The day after the log file was opened the directory is
    read-only: the Info call that finds the handle out of date closes
    it, fails to open the new file, reports that on standard error and
    then panics with a nil dereference; its own line reaches no file. *)
Theorem rotation_reopen_failure_panics :
  exists w',
    Log 2 (Some 7%nat) LevelInfo "boom" [] Demo.next_day_read_only
      = Panic nil_dereference w' /\
    disk w' = disk Demo.next_day_read_only /\
    length (stderr w') = 1%nat.
Proof.
  eexists. split; [vm_compute; reflexivity|]. split; reflexivity.
Qed.

(** ** C8: a level outside the enumeration *)

Lemma legacy_levelName_invalid (level : Level) :
  LevelFatal < level -> Legacy.levelName level = EmptyString.
Proof.
  unfold LevelFatal. intros H. unfold Legacy.levelName.
  unfold LevelTrace, LevelDebug, LevelInfo, LevelWarning, LevelError, LevelFatal.
  repeat match goal with
         | |- context [level =? ?k] =>
             replace (level =? k) with false by (symmetry; apply Z.eqb_neq; lia)
         end.
  reflexivity.
Qed.

Lemma String_invalid (level : Level) : LevelFatal < level -> String_ level = "DEBUG"%string.
Proof.
  unfold LevelFatal. intros H. unfold String_.
  unfold LevelTrace, LevelDebug, LevelInfo, LevelWarning, LevelError, LevelFatal.
  repeat match goal with
         | |- context [level =? ?k] =>
             replace (level =? k) with false by (symmetry; apply Z.eqb_neq; lia)
         end.
  reflexivity.
Qed.

Lemma invalid_level_note_eq (level : Level) :
  Sprintf "Invalid level value given: %d. Original message: " [AInt level]
    = Spec.invalid_level_note level.
Proof. reflexivity. Qed.

(** C8, as the code has it.  The legacy logger treats a level above
    Fatal as Warning and puts a note with the given value in front of
    the message.  The current logger does not: it renders such a level
    under the name DEBUG with the message as given, compares the given
    value with both thresholds, and prints on standard output. *)
Theorem invalid_level_handling :
  (forall l level message parameters w,
     LevelFatal < level ->
     Legacy.Log l level message parameters w =
       Legacy.Log l LevelWarning (Spec.invalid_level_note level +:+ message) parameters w) /\
  (forall lg level message parameters file line now,
     LevelFatal < level ->
     printMessage lg level message parameters file line now =
       printMessage lg LevelDebug message parameters file line now) /\
  (forall fuel w a lg f fl level message parameters,
     ready w a lg f fl -> sink_usable w fl -> LevelFatal < level ->
     exists w',
       Log (S fuel) (Some a) level message parameters w = Return tt w' /\
       stderr w' = stderr w /\
       stdout w' = stdout w ++
         (if lLevel lg <=? level
          then [console_line w lg level message parameters] else [])).
Proof.
  split; [|split].
  - intros l level message parameters w Hlvl.
    unfold Legacy.Log, Legacy.log.
    rewrite (legacy_levelName_invalid level Hlvl), invalid_level_note_eq.
    reflexivity.
  - intros lg level message parameters file line now Hlvl.
    unfold printMessage, levelName. now rewrite (String_invalid level Hlvl).
  - intros fuel w a lg f fl level message parameters Hready Huse Hlvl.
    destruct (Log_console fuel w a lg f fl level message parameters Hready Huse)
      as (w' & Hrun & Ho & He).
    unfold LevelFatal in Hlvl.
    replace (level =? LevelFatal) with false in *
      by (symmetry; apply Z.eqb_neq; unfold LevelFatal; lia).
    replace (level =? LevelError) with false in *
      by (symmetry; apply Z.eqb_neq; unfold LevelError; lia).
    rewrite andb_false_r in *. cbn [negb orb] in *. rewrite !andb_true_r in Ho.
    rewrite app_nil_r in He. exists w'. now repeat split.
Qed.

Lemma invalid_level_handling_witness :
  exists w',
    Log 1 (Some 7%nat) 6 "x" [] Demo.world = Return tt w' /\
    stderr w' = [] /\
    stdout w' = [console_line Demo.world Demo.facade 6 "x" []].
Proof.
  assert (Hready : ready Demo.world 7 Demo.facade 1 Demo.sink)
    by (split; reflexivity).
  assert (Huse : sink_usable Demo.world Demo.sink).
  { right. exists 0%nat, 0%nat, 1%nat, Demo.today. split.
    - split; try reflexivity. discriminate.
    - intros _. reflexivity. }
  destruct invalid_level_handling as (_ & _ & Hcurrent).
  exact (Hcurrent 0%nat Demo.world 7%nat Demo.facade 1%nat Demo.sink 6 "x"%string []
           Hready Huse ltac:(reflexivity)).
Defined.

(** On the running example the current logger does not do what the
    legacy one did: the two calls end in different worlds. *)
Lemma invalid_level_not_substituted :
  Log 1 (Some 7%nat) 6 "x" [] Demo.world <>
    Log 1 (Some 7%nat) LevelWarning (Spec.invalid_level_note 6 +:+ "x") [] Demo.world /\
  exists w',
    Log 1 (Some 7%nat) 6 "x" [] Demo.world = Return tt w' /\
    disk w' !! Demo.today
      = Some ["an earlier line"%string;
              "[DEBUG] 2024-04-10 19:00:00 (main.go:42)PREFIX - x"%string].
Proof.
  split.
  - intros E.
    apply (f_equal (fun o => match o with
                             | Return _ w => stdout w
                             | _ => []
                             end)) in E.
    vm_compute in E. discriminate E.
  - eexists. split; [vm_compute; reflexivity|reflexivity].
Qed.

(** ** C9: the layout of a line *)

Lemma levelName_width (level : Level) :
  String.length (levelName level) = 5%nat /\
  exists k, levelName level = String_ level +:+ spaces k.
Proof.
  unfold levelName, pad_right. split; [|eexists; reflexivity].
  unfold String_. repeat match goal with
                         | |- context [if ?b then _ else _] => destruct b
                         end; reflexivity.
Qed.

(** C9, as the code has it.  A line written to the file is, unless
    [OnlyPrintMessage] is set, the level name padded with spaces on the
    right to five bytes between brackets, a space, the local time as
    YYYY-MM-DD HH:MM:SS, the locator [ (file:line)] when [PrintSource]
    is set, the prefix exactly as configured, [ - ] and the message.
    With [OnlyPrintMessage] set the line is the message alone. *)
Theorem file_line_layout (lg : Logger) (level : Level) (message : string)
    (parameters : list any) (file : string) (line : Z) (now : Clock) :
  let body := match parameters with
              | [] => message
              | _ => Sprintf message parameters
              end in
  (OnlyPrintMessage lg = false ->
   printMessage lg level message parameters file line now =
     "[" +:+ levelName level +:+ "] " +:+ format_date_time now +:+
       getSourceMessage file line lg +:+ Prefix lg +:+ " - " +:+ body) /\
  (OnlyPrintMessage lg = true ->
   printMessage lg level message parameters file line now = body) /\
  (String.length (levelName level) = 5%nat /\
   exists k, levelName level = String_ level +:+ spaces k) /\
  (PrintSource lg = false -> getSourceMessage file line lg = EmptyString) /\
  (PrintSource lg = true ->
   getSourceMessage file line lg =
     " (" +:+ (slice_from file (LastIndex file "/" + 1) +:+ ":" +:+ Itoa line) +:+ ")") /\
  (Prefix lg = EmptyString -> OnlyPrintMessage lg = false ->
   printMessage lg level message parameters file line now =
     "[" +:+ levelName level +:+ "] " +:+ format_date_time now +:+
       getSourceMessage file line lg +:+ " - " +:+ body) /\
  (valid_clock now -> Spec.date_time_form (format_date_time now) = true) /\
  (forall fuel w a f fl h m1 m2 n,
     ready w a lg f fl -> sink_open w fl h m1 m2 n ->
     (rotation_due w fl n -> open_error w (current_path w fl) = None) ->
     fLevel fl <= level ->
     exists w',
       (Log (S fuel) (Some a) level message parameters w = Return tt w' \/
        Log (S fuel) (Some a) level message parameters w = Exit 1 w') /\
       disk w' !! target_path w fl n =
         Some (default [] (disk w !! target_path w fl n) ++
               [printMessage lg level message parameters
                  (source_of w lg).1 (source_of w lg).2 (clock w)])).
Proof.
  intros body. repeat split.
  - intros H. unfold printMessage. now rewrite H.
  - intros H. unfold printMessage. now rewrite H.
  - apply levelName_width.
  - apply levelName_width.
  - intros H. unfold getSourceMessage. now rewrite H.
  - intros H. unfold getSourceMessage. now rewrite H.
  - intros Hp H. unfold printMessage. now rewrite H, Hp.
  - apply format_date_time_form.
  - intros fuel w a f fl h m1 m2 n Hready Hopen Hcan Hgate.
    destruct (Log_open fuel w a lg f fl h m1 m2 n level message parameters
                Hready Hopen Hcan)
      as (w1 & w' & h' & Hrun & Hfile & _ & _ & Hd & _).
    apply Z.leb_le in Hgate. rewrite Hgate in Hfile.
    exists w'. split.
    + rewrite Hrun. destruct (_ && _)%bool; auto.
    + rewrite Hd, (written_disk _ _ _ _ _ _ _ _ _ Hfile). apply append_line_lookup.
Qed.

Lemma file_line_layout_witness :
  printMessage Demo.facade LevelInfo "x" [] "/src/app/main.go" 42 Demo.april10
    = "[INFO ] 2024-04-10 19:00:00 (main.go:42)PREFIX - x"%string /\
  Spec.date_time_form (format_date_time Demo.april10) = true.
Proof.
  destruct (file_line_layout Demo.facade LevelInfo "x" [] "/src/app/main.go" 42
              Demo.april10) as (Hfull & _ & _ & _ & _ & _ & Hform & _).
  split.
  - rewrite (Hfull eq_refl). reflexivity.
  - apply Hform. unfold valid_clock. cbn. lia.
Defined.

(** The line of the specification is not the line of the code: the
    name is padded on the other side and the prefix follows the
    locator without a space; with [OnlyPrintMessage] there is no
    header at all. *)
Lemma header_form_counterexample :
  (exists w' l,
     Log 1 (Some 7%nat) LevelInfo "x" [] Demo.world = Return tt w' /\
     disk w' !! Demo.today = Some ["an earlier line"%string; l] /\
     l = "[INFO ] 2024-04-10 19:00:00 (main.go:42)PREFIX - x"%string /\
     l <> Spec.line Demo.facade LevelInfo "x" "/src/app/main.go" 42 Demo.april10) /\
  (exists w' l,
     Log 1 (Some 7%nat) LevelInfo "x" [] Demo.bare_world = Return tt w' /\
     disk w' !! Demo.today = Some ["an earlier line"%string; l] /\
     l = "x"%string /\
     l <> Spec.line Demo.bare_facade LevelInfo "x" "/src/app/main.go" 42
            Demo.april10).
Proof.
  split; eexists; eexists; (split; [vm_compute; reflexivity|]);
    (split; [reflexivity|]); (split; [reflexivity|]); vm_compute; discriminate.
Qed.

(** The console line is another matter: [printMessageColored] is built
    from [printMessage] after the header was put in front of it, so
    without colors the console line is the header followed by the whole
    file line. *)
Lemma console_line_repeats_header (lg : Logger) (level : Level) (message : string)
    (parameters : list any) (file : string) (line : Z) (now : Clock) :
  enableColors (colorConf lg) = false -> OnlyPrintMessage lg = false ->
  printMessageColored lg level message parameters file line now =
    ("[" +:+ levelName level +:+ "] ") +:+ format_date_time now +:+
      getSourceMessage file line lg +:+ Prefix lg +:+ " - " +:+
      printMessage lg level message parameters file line now.
Proof.
  intros Hc Ho. unfold printMessageColored, getColored. now rewrite Hc, Ho.
Qed.

Lemma console_line_on_the_example :
  console_line Demo.world Demo.facade LevelError "x" [] =
    "[ERROR] 2024-04-10 19:00:00 (main.go:42)PREFIX - [ERROR] 2024-04-10 19:00:00 (main.go:42)PREFIX - x"%string.
Proof. reflexivity. Qed.

(** ** C10: level names and the environment *)

Lemma level_round_trip (lvl : Level) :
  defined_level lvl -> level_of_name (ToLower (String_ lvl)) = Some lvl.
Proof.
  unfold defined_level. intros H.
  assert (Hcases : lvl = 0 \/ lvl = 1 \/ lvl = 2 \/ lvl = 3 \/ lvl = 4 \/ lvl = 5) by lia.
  destruct Hcases as [->|[->|[->|[->|[->| ->]]]]]; reflexivity.
Qed.

Lemma GetLevelByName_String (fuel : nat) (lvl : Level) (w : World) :
  defined_level lvl -> GetLevelByName fuel (String_ lvl) w = Return lvl w.
Proof.
  intros H. unfold GetLevelByName. now rewrite (level_round_trip lvl H).
Qed.

Lemma getEnvBool_eq (key : string) (dflt : bool) (w : World) :
  getEnvBool key dflt w =
    Return (match environ w !! key with
            | Some v =>
                (String.eqb (ToLower v) "1" || String.eqb (ToLower v) "true" ||
                 String.eqb (ToLower v) "yes" || String.eqb (ToLower v) "ja")%bool
            | None => dflt
            end) w.
Proof.
  unfold getEnvBool, LookupEnv. rewrite (run_bind _ _ _ _ _ (get_eq _ w)).
  destruct (environ w !! key); reflexivity.
Qed.

Lemma getEnvString_eq (key dflt : string) (w : World) :
  getEnvString key dflt w = Return (default dflt (environ w !! key)) w.
Proof.
  unfold getEnvString, LookupEnv. rewrite (run_bind _ _ _ _ _ (get_eq _ w)).
  destruct (environ w !! key); reflexivity.
Qed.

(** [newColorConfig] changes nothing; it returns or panics. *)
Lemma newColorConfig_cases (enable : bool) (w : World) :
  (exists conf, newColorConfig enable w = Return conf w) \/
  (exists v, newColorConfig enable w = Panic v w).
Proof.
  unfold newColorConfig. destruct enable; [|left; eexists; reflexivity].
  unfold LookupEnv. rewrite (run_bind _ _ _ _ _ (get_eq _ w)).
  destruct (environ w !! "TERMINAL_DISABLE_COLORS"); [left; eexists; reflexivity|].
  rewrite (run_bind _ _ _ _ _ (get_eq _ w)).
  destruct (environ w !! "TERMINAL_ENABLE_COLORS"); [left; eexists; reflexivity|].
  unfold isColoringSupported. rewrite ?bind_assoc.
  rewrite (run_bind _ _ _ _ _ (get_eq _ w)).
  destruct (platform w) as [|[b|]].
  - unfold Getenv, LookupEnv. rewrite ?bind_assoc.
    rewrite (run_bind _ _ _ _ _ (get_eq _ w)). left. eexists. reflexivity.
  - left. eexists. reflexivity.
  - right. eexists. reflexivity.
Qed.

(** One [Log] through a usable sink keeps every logger and the level of
    the sink, whether it returns or exits. *)
Lemma Log_keeps_levels (fuel : nat) (w : World) (a : nat) (lg : Logger) (f : nat)
    (fl : FileLogger) (level : Level) (message : string) (parameters : list any) :
  ready w a lg f fl -> sink_usable w fl ->
  exists w' fl',
    Log (S fuel) (Some a) level message parameters w =
      (if ((lLevel lg <=? level) && (level =? LevelFatal))%bool
       then Exit 1 w' else Return tt w') /\
    loggers w' = loggers w /\
    fileLoggers w' !! f = Some fl' /\ fLevel fl' = fLevel fl.
Proof.
  intros Hready [Hnone|(h & m1 & m2 & n & Hopen & Hcan)].
  - pose proof Hready as [Hl Hout Herr HF Hf Hroot].
    unfold Log. rewrite (log_console_only fuel w a lg f fl) by assumption.
    destruct (console_half w w a lg level (console_line w lg level message parameters)
                Hl Hout Herr) as (w' & -> & _ & _ & _ & _ & Hfls & Hls & _).
    exists w', fl. rewrite Hfls. now repeat split.
  - destruct (Log_open fuel w a lg f fl h m1 m2 n level message parameters
                Hready Hopen Hcan)
      as (w1 & w' & h' & Hrun & Hfile & _ & _ & _ & _ & Hfls & Hls & _).
    destruct (fLevel fl <=? level).
    + destruct Hfile as [_ _ _ Hls1 _ _ Hs _ _ _ _ _].
      eexists w', _. split; [exact Hrun|]. split; [congruence|].
      rewrite Hfls, Hs, lookup_insert_eq. split; [reflexivity|].
      destruct (level =? LevelFatal); reflexivity.
    + subst w1. exists w', fl. split; [exact Hrun|]. split; [assumption|].
      rewrite Hfls. split; [apply Hready|reflexivity].
Qed.

(** The file part of [setup] on a sink as the caller wrote it down. *)
Lemma setup_file_part (fuel : nat) (w : World) (a : nat) (lg : Logger) (f : nat)
    (fl : FileLogger) :
  ready w a lg f fl -> file fl = None -> logger fl = None -> fileSync fl = None ->
  exists w2 fl2,
    (if (negb (String.eqb (TrimSpace (Path fl)) EmptyString) && negb false)%bool
     then openFile (Log (S fuel)) (Some f)
     else if negb false then CloseFile (Some f) else ret tt) w = Return tt w2 /\
    ready w2 a lg f fl2 /\ fLevel fl2 = fLevel fl /\ sink_usable w2 fl2.
Proof.
  intros Hready Hfile Hnone Hm.
  pose proof Hready as [Hl Hout Herr HF Hf Hroot].
  destruct (negb (String.eqb (TrimSpace (Path fl)) EmptyString)); cbn [negb andb].
  - destruct (open_error w (current_path w fl)) as [err|] eqn:Hopen.
    + destruct (openFile_fresh_error fuel w a lg f fl err Hready Hnone Hm Hopen)
        as (w0 & w1 & _ & _ & _ & Hrun & _ & _ & _ & _ & Hfls & Hls).
      exists w1, (with_mutexes (Some (fresh (dom (mutexes w))))
                    (Some (fresh (dom (<[fresh (dom (mutexes w)) := unlocked]>
                                         (mutexes w))))) fl).
      split; [exact Hrun|]. split; [|split].
      * split; try assumption.
        -- congruence.
        -- rewrite Hfls. apply lookup_insert_eq.
      * now destruct fl.
      * left. now destruct fl.
    + rewrite (openFile_init (Log (S fuel)) w f fl Hf Hm).
      pose proof (fresh_mutexes_distinct (mutexes w)) as Hneq.
      set (m1 := fresh (dom (mutexes w))) in *.
      set (m2 := fresh (dom (<[m1 := unlocked]> (mutexes w)))) in *.
      set (fl1 := with_mutexes (Some m1) (Some m2) fl).
      set (wi := set_fileLoggers _ _).
      assert (Hf1 : fileLoggers wi !! f = Some fl1).
      { unfold wi. destruct w; norm. now lookups. }
      assert (Hu1 : mutexes wi !! m1 = Some unlocked).
      { unfold wi. destruct w; norm. now lookups. }
      assert (Hopen1 : open_error wi (current_path wi fl1) = None).
      { unfold wi. destruct w, fl; norm. exact Hopen. }
      rewrite (openFile_ok (Log (S fuel)) wi f fl1 m1 Hf1 eq_refl Hu1 Hopen1).
      set (h := fresh (dom (files wi))).
      eexists _, _. split; [reflexivity|].
      unfold wi. destruct w as [ck pf en cs oe dk so se fs ms fls ls].
      destruct fl as [lv pa ad s1 s2 lgr fi rt]. norm.
      cbn in Hfile, Hnone, Hm, Hroot. subst.
      split; [|split].
      * split; norm; lookups; auto.
      * reflexivity.
      * right. exists h, m1, m2, (Spec.path
          (mkFileLogger lv pa ad (Some m1) (Some m2) None None (Some a))
          (format_date ck)).
        split.
        -- split; norm; lookups; auto.
        -- intros [_ Hdue]. exfalso. apply Hdue. reflexivity.
  - exists w, fl. rewrite (CloseFile_closed w f fl Hf Hfile).
    split; [reflexivity|]. split; [assumption|]. split; [reflexivity|now left].
Qed.

(** [setup] on a configuration as the caller wrote it down returns,
    and changes neither threshold. *)
Lemma setup_fresh (fuel : nat) (w : World) (a : nat) (lg : Logger) (f : nat)
    (fl : FileLogger) :
  loggers w !! a = Some lg -> File lg = Some f -> fileLoggers w !! f = Some fl ->
  file fl = None -> logger fl = None -> fileSync fl = None ->
  exists w' lg' fl',
    setup (S fuel) (Some a) false w = Return tt w' /\
    loggers w' !! a = Some lg' /\ lLevel lg' = lLevel lg /\
    fileLoggers w' !! f = Some fl' /\ fLevel fl' = fLevel fl.
Proof.
  intros Hl HF Hf Hfile Hnone Hm.
  unfold setup, loadLogger, loadFileLogger.
  rewrite (run_bind _ _ _ _ _ (load_Some loggers a lg w Hl)). rewrite HF.
  rewrite (run_bind _ _ _ _ _ (updateFileLogger_Some f fl _ w Hf)).
  set (fl0 := with_rootLogger (Some a) fl).
  set (lg0 := with_console (Some Stdout) (Some Stderr) lg).
  set (w0 := set_loggers (<[a := lg0]> (loggers w))
               (set_fileLoggers (<[f := fl0]> (fileLoggers w)) w)).
  assert (Hready : ready w0 a lg0 f fl0).
  { unfold w0. destruct w; split; norm; lookups; auto. }
  erewrite run_bind; cycle 1.
  { apply updateLogger_Some. destruct w; norm. exact Hl. }
  fold lg0. replace (set_loggers _ _) with w0 by (unfold w0; now destruct w).
  rewrite (run_bind _ _ _ _ _ (load_Some fileLoggers f fl0 w0 (ready_sink _ _ _ _ _ Hready))).
  destruct (setup_file_part fuel w0 a lg0 f fl0 Hready
              ltac:(destruct fl; exact Hfile) ltac:(destruct fl; exact Hnone)
              ltac:(destruct fl; exact Hm))
    as (w2 & fl2 & Hrun & Hready2 & Hlvl2 & Huse2).
  rewrite (run_bind _ _ _ _ _ Hrun).
  pose proof Hready2 as [Hl2 Hout2 Herr2 HF2 Hf2 Hroot2].
  unfold recovering, loadLogger.
  rewrite (run_bind _ _ _ _ _ (load_Some loggers a lg0 w2 Hl2)).
  destruct (newColorConfig_cases (ColoredOutput lg0) w2) as [[conf Hconf]|[v Hpanic]].
  - rewrite (run_bind _ _ _ _ _ Hconf).
    rewrite (updateLogger_Some a lg0 _ w2 Hl2).
    eexists _, _, fl2. split; [reflexivity|].
    destruct w2; norm. lookups. repeat split; try assumption.
  - unfold bind at 1. rewrite Hpanic. cbn [and_then].
    destruct (Log_keeps_levels fuel w2 a lg0 f fl2 LevelDebug "Panic occured: %s"
                [AString v] Hready2 Huse2)
      as (w3 & fl3 & Hlog & Hls3 & Hf3 & Hlvl3).
    change (LevelDebug =? LevelFatal) with false in Hlog.
    rewrite andb_false_r in Hlog. unfold Log in Hlog.
    rewrite (run_bind _ _ _ _ _ Hlog).
    exists w3, lg0, fl3. split; [reflexivity|].
    rewrite Hls3. repeat split; try assumption.
    rewrite Hlvl3, Hlvl2. now destruct fl.
Qed.

Ltac norm_env :=
  norm;
  cbn [with_lLevel with_ColoredOutput with_PrintSource with_OnlyPrintMessage
       with_fLevel with_Path with_AppendDate] in *.

Ltac step_env L :=
  rewrite ?bind_assoc; erewrite run_bind by (eapply L; norm_env; lookups; eauto); norm_env.

(** C10.  Each of the six levels is the level its own name parses to,
    through a recognised branch of [GetLevelByName], which therefore
    prints no warning.  Hence [GetLoggerFromEnv], when neither level
    variable is set in the environment, returns the caller's logger
    with the two thresholds the caller chose. *)
Theorem level_names_round_trip :
  (forall lvl,
     defined_level lvl ->
     level_of_name (ToLower (String_ lvl)) = Some lvl /\
     forall fuel w, GetLevelByName fuel (String_ lvl) w = Return lvl w) /\
  (forall fuel w a lg f fl,
     loggers w !! a = Some lg -> File lg = Some f -> fileLoggers w !! f = Some fl ->
     file fl = None -> logger fl = None -> fileSync fl = None ->
     defined_level (lLevel lg) -> defined_level (fLevel fl) ->
     environ w !! "LOGGER_LEVEL"%string = None ->
     environ w !! "LOGGER_FILE_LEVEL"%string = None ->
     exists w' lg' fl',
       GetLoggerFromEnv (S fuel) (Some a) w = Return (Some a) w' /\
       loggers w' !! a = Some lg' /\ lLevel lg' = lLevel lg /\
       fileLoggers w' !! f = Some fl' /\ fLevel fl' = fLevel fl).
Proof.
  split.
  - intros lvl Hlvl. split; [now apply level_round_trip|].
    intros fuel w. now apply GetLevelByName_String.
  - intros fuel w a lg f fl Hl HF Hf Hfile Hnone Hm Hcon Hfil Henv1 Henv2.
    destruct w as [ck pf en cs oe dk so se fs ms fls ls].
    destruct lg as [lv co ps op fi px fr cc lo le].
    destruct fl as [flv pa ad s1 s2 lgr fh rt].
    norm_env. subst.
    unfold GetLoggerFromEnv, loadLogger, loadFileLogger.
    step_env @load_Some. step_env getEnvBool_eq. step_env updateLogger_Some.
    step_env @load_Some. step_env getEnvString_eq.
    rewrite Henv1. cbn [default from_option].
    step_env GetLevelByName_String. step_env updateLogger_Some.
    step_env @load_Some. step_env getEnvBool_eq. step_env updateLogger_Some.
    step_env @load_Some. step_env @load_Some. step_env getEnvString_eq.
    rewrite Henv2. cbn [default from_option].
    step_env GetLevelByName_String. step_env updateFileLogger_Some.
    step_env @load_Some. step_env @load_Some. step_env getEnvString_eq.
    step_env updateFileLogger_Some.
    step_env @load_Some. step_env @load_Some. step_env getEnvBool_eq.
    step_env updateFileLogger_Some.
    step_env @load_Some. step_env getEnvBool_eq. step_env updateLogger_Some.
    unfold NewLogger.
    match goal with
    | |- context [bind (setup (S fuel) (Some a) false) _ ?w0] =>
        edestruct (setup_fresh fuel w0 a) with (f := f)
          as (w' & lg' & fl' & Hrun & Hl' & Hlv' & Hf' & Hflv');
          [norm_env; lookups; reflexivity ..|]
    end.
    norm_env.
    rewrite (run_bind _ _ _ _ _ Hrun).
    exists w', lg', fl'. now repeat split.
Qed.

Lemma level_names_round_trip_witness :
  (forall fuel w, GetLevelByName fuel (String_ LevelWarning) w = Return LevelWarning w) /\
  exists w' lg' fl',
    GetLoggerFromEnv 1 (Some 7%nat) Demo.fresh_world = Return (Some 7%nat) w' /\
    loggers w' !! 7%nat = Some lg' /\ lLevel lg' = LevelError /\
    fileLoggers w' !! 1%nat = Some fl' /\ fLevel fl' = LevelDebug.
Proof.
  destruct level_names_round_trip as [Hname Henv]. split.
  - exact (proj2 (Hname LevelWarning ltac:(vm_compute; split; discriminate))).
  - exact (Henv 0%nat Demo.fresh_world 7%nat Demo.fresh_facade 1%nat
             Demo.fresh_sink eq_refl eq_refl eq_refl eq_refl eq_refl eq_refl
             ltac:(vm_compute; split; discriminate) ltac:(vm_compute; split; discriminate)
             eq_refl eq_refl).
Defined.

(** * Further properties of the package *)

(** ** file.go: closing *)

(** X1.  [CloseFile] on a sink that holds a handle closes the handle, takes
    handle and [log.Logger] off the sink, keeps the sink's
    configuration, leaves the disk alone and gives the mutex back; a
    second [CloseFile] changes nothing. *)
Theorem CloseFile_idempotent (w : World) (f : nat) (fl : FileLogger) (h m1 : nat)
    (x : OsFile) :
  fileLoggers w !! f = Some fl -> file fl = Some h -> fileSync fl = Some m1 ->
  mutexes w !! m1 = Some unlocked -> files w !! h = Some x ->
  exists w',
    CloseFile (Some f) w = Return tt w' /\
    files w' !! h = Some (mkOsFile (name x) true) /\
    fileLoggers w' !! f = Some (with_file None None fl) /\
    mutexes w' = mutexes w /\ disk w' = disk w /\
    stdout w' = stdout w /\ stderr w' = stderr w /\
    CloseFile (Some f) w' = Return tt w'.
Proof.
  intros Hf Hfile Hm Hu Hh.
  rewrite (CloseFile_open w f fl h m1 x Hf Hfile Hm Hu Hh).
  eexists. split; [reflexivity|].
  destruct w; norm. lookups. repeat split.
  apply (CloseFile_closed _ f (with_file None None fl)); norm; now lookups.
Qed.

Lemma CloseFile_idempotent_witness :
  exists w',
    CloseFile (Some 1%nat) Demo.world = Return tt w' /\
    files w' !! 0%nat = Some (mkOsFile Demo.today true) /\
    CloseFile (Some 1%nat) w' = Return tt w'.
Proof.
  destruct (CloseFile_idempotent Demo.world 1 Demo.sink 0 0 (mkOsFile Demo.today false)
              eq_refl eq_refl eq_refl eq_refl eq_refl)
    as (w' & Hrun & Hh & _ & _ & _ & _ & _ & Hagain).
  exists w'. now repeat split.
Defined.

(** ** logger.go: a Logger without a FileLogger *)

(** X2.  A [Logger] whose [File] is nil cannot be used: [setup] panics at
    its first statement, before its [recover] is in place, and so does
    every [Log], whatever the level and the thresholds. *)
Theorem nil_File_panics (w : World) (a : nat) (lg : Logger) :
  loggers w !! a = Some lg -> File lg = None ->
  (forall fuel keepFile, setup fuel (Some a) keepFile w = Panic nil_dereference w) /\
  (forall fuel, NewLogger fuel (Some a) w = Panic nil_dereference w) /\
  (forall fuel level message parameters,
     Log (S fuel) (Some a) level message parameters w = Panic nil_dereference w).
Proof.
  intros Hl HF.
  assert (Hsetup : forall fuel keepFile,
            setup fuel (Some a) keepFile w = Panic nil_dereference w).
  { intros fuel keepFile. unfold setup, loadLogger.
    rewrite (run_bind _ _ _ _ _ (load_Some loggers a lg w Hl)). rewrite HF.
    reflexivity. }
  split; [exact Hsetup|]. split.
  - intros fuel. unfold NewLogger, bind. now rewrite Hsetup.
  - intros fuel level message parameters. unfold Log. cbn [log].
    unfold loadLogger, Caller.
    rewrite (run_bind _ _ _ _ _ (load_Some loggers a lg w Hl)).
    rewrite (run_bind _ _ _ _ _ (get_eq _ w)).
    destruct (default _ (callers w (3 + FuncCallIncrement lg))) as [file line].
    rewrite (run_bind _ _ _ _ _ (get_eq _ w)). rewrite HF. reflexivity.
Qed.

Lemma nil_File_panics_witness :
  Log 1 (Some 3%nat) LevelFatal "stop" [] Cases.detached_world =
    Panic nil_dereference Cases.detached_world.
Proof.
  destruct (nil_File_panics Cases.detached_world 3 Cases.detached eq_refl eq_refl)
    as (_ & _ & Hlog).
  exact (Hlog 0%nat LevelFatal "stop"%string []).
Defined.

(** ** level.go and env.go: a threshold outside the enumeration *)

Lemma GetLevelByName_String_invalid (fuel : nat) (lvl : Level) (w : World) :
  LevelFatal < lvl -> GetLevelByName fuel (String_ lvl) w = Return LevelDebug w.
Proof. intros H. now rewrite (String_invalid lvl H). Qed.

(** [GetLoggerFromEnv]: each threshold becomes what its name parses
    to, the name being the variable's value if it is set and the name
    of the threshold in the struct otherwise. *)
Lemma GetLoggerFromEnv_levels (fuel : nat) (w : World) (a : nat) (lg : Logger) (f : nat)
    (fl : FileLogger) (v1 v2 : Level) :
  loggers w !! a = Some lg -> File lg = Some f -> fileLoggers w !! f = Some fl ->
  file fl = None -> logger fl = None -> fileSync fl = None ->
  (forall w0,
     GetLevelByName (S fuel)
       (default (String_ (lLevel lg)) (environ w !! "LOGGER_LEVEL"%string)) w0
       = Return v1 w0) ->
  (forall w0,
     GetLevelByName (S fuel)
       (default (String_ (fLevel fl)) (environ w !! "LOGGER_FILE_LEVEL"%string)) w0
       = Return v2 w0) ->
  exists w' lg' fl',
    GetLoggerFromEnv (S fuel) (Some a) w = Return (Some a) w' /\
    loggers w' !! a = Some lg' /\ lLevel lg' = v1 /\
    fileLoggers w' !! f = Some fl' /\ fLevel fl' = v2.
Proof.
  intros Hl HF Hf Hfile Hnone Hm Hcon Hfil.
  destruct w as [ck pf en cs oe dk so se fs ms fls ls].
  destruct lg as [lv co ps op fi px fr cc lo le].
  destruct fl as [flv pa ad s1 s2 lgr fh rt].
  norm_env. subst.
  unfold GetLoggerFromEnv, loadLogger, loadFileLogger.
  step_env @load_Some. step_env getEnvBool_eq. step_env updateLogger_Some.
  step_env @load_Some. step_env getEnvString_eq.
  rewrite ?bind_assoc. rewrite (run_bind _ _ _ _ _ (Hcon _)).
  step_env updateLogger_Some.
  step_env @load_Some. step_env getEnvBool_eq. step_env updateLogger_Some.
  step_env @load_Some. step_env @load_Some. step_env getEnvString_eq.
  rewrite ?bind_assoc. rewrite (run_bind _ _ _ _ _ (Hfil _)).
  step_env updateFileLogger_Some.
  step_env @load_Some. step_env @load_Some. step_env getEnvString_eq.
  step_env updateFileLogger_Some.
  step_env @load_Some. step_env @load_Some. step_env getEnvBool_eq.
  step_env updateFileLogger_Some.
  step_env @load_Some. step_env getEnvBool_eq. step_env updateLogger_Some.
  unfold NewLogger.
  match goal with
  | |- context [bind (setup (S fuel) (Some a) false) _ ?w0] =>
      edestruct (setup_fresh fuel w0 a) with (f := f)
        as (w' & lg' & fl' & Hrun & Hl' & Hlv' & Hf' & Hflv');
        [norm_env; lookups; reflexivity ..|]
  end.
  norm_env.
  rewrite (run_bind _ _ _ _ _ Hrun).
  exists w', lg', fl'. now repeat split.
Qed.

Lemma GetLevelByName_String_any (fuel : nat) (lvl : Level) (w : World) :
  0 <= lvl ->
  GetLevelByName fuel (String_ lvl) w =
    Return (if lvl <=? LevelFatal then lvl else LevelDebug) w.
Proof.
  intros H. destruct (lvl <=? LevelFatal) eqn:E.
  - apply Z.leb_le in E. apply GetLevelByName_String. unfold defined_level. unfold LevelFatal in E. lia.
  - apply Z.leb_gt in E. now apply GetLevelByName_String_invalid.
Qed.

(** X3.  A threshold above Fatal does not survive [GetLoggerFromEnv]: its
    name is DEBUG, so with the level variables unset a threshold of the
    enumeration is kept and any other comes back as Debug, for the
    console and for the file alike. *)
Theorem GetLoggerFromEnv_resets_invalid_level (fuel : nat) (w : World) (a : nat)
    (lg : Logger) (f : nat) (fl : FileLogger) :
  loggers w !! a = Some lg -> File lg = Some f -> fileLoggers w !! f = Some fl ->
  file fl = None -> logger fl = None -> fileSync fl = None ->
  is_uint8 (lLevel lg) -> is_uint8 (fLevel fl) ->
  environ w !! "LOGGER_LEVEL"%string = None ->
  environ w !! "LOGGER_FILE_LEVEL"%string = None ->
  exists w' lg' fl',
    GetLoggerFromEnv (S fuel) (Some a) w = Return (Some a) w' /\
    loggers w' !! a = Some lg' /\
    lLevel lg' = (if lLevel lg <=? LevelFatal then lLevel lg else LevelDebug) /\
    fileLoggers w' !! f = Some fl' /\
    fLevel fl' = (if fLevel fl <=? LevelFatal then fLevel fl else LevelDebug).
Proof.
  intros Hl HF Hf Hfile Hnone Hm [Hcon _] [Hfil _] Henv1 Henv2.
  apply (GetLoggerFromEnv_levels fuel w a lg f fl); try assumption.
  - intros w0. rewrite Henv1. now apply GetLevelByName_String_any.
  - intros w0. rewrite Henv2. now apply GetLevelByName_String_any.
Qed.

Lemma GetLoggerFromEnv_resets_invalid_level_witness :
  exists w' lg' fl',
    GetLoggerFromEnv 1 (Some 7%nat) Cases.silent_world = Return (Some 7%nat) w' /\
    loggers w' !! 7%nat = Some lg' /\ lLevel lg' = LevelDebug /\
    fileLoggers w' !! 1%nat = Some fl' /\ fLevel fl' = LevelDebug.
Proof.
  exact (GetLoggerFromEnv_resets_invalid_level 0 Cases.silent_world 7 Cases.silent_facade 1
           Cases.silent_sink eq_refl eq_refl eq_refl eq_refl eq_refl eq_refl
           ltac:(vm_compute; split; [discriminate|reflexivity])
           ltac:(vm_compute; split; [discriminate|reflexivity])
           eq_refl eq_refl).
Defined.

(** X4.  The level variables override the struct: when LOGGER_LEVEL or
    LOGGER_FILE_LEVEL holds one of the recognised names, in whatever
    case, the threshold is the level of that name, and a threshold
    whose variable is not set is the level its own name parses to. *)
Theorem GetLoggerFromEnv_level_variables (fuel : nat) (w : World) (a : nat) (lg : Logger)
    (f : nat) (fl : FileLogger) (v1 v2 : Level) :
  loggers w !! a = Some lg -> File lg = Some f -> fileLoggers w !! f = Some fl ->
  file fl = None -> logger fl = None -> fileSync fl = None ->
  level_of_name
    (ToLower (default (String_ (lLevel lg)) (environ w !! "LOGGER_LEVEL"%string)))
    = Some v1 ->
  level_of_name
    (ToLower (default (String_ (fLevel fl)) (environ w !! "LOGGER_FILE_LEVEL"%string)))
    = Some v2 ->
  exists w' lg' fl',
    GetLoggerFromEnv (S fuel) (Some a) w = Return (Some a) w' /\
    loggers w' !! a = Some lg' /\ lLevel lg' = v1 /\
    fileLoggers w' !! f = Some fl' /\ fLevel fl' = v2.
Proof.
  intros Hl HF Hf Hfile Hnone Hm H1 H2.
  apply (GetLoggerFromEnv_levels fuel w a lg f fl); try assumption.
  - intros w0. unfold GetLevelByName. now rewrite H1.
  - intros w0. unfold GetLevelByName. now rewrite H2.
Qed.

Lemma GetLoggerFromEnv_level_variables_witness :
  exists w' lg' fl',
    GetLoggerFromEnv 1 (Some 7%nat) Cases.from_env = Return (Some 7%nat) w' /\
    loggers w' !! 7%nat = Some lg' /\ lLevel lg' = LevelWarning /\
    fileLoggers w' !! 1%nat = Some fl' /\ fLevel fl' = LevelFatal.
Proof.
  exact (GetLoggerFromEnv_level_variables 0 Cases.from_env 7 Demo.fresh_facade 1
           Demo.fresh_sink LevelWarning LevelFatal
           eq_refl eq_refl eq_refl eq_refl eq_refl eq_refl eq_refl eq_refl).
Defined.

(** ** logger.go: the source locator *)

Lemma drop_app_length (q r : string) : Strings.drop (String.length q) (q +:+ r) = r.
Proof.
  induction q as [|c q IH]; [reflexivity|]. rewrite app_cons. cbn. exact IH.
Qed.

Lemma slice_after_last_slash (q r : string) :
  Spec.has_slash r = false ->
  slice_from (q +:+ "/" +:+ r) (LastIndex (q +:+ "/" +:+ r) "/" + 1) = r.
Proof.
  intros Hr. unfold LastIndex. rewrite last_index_last_slash by assumption.
  unfold slice_from, len.
  replace (Z.to_nat (0 + Z.of_nat (String.length q) + 1))
    with (String.length (q +:+ "/")).
  - change (q +:+ "/" +:+ r) with (q +:+ ("/" +:+ r)).
    replace (q +:+ ("/" +:+ r)) with ((q +:+ "/") +:+ r).
    + apply drop_app_length.
    + clear. induction q as [|c q IH]; [reflexivity|].
      rewrite !app_cons. now rewrite IH.
  - pose proof (len_app q "/") as H. unfold len in H. cbn [String.length] in H. lia.
Qed.

(** X5.  The locator shows the file name without its directories: what
    follows the last slash of the path [runtime.Caller] reports, or the
    whole path when it has no slash.  When [runtime.Caller] reports
    nothing the locator is [(#unknown:0)].  With [PrintSource] off
    there is no locator. *)
Theorem getSourceMessage_base_name (lg : Logger) (line : Z) :
  (PrintSource lg = true ->
   (forall dir base,
      Spec.has_slash base = false ->
      getSourceMessage (dir +:+ "/" +:+ base) line lg =
        " (" +:+ (base +:+ ":" +:+ Itoa line) +:+ ")") /\
   (forall file,
      Spec.has_slash file = false ->
      getSourceMessage file line lg = " (" +:+ (file +:+ ":" +:+ Itoa line) +:+ ")") /\
   (forall w,
      callers w (3 + FuncCallIncrement lg) = None ->
      getSourceMessage (source_of w lg).1 (source_of w lg).2 lg = " (#unknown:0)"%string)) /\
  (PrintSource lg = false -> forall file, getSourceMessage file line lg = EmptyString).
Proof.
  split.
  - intros Hp. unfold getSourceMessage. rewrite Hp. cbn [negb]. repeat split.
    + intros dir base Hb. now rewrite slice_after_last_slash.
    + intros file Hf. unfold LastIndex. rewrite last_index_no_slash by assumption.
      reflexivity.
    + intros w Hc. unfold source_of. rewrite Hc. reflexivity.
  - intros Hp file. unfold getSourceMessage. now rewrite Hp.
Qed.

Lemma getSourceMessage_base_name_witness :
  getSourceMessage "/src/app/main.go" 42 Demo.facade = " (main.go:42)"%string.
Proof.
  destruct (getSourceMessage_base_name Demo.facade 42) as [Hon _].
  destruct (Hon eq_refl) as (Hbase & _ & _).
  exact (Hbase "/src/app"%string "main.go"%string eq_refl).
Defined.

(** ** colors.go: when colors are on *)

Lemma newColorConfig_eq (enable : bool) (w : World) :
  newColorConfig enable w = colors_decided enable w.
Proof.
  unfold colors_decided. destruct enable; [|reflexivity].
  unfold newColorConfig, LookupEnv.
  rewrite (run_bind _ _ _ _ _ (get_eq _ w)).
  destruct (environ w !! "TERMINAL_DISABLE_COLORS"%string); [reflexivity|].
  rewrite (run_bind _ _ _ _ _ (get_eq _ w)).
  destruct (environ w !! "TERMINAL_ENABLE_COLORS"%string); [reflexivity|].
  unfold isColoringSupported. rewrite ?bind_assoc.
  rewrite (run_bind _ _ _ _ _ (get_eq _ w)).
  destruct (platform w) as [|[b|]]; reflexivity.
Qed.

(** Only the environment and the platform matter to it. *)
Lemma newColorConfig_panics_again (enable : bool) (w w2 : World) (v : string) :
  environ w2 = environ w -> platform w2 = platform w ->
  newColorConfig enable w = Panic v w -> newColorConfig enable w2 = Panic v w2.
Proof.
  rewrite !newColorConfig_eq. unfold colors_decided. intros -> ->.
  destruct enable; [|discriminate].
  destruct (environ w !! "TERMINAL_DISABLE_COLORS"%string); [discriminate|].
  destruct (environ w !! "TERMINAL_ENABLE_COLORS"%string); [discriminate|].
  destruct (platform w) as [|[b|]]; try discriminate.
  intros H. injection H as <-. reflexivity.
Qed.

(** X6.  [newColorConfig]: colors are never on unless asked for;
    TERMINAL_DISABLE_COLORS turns them off whatever else is set;
    otherwise TERMINAL_ENABLE_COLORS turns them on without the platform
    being asked; otherwise the platform decides, on Unix by a non-empty
    TERM.  Only the platform probe can panic, and nothing is changed in
    any case. *)
Theorem newColorConfig_precedence (w : World) :
  newColorConfig false w = Return (mkColorConfig false) w /\
  (forall v, environ w !! "TERMINAL_DISABLE_COLORS"%string = Some v ->
     newColorConfig true w = Return (mkColorConfig false) w) /\
  (forall v, environ w !! "TERMINAL_DISABLE_COLORS"%string = None ->
     environ w !! "TERMINAL_ENABLE_COLORS"%string = Some v ->
     newColorConfig true w = Return (mkColorConfig true) w) /\
  (environ w !! "TERMINAL_DISABLE_COLORS"%string = None ->
   environ w !! "TERMINAL_ENABLE_COLORS"%string = None ->
   platform w = Unix ->
   newColorConfig true w =
     Return (mkColorConfig
               (negb (String.eqb (default EmptyString (environ w !! "TERM"%string))
                        EmptyString))) w) /\
  (forall enable conf w',
     newColorConfig enable w = Return conf w' ->
     w' = w /\
     (enableColors conf = true ->
      enable = true /\ environ w !! "TERMINAL_DISABLE_COLORS"%string = None)) /\
  (forall enable v w',
     newColorConfig enable w = Panic v w' ->
     w' = w /\ enable = true /\ platform w = Windows None /\
     environ w !! "TERMINAL_DISABLE_COLORS"%string = None /\
     environ w !! "TERMINAL_ENABLE_COLORS"%string = None).
Proof.
  assert (Hrun : forall enable, newColorConfig enable w = colors_decided enable w)
    by (intros enable; apply newColorConfig_eq).
  unfold colors_decided in Hrun.
  repeat split.
  - intros v Hv. now rewrite Hrun, Hv.
  - intros v Hd Hv. now rewrite Hrun, Hd, Hv.
  - intros Hd He Hp. now rewrite Hrun, Hd, He, Hp.
  - rewrite Hrun in H. destruct enable; [|congruence].
    destruct (environ w !! "TERMINAL_DISABLE_COLORS"%string); [congruence|].
    destruct (environ w !! "TERMINAL_ENABLE_COLORS"%string); [congruence|].
    destruct (platform w) as [|[b|]]; congruence.
  - rewrite Hrun in H. destruct enable; [reflexivity|].
    injection H as <- _. discriminate.
  - rewrite Hrun in H. destruct enable; [|injection H as <- _; discriminate].
    destruct (environ w !! "TERMINAL_DISABLE_COLORS"%string); [|reflexivity].
    injection H as <- _. discriminate.
  - rewrite Hrun in H. destruct enable; [|discriminate].
    destruct (environ w !! "TERMINAL_DISABLE_COLORS"%string); [discriminate|].
    destruct (environ w !! "TERMINAL_ENABLE_COLORS"%string); [discriminate|].
    destruct (platform w) as [|[b|]]; congruence.
  - rewrite Hrun in H. destruct enable; [reflexivity|discriminate].
  - rewrite Hrun in H. destruct enable; [|discriminate].
    destruct (environ w !! "TERMINAL_DISABLE_COLORS"%string); [discriminate|].
    destruct (environ w !! "TERMINAL_ENABLE_COLORS"%string); [discriminate|].
    destruct (platform w) as [|[b|]]; try discriminate. reflexivity.
  - rewrite Hrun in H. destruct enable; [|discriminate].
    destruct (environ w !! "TERMINAL_DISABLE_COLORS"%string); [discriminate|reflexivity].
  - rewrite Hrun in H. destruct enable; [|discriminate].
    destruct (environ w !! "TERMINAL_DISABLE_COLORS"%string); [discriminate|].
    destruct (environ w !! "TERMINAL_ENABLE_COLORS"%string); [discriminate|reflexivity].
Qed.

Lemma newColorConfig_precedence_witness :
  newColorConfig true Demo.world = Return (mkColorConfig false) Demo.world.
Proof.
  destruct (newColorConfig_precedence Demo.world) as (_ & _ & _ & Hunix & _).
  exact (Hunix eq_refl eq_refl eq_refl).
Defined.

(** ** logger.go: one call after the other *)

(** One non-fatal [Log] through an open sink with no rotation due, as
    an equation on worlds. *)
Lemma Log_steady_eq (fuel : nat) (w : World) (a : nat) (lg : Logger) (f : nat)
    (fl : FileLogger) (h m1 m2 : nat) (n : string) (level : Level) (message : string)
    (parameters : list any) :
  ready w a lg f fl -> sink_open w fl h m1 m2 n -> ~ rotation_due w fl n ->
  level <> LevelFatal ->
  let w1 := if fLevel fl <=? level
            then set_disk (append_line n (plain_line w lg level message parameters) (disk w)) w
            else w in
  let line := console_line w lg level message parameters in
  Log (S fuel) (Some a) level message parameters w =
    Return tt
      (if lLevel lg <=? level
       then if level =? LevelError then set_stderr (stderr w1 ++ [line]) w1
            else set_stdout (stdout w1 ++ [line]) w1
       else w1).
Proof.
  intros Hready Hopen Hnd Hnf w1 line.
  pose proof Hready as [Hl Hout Herr HF Hf Hroot].
  apply Z.eqb_neq in Hnf.
  unfold Log. rewrite (log_S fuel w a lg f fl) by assumption.
  rewrite (file_gate_open w fl h m1 m2 n) by assumption.
  assert (Hfile :
    (if fLevel fl <=? level
     then writeToFile (log fuel) (Some f) (plain_line w lg level message parameters) level
     else ret tt) w = Return tt w1).
  { subst w1. destruct (fLevel fl <=? level); [|reflexivity].
    rewrite (writeToFile_steady _ w f fl h m1 m2 n) by assumption.
    unfold fatal_close. now rewrite Hnf. }
  rewrite (run_bind _ _ _ _ _ Hfile).
  assert (Hl1 : loggers w1 !! a = Some lg).
  { subst w1. destruct (fLevel fl <=? level); [destruct w|]; assumption. }
  rewrite (toConsole_eq w1 a lg) by assumption.
  fold line. rewrite Hnf.
  destruct (lLevel lg <=? level), (level =? LevelError); reflexivity.
Qed.

(** The same by projections: what one such call changes, and what it
    keeps. *)
Lemma Log_steady_step (fuel : nat) (w : World) (a : nat) (lg : Logger) (f : nat)
    (fl : FileLogger) (h m1 m2 : nat) (n : string) (level : Level) (message : string)
    (parameters : list any) :
  ready w a lg f fl -> sink_open w fl h m1 m2 n -> ~ rotation_due w fl n ->
  level <> LevelFatal ->
  exists w',
    Log (S fuel) (Some a) level message parameters w = Return tt w' /\
    ready w' a lg f fl /\ sink_open w' fl h m1 m2 n /\ ~ rotation_due w' fl n /\
    clock w' = clock w /\ callers w' = callers w /\
    disk w' =
      (if fLevel fl <=? level
       then append_line n (plain_line w lg level message parameters) (disk w)
       else disk w) /\
    stdout w' = stdout w ++
      (if ((lLevel lg <=? level) && negb (level =? LevelError))%bool
       then [console_line w lg level message parameters] else []) /\
    stderr w' = stderr w ++
      (if ((lLevel lg <=? level) && (level =? LevelError))%bool
       then [console_line w lg level message parameters] else []).
Proof.
  intros Hready Hopen Hnd Hnf.
  rewrite (Log_steady_eq fuel w a lg f fl h m1 m2 n) by assumption.
  eexists. split; [reflexivity|].
  destruct Hready as [Hl Hout Herr HF Hf Hroot].
  destruct Hopen as [Hfile Hlg Hm1 Hm2 Hne Hu1 Hu2 Hh].
  unfold rotation_due, current_path in *.
  destruct w as [ck pf en cs oe dk so se fs ms fls ls].
  destruct (fLevel fl <=? level), (lLevel lg <=? level), (level =? LevelError);
    cbn [andb negb]; norm; rewrite ?app_nil_r;
    (split; [now constructor|]); (split; [now constructor|]);
    repeat split; try assumption; try reflexivity.
Qed.

(** X7.  Calls made one after the other through an open sink reach the
    file in call order: after any sequence of non-fatal calls the log
    file holds its earlier lines followed by the line of every call at
    or above the file threshold, no other file is touched, and the
    streams have gained the lines at or above the console threshold,
    those at Error on standard error and the others on standard
    output. *)
Theorem LogEach_in_call_order (fuel : nat) (a : nat) (lg : Logger) (f : nat) (fl : FileLogger)
    (h m1 m2 : nat) (n : string) (calls : list (Level * string)) :
  Forall (fun c => c.1 <> LevelFatal) calls ->
  forall w,
    ready w a lg f fl -> sink_open w fl h m1 m2 n -> ~ rotation_due w fl n ->
    exists w',
      LogEach (S fuel) (Some a) calls w = Return tt w' /\
      default [] (disk w' !! n) =
        default [] (disk w !! n) ++
          map (fun c => plain_line w lg c.1 c.2 []) (passing (fLevel fl) calls) /\
      (forall p, p <> n -> disk w' !! p = disk w !! p) /\
      stdout w' = stdout w ++
        map (fun c => console_line w lg c.1 c.2 [])
          (List.filter (fun c => negb (c.1 =? LevelError)) (passing (lLevel lg) calls)) /\
      stderr w' = stderr w ++
        map (fun c => console_line w lg c.1 c.2 [])
          (List.filter (fun c => c.1 =? LevelError) (passing (lLevel lg) calls)).
Proof.
  induction 1 as [|[level message] calls Hnf _ IH]; intros w Hready Hopen Hnd.
  - exists w. cbn. rewrite !app_nil_r. now repeat split.
  - cbn [fst snd] in Hnf.
    destruct (Log_steady_step fuel w a lg f fl h m1 m2 n level message [] Hready Hopen Hnd
                Hnf)
      as (w1 & Hrun & Hready1 & Hopen1 & Hnd1 & Hck & Hcs & Hdisk & Hso & Hse).
    destruct (IH w1 Hready1 Hopen1 Hnd1) as (w' & Hrest & Hd & Hother & Hso' & Hse').
    exists w'. cbn [LogEach fst snd].
    rewrite (run_bind _ _ _ _ _ Hrun). split; [exact Hrest|].
    assert (Hpl : forall c : Level * string,
              plain_line w1 lg c.1 c.2 [] = plain_line w lg c.1 c.2 []).
    { intros c. unfold plain_line, source_of. now rewrite Hck, Hcs. }
    assert (Hcl : forall c : Level * string,
              console_line w1 lg c.1 c.2 [] = console_line w lg c.1 c.2 []).
    { intros c. now apply console_line_same. }
    rewrite (map_ext _ _ Hpl) in Hd.
    rewrite (map_ext _ _ Hcl) in Hso', Hse'.
    unfold passing in *. cbn [List.filter fst snd].
    repeat split.
    + rewrite Hd, Hdisk. destruct (fLevel fl <=? level).
      * rewrite append_line_lookup. cbn [default from_option map fst snd].
        unfold id. now rewrite <- List.app_assoc.
      * reflexivity.
    + intros p Hp. rewrite (Hother p Hp), Hdisk.
      destruct (fLevel fl <=? level); [|reflexivity].
      now apply append_line_other.
    + rewrite Hso', Hso. destruct (lLevel lg <=? level); cbn [andb List.filter fst snd].
      * destruct (level =? LevelError); cbn [negb map fst snd];
          now rewrite <- ?List.app_assoc, ?app_nil_r.
      * now rewrite app_nil_r.
    + rewrite Hse', Hse. destruct (lLevel lg <=? level); cbn [andb List.filter fst snd].
      * destruct (level =? LevelError); cbn [negb map fst snd];
          now rewrite <- ?List.app_assoc, ?app_nil_r.
      * now rewrite app_nil_r.
Qed.

Lemma LogEach_in_call_order_witness :
  exists w',
    LogEach 1 (Some 7%nat)
      [(LevelInfo, "a"); (LevelError, "b"); (LevelDebug, "c"); (LevelWarning, "d")]%string
      Cases.plain_world = Return tt w' /\
    default [] (disk w' !! "app.log"%string) = ["a"; "b"; "d"]%string /\
    stdout w' = ["d"%string] /\ stderr w' = ["b"%string].
Proof.
  assert (Hready : ready Cases.plain_world 7 Cases.chatty 1 Cases.plain_sink)
    by (split; reflexivity).
  assert (Hopen : sink_open Cases.plain_world Cases.plain_sink 0 0 1 "app.log").
  { split; try reflexivity. discriminate. }
  assert (Hnd : ~ rotation_due Cases.plain_world Cases.plain_sink "app.log").
  { intros [Had _]. discriminate Had. }
  destruct (LogEach_in_call_order 0 7 Cases.chatty 1 Cases.plain_sink 0 0 1 "app.log"
              [(LevelInfo, "a"); (LevelError, "b"); (LevelDebug, "c"); (LevelWarning, "d")]%string
              ltac:(repeat constructor; discriminate)
              Cases.plain_world Hready Hopen Hnd)
    as (w' & Hrun & Hd & _ & Hso & Hse).
  exists w'. split; [exact Hrun|]. split; [exact Hd|]. split; [exact Hso|exact Hse].
Defined.

(** ** file.go: a handle closed behind the sink's back *)

Lemma Println_closed (h : nat) (n line : string) (w : World) :
  files w !! h = Some (mkOsFile n true) ->
  Println (Some (FileWriter h)) line w = Return tt w.
Proof. intros H. unfold Println, modify. now rewrite H. Qed.

Lemma rotation_check (w : World) (fl : FileLogger) (n : string) :
  ~ rotation_due w fl n ->
  AppendDate fl = false \/ String.eqb n (current_path w fl) = true.
Proof.
  intros Hnd. unfold rotation_due in Hnd. destruct (AppendDate fl); [|now left].
  right. apply String.eqb_eq.
  destruct (decide (n = current_path w fl)); [assumption|]. exfalso. auto.
Qed.

(** No rotation due: the line is lost and nothing else happens. *)
Lemma writeToFile_stale (Log : LogFn) (w : World) (f : nat) (fl : FileLogger)
    (h m1 m2 : nat) (n msg : string) (level : Level) :
  fileLoggers w !! f = Some fl -> sink_stale w fl h m1 m2 n ->
  ~ rotation_due w fl n ->
  writeToFile Log (Some f) msg level w = fatal_close f level w.
Proof.
  intros Hf [Hfile Hlg Hm1 Hm2 Hne Hu1 Hu2 Hh] Hnd.
  apply rotation_check in Hnd.
  destruct w as [ck pf en cs oe dk so se fs ms fls ls].
  destruct fl as [lv pa ad s1 s2 lg fi rt]. norm. subst.
  unfold writeToFile, loadFileLogger.
  step @load_Some. step RLock_free. step RLock_free.
  rewrite ?bind_assoc.
  destruct ad.
  - destruct Hnd as [Hnd|Hnd]; [discriminate|].
    step_path. step Name_Some. rewrite Hnd. cbn [negb]. pure_step.
    step @load_Some.
    step Println_closed. pure_step.
    step RUnlock_held. step RUnlock_held.
    rewrite mutexes_restored by assumption. reflexivity.
  - pure_step. step @load_Some.
    step Println_closed. pure_step.
    step RUnlock_held. step RUnlock_held.
    rewrite mutexes_restored by assumption. reflexivity.
Qed.

(** A rotation is due and today's path opens: the sink gets a fresh
    handle and the line goes to today's file. *)
Lemma writeToFile_stale_rotate (Log : LogFn) (w : World) (f : nat) (fl : FileLogger)
    (h m1 m2 : nat) (n msg : string) (level : Level) :
  fileLoggers w !! f = Some fl -> sink_stale w fl h m1 m2 n ->
  rotation_due w fl n ->
  open_error w (current_path w fl) = None ->
  let p := current_path w fl in
  let h' := fresh (dom (files w)) in
  writeToFile Log (Some f) msg level w =
    fatal_close f level
      (set_disk (append_line p msg (disk w))
         (set_fileLoggers
            (<[f := with_file (Some (FileWriter h')) (Some h') fl]> (fileLoggers w))
            (set_files (<[h' := mkOsFile p false]> (files w)) w))).
Proof.
  intros Hf [Hfile Hlg Hm1 Hm2 Hne Hu1 Hu2 Hh] [Had Hdue] Hopen p h'. subst p h'.
  apply String.eqb_neq in Hdue.
  destruct w as [ck pf en cs oe dk so se fs ms fls ls].
  destruct fl as [lv pa ad s1 s2 lg fi rt]. norm. subst.
  unfold writeToFile, loadFileLogger.
  step @load_Some. step RLock_free. step RLock_free.
  step_path. step Name_Some. rewrite Hdue. cbn [negb].
  step RUnlock_held. step RUnlock_held. step Lock_free.
  step @load_Some. step Name_Some. rewrite Hdue. cbn [negb].
  rewrite ?bind_assoc.
  erewrite run_bind; cycle 1.
  { eapply (CloseFile_open _ f _ h m1); norm; lookups; eauto. }
  norm. rewrite (insert_id fs h) by assumption.
  rewrite ?bind_assoc.
  erewrite run_bind; cycle 1.
  { apply openFile_ok with (m1 := m1); norm; lookups; eauto. }
  norm.
  step Unlock_held. step RLock_free. step RLock_free.
  step @load_Some. step Println_file. pure_step.
  step RUnlock_held. step RUnlock_held.
  unfold fatal_close. f_equal. f_equal.
  - apply append_line_created.
  - apply map_eq. intros i. rewrite !lookup_insert.
    repeat case_decide; subst; congruence.
  - now rewrite insert_insert_eq.
Qed.

Lemma fatal_close_frame (w : World) (f : nat) (fl : FileLogger) (h m1 : nat) (x : OsFile)
    (level : Level) :
  fileLoggers w !! f = Some fl -> file fl = Some h -> fileSync fl = Some m1 ->
  mutexes w !! m1 = Some unlocked -> files w !! h = Some x ->
  exists w',
    fatal_close f level w = Return tt w' /\
    disk w' = disk w /\ stdout w' = stdout w /\ stderr w' = stderr w /\
    loggers w' = loggers w /\ mutexes w' = mutexes w /\
    clock w' = clock w /\ callers w' = callers w.
Proof.
  intros Hf Hfile Hm1 Hu1 Hh. unfold fatal_close.
  destruct (level =? LevelFatal).
  - rewrite (CloseFile_open w f fl h m1 x) by assumption.
    eexists. split; [reflexivity|]. destruct w. now repeat split.
  - exists w. now repeat split.
Qed.

Lemma file_half_stale (Log : LogFn) (w : World) (f : nat) (fl : FileLogger)
    (h m1 m2 : nat) (n line : string) (level : Level) :
  fileLoggers w !! f = Some fl -> sink_stale w fl h m1 m2 n ->
  (rotation_due w fl n -> open_error w (current_path w fl) = None) ->
  exists w1,
    (if file_gate fl level then writeToFile Log (Some f) line level else ret tt) w
      = Return tt w1 /\
    stdout w1 = stdout w /\ stderr w1 = stderr w /\ loggers w1 = loggers w /\
    (~ rotation_due w fl n -> disk w1 = disk w) /\
    (rotation_due w fl n ->
     disk w1 = if fLevel fl <=? level
               then append_line (current_path w fl) line (disk w) else disk w).
Proof.
  intros Hf Hstale Hcan. pose proof Hstale as [Hfile Hlg Hm1 Hm2 Hne Hu1 Hu2 Hh].
  unfold file_gate. rewrite Hlg.
  rewrite bool_decide_eq_true_2 by discriminate. rewrite andb_true_r.
  destruct (fLevel fl <=? level).
  2:{ exists w. repeat split; try reflexivity. }
  destruct (rotation_due_dec w fl n) as [Hdue|Hnd].
  - rewrite (writeToFile_stale_rotate Log w f fl h m1 m2 n) by auto.
    set (h' := fresh (dom (files w))).
    set (w0 := set_disk _ _).
    destruct (fatal_close_frame w0 f (with_file (Some (FileWriter h')) (Some h') fl) h' m1
                (mkOsFile (current_path w fl) false) level)
      as (w1 & Hrun & Hd & Hso & Hse & Hls & _).
    + subst w0. destruct w. norm. now lookups.
    + reflexivity.
    + destruct fl. exact Hm1.
    + subst w0. destruct w. exact Hu1.
    + subst w0. destruct w. norm. now lookups.
    + exists w1. split; [exact Hrun|]. subst w0. destruct w. norm.
      repeat split; try assumption.
      * intros Hnd. now destruct Hnd.
      * intros _. exact Hd.
  - rewrite (writeToFile_stale Log w f fl h m1 m2 n) by assumption.
    destruct (fatal_close_frame w f fl h m1 (mkOsFile n true) level Hf Hfile Hm1 Hu1 Hh)
      as (w1 & Hrun & Hd & Hso & Hse & Hls & _).
    exists w1. repeat split; try assumption.
    + intros _. exact Hd.
    + intros Hdue. now destruct Hnd.
Qed.

(** X8.  A sink whose handle was closed by someone else (as after
    [CloseFile] through another logger that shares the file) drops
    every line without a sign: [Log] returns as usual, the console gets
    its line, the disk is left as it was.  That lasts until a rotation
    is due: the first call at or above the file threshold then opens
    today's file and writes to it. *)
Theorem Log_through_closed_handle (fuel : nat) (w : World) (a : nat) (lg : Logger)
    (f : nat) (fl : FileLogger) (h m1 m2 : nat) (n : string) (level : Level)
    (message : string) (parameters : list any) :
  ready w a lg f fl -> sink_stale w fl h m1 m2 n ->
  (rotation_due w fl n -> open_error w (current_path w fl) = None) ->
  exists w',
    Log (S fuel) (Some a) level message parameters w =
      (if ((lLevel lg <=? level) && (level =? LevelFatal))%bool
       then Exit 1 w' else Return tt w') /\
    (~ rotation_due w fl n -> disk w' = disk w) /\
    (rotation_due w fl n ->
     disk w' =
       if fLevel fl <=? level
       then append_line (current_path w fl) (plain_line w lg level message parameters)
              (disk w)
       else disk w) /\
    stdout w' = stdout w ++ stdout_lines lg level (console_line w lg level message parameters) /\
    stderr w' = stderr w ++ stderr_lines lg level (console_line w lg level message parameters).
Proof.
  intros Hready Hstale Hcan. pose proof Hready as [Hl Hout Herr HF Hf Hroot].
  unfold Log. rewrite (log_S fuel w a lg f fl) by assumption.
  destruct (file_half_stale (log fuel) w f fl h m1 m2 n
              (plain_line w lg level message parameters) level Hf Hstale Hcan)
    as (w1 & Hrun & Hso & Hse & Hls & Hkeep & Hrot).
  rewrite (run_bind _ _ _ _ _ Hrun).
  destruct (console_half w w1 a lg level (console_line w lg level message parameters))
    as (w' & Hcon & Hso' & Hse' & Hd' & _); try assumption.
  { now rewrite Hls. }
  exists w'. split; [exact Hcon|]. unfold stdout_lines, stderr_lines.
  rewrite Hso', Hse', Hd', Hso, Hse. repeat split; assumption.
Qed.

Lemma Log_through_closed_handle_witness :
  exists w',
    (CloseFile (Some 2%nat) ;;; Log 1 (Some 7%nat) LevelError "lost" []) Cases.shared
      = Return tt w' /\
    disk w' = disk Cases.shared /\
    stderr w' = [console_line Cases.shared Demo.facade LevelError "lost" []].
Proof.
  set (w0 := set_fileLoggers
               (<[2%nat := with_file None None Cases.audit_sink_shared]>
                  (fileLoggers Cases.shared))
               (set_files (<[0%nat := mkOsFile Demo.today true]> (files Cases.shared))
                  Cases.shared)).
  assert (Hclose : CloseFile (Some 2%nat) Cases.shared = Return tt w0).
  { apply (CloseFile_open Cases.shared 2 Cases.audit_sink_shared 0 0
             (mkOsFile Demo.today false)); reflexivity. }
  assert (Hready : ready w0 7 Demo.facade 1 Demo.sink) by (split; reflexivity).
  assert (Hstale : sink_stale w0 Demo.sink 0 0 1 Demo.today).
  { split; try reflexivity. discriminate. }
  assert (Hnd : ~ rotation_due w0 Demo.sink Demo.today).
  { intros [_ Hne]. apply Hne. reflexivity. }
  destruct (Log_through_closed_handle 0 w0 7 Demo.facade 1 Demo.sink 0 0 1 Demo.today
              LevelError "lost" [] Hready Hstale ltac:(intros Hdue; now destruct Hnd))
    as (w' & Hrun & Hkeep & _ & _ & Hse).
  exists w'. split.
  - rewrite (run_bind _ _ _ _ _ Hclose). exact Hrun.
  - split; [exact (Hkeep Hnd)|exact Hse].
Defined.

(** ** logger.go: what a call leaves alone *)

(** X9.  Every lock [Log] takes it gives back, on the steady path, through
    a rotation and before the exit of a fatal call alike: when the call
    is over each mutex is in the state it was in.  The call also leaves
    every [Logger] and every sink but its own as they were. *)
Theorem Log_releases_its_locks (fuel : nat) (w : World) (a : nat) (lg : Logger) (f : nat)
    (fl : FileLogger) (level : Level) (message : string) (parameters : list any) :
  ready w a lg f fl -> sink_usable w fl ->
  exists w',
    Log (S fuel) (Some a) level message parameters w =
      (if ((lLevel lg <=? level) && (level =? LevelFatal))%bool
       then Exit 1 w' else Return tt w') /\
    mutexes w' = mutexes w /\
    loggers w' = loggers w /\
    (forall g, g <> f -> fileLoggers w' !! g = fileLoggers w !! g).
Proof.
  intros Hready [Hnone|(h & m1 & m2 & n & Hopen & Hcan)].
  - pose proof Hready as [Hl Hout Herr HF Hf Hroot].
    unfold Log. rewrite (log_console_only fuel w a lg f fl) by assumption.
    destruct (console_half w w a lg level (console_line w lg level message parameters)
                Hl Hout Herr) as (w' & Hrun & _ & _ & _ & _ & Hfls & Hls & Hms).
    exists w'. rewrite Hfls. now repeat split.
  - destruct (Log_open fuel w a lg f fl h m1 m2 n level message parameters
                Hready Hopen Hcan)
      as (w1 & w' & h' & Hrun & Hfile & _ & _ & _ & _ & Hfls & Hls & Hms).
    exists w'. split; [exact Hrun|]. rewrite Hms, Hls, Hfls.
    destruct (fLevel fl <=? level).
    + destruct Hfile as [_ _ _ Hls1 Hms1 _ Hs _ _ _ _ _].
      repeat split; try assumption.
      intros g Hg. rewrite Hs. now apply lookup_insert_ne.
    + subst w1. now repeat split.
Qed.

Lemma Log_releases_its_locks_witness :
  exists w',
    Log 1 (Some 7%nat) LevelFatal "stop" [] Demo.world = Exit 1 w' /\
    mutexes w' = mutexes Demo.world.
Proof.
  assert (Hready : ready Demo.world 7 Demo.facade 1 Demo.sink)
    by (split; reflexivity).
  assert (Huse : sink_usable Demo.world Demo.sink).
  { right. exists 0%nat, 0%nat, 1%nat, Demo.today. split.
    - split; try reflexivity. discriminate.
    - intros _. reflexivity. }
  destruct (Log_releases_its_locks 0 Demo.world 7 Demo.facade 1 Demo.sink LevelFatal
              "stop" [] Hready Huse) as (w' & Hrun & Hms & _).
  exists w'. split; [exact Hrun|exact Hms].
Defined.

(** Worlds built by several updates in a row are brought to one
    constructor with call-by-need reduction, which looks at each field
    once. *)
Ltac flat :=
  lazy [set_mutexes set_files set_fileLoggers set_loggers set_disk set_stdout set_stderr
        set_clock mutexes files fileLoggers loggers disk stdout stderr clock platform
        environ callers open_error] in *.

(** ** logger.go: setup *)

(** The first statements of [setup]: the back reference and the two
    console writers. *)
Lemma setup_begin (fuel : nat) (w : World) (a : nat) (lg : Logger) (f : nat)
    (fl : FileLogger) (keepFile : bool) :
  loggers w !! a = Some lg -> File lg = Some f -> fileLoggers w !! f = Some fl ->
  let fl0 := with_rootLogger (Some a) fl in
  let lg0 := with_console (Some Stdout) (Some Stderr) lg in
  let w0 := set_loggers (<[a := lg0]> (loggers w))
              (set_fileLoggers (<[f := fl0]> (fileLoggers w)) w) in
  ready w0 a lg0 f fl0 /\
  setup fuel (Some a) keepFile w =
    ((if (negb (String.eqb (TrimSpace (Path fl)) EmptyString) && negb keepFile)%bool
      then openFile (Log fuel) (Some f)
      else if negb keepFile then CloseFile (Some f)
      else ret tt) ;;;
     recovering
       (lg' <- loadLogger (Some a) ;;
        conf <- newColorConfig (ColoredOutput lg') ;;
        updateLogger (Some a) (with_colorConf conf))
       (fun err => log fuel (Some a) LevelDebug "Panic occured: %s" [AString err])
       tt) w0.
Proof.
  intros Hl HF Hf fl0 lg0 w0.
  assert (Hready : ready w0 a lg0 f fl0).
  { unfold w0. destruct w; split; norm; lookups; auto. }
  split; [exact Hready|].
  unfold setup, loadLogger, loadFileLogger.
  rewrite (run_bind _ _ _ _ _ (load_Some loggers a lg w Hl)). rewrite HF.
  rewrite (run_bind _ _ _ _ _ (updateFileLogger_Some f fl _ w Hf)).
  erewrite run_bind; cycle 1.
  { apply updateLogger_Some. flat. exact Hl. }
  fold lg0 fl0. replace (set_loggers _ _) with w0 by (unfold w0; now destruct w).
  rewrite (run_bind _ _ _ _ _ (load_Some fileLoggers f fl0 w0 (ready_sink _ _ _ _ _ Hready))).
  replace (Path fl0) with (Path fl) by now destruct fl.
  reflexivity.
Qed.

(** The last statement of [setup] where the terminal can be probed. *)
Lemma setup_end (fuel : nat) (w : World) (a : nat) (lg : Logger) :
  loggers w !! a = Some lg -> terminal_known w ->
  exists conf,
    newColorConfig (ColoredOutput lg) w = Return conf w /\
    recovering
      (lg' <- loadLogger (Some a) ;;
       conf <- newColorConfig (ColoredOutput lg') ;;
       updateLogger (Some a) (with_colorConf conf))
      (fun err => log fuel (Some a) LevelDebug "Panic occured: %s" [AString err])
      tt w =
    Return tt (set_loggers (<[a := with_colorConf conf lg]> (loggers w)) w).
Proof.
  intros Hl Hknown. unfold recovering, loadLogger.
  rewrite (run_bind _ _ _ _ _ (load_Some loggers a lg w Hl)).
  assert (Hconf : exists conf, newColorConfig (ColoredOutput lg) w = Return conf w).
  { destruct (newColorConfig_cases (ColoredOutput lg) w) as [Hconf|[v Hpanic]];
      [exact Hconf|].
    exfalso. apply Hknown. revert Hpanic.
    unfold newColorConfig. destruct (ColoredOutput lg); [|discriminate].
    unfold LookupEnv. rewrite (run_bind _ _ _ _ _ (get_eq _ w)).
    destruct (environ w !! "TERMINAL_DISABLE_COLORS"%string); [discriminate|].
    rewrite (run_bind _ _ _ _ _ (get_eq _ w)).
    destruct (environ w !! "TERMINAL_ENABLE_COLORS"%string); [discriminate|].
    unfold isColoringSupported. rewrite ?bind_assoc.
    rewrite (run_bind _ _ _ _ _ (get_eq _ w)).
    destruct (platform w) as [|[b|]]; [discriminate|discriminate|reflexivity]. }
  destruct Hconf as [conf Hconf]. exists conf. split; [exact Hconf|].
  rewrite (run_bind _ _ _ _ _ Hconf).
  now rewrite (updateLogger_Some a lg _ w Hl).
Qed.






(** ** level.go: a name that is no level *)



(** ** logger.go: the recover of setup *)

(** X12.  When [newColorConfig] panics, [setup] of a console-only logger
    still returns: its deferred [recover] logs the panic value at Debug
    through the logger being set up, which has its console writers by
    then, and the assignment of [colorConf] never happens, so the
    logger keeps the color setting it had. *)
Theorem setup_recovers_panic (fuel : nat) (w : World) (a : nat) (lg : Logger) (f : nat)
    (fl : FileLogger) (v : string) :
  loggers w !! a = Some lg -> File lg = Some f -> fileLoggers w !! f = Some fl ->
  file fl = None -> logger fl = None ->
  String.eqb (TrimSpace (Path fl)) EmptyString = true ->
  newColorConfig (ColoredOutput lg) w = Panic v w ->
  exists w' lg',
    setup (S fuel) (Some a) false w = Return tt w' /\
    loggers w' !! a = Some lg' /\
    colorConf lg' = colorConf lg /\
    consoleLogger lg' = Some Stdout /\ consoleLoggerErr lg' = Some Stderr /\
    stdout w' = stdout w ++
      (if lLevel lg <=? LevelDebug
       then [console_line w lg LevelDebug "Panic occured: %s" [AString v]] else []) /\
    stderr w' = stderr w /\ disk w' = disk w.
Proof.
  intros Hl HF Hf Hfile Hnone Hblank Hpanic.
  destruct (setup_begin (S fuel) w a lg f fl false Hl HF Hf) as [Hready0 Hsetup].
  rewrite Hblank in Hsetup. cbn [negb andb] in Hsetup.
  set (fl0 := with_rootLogger (Some a) fl) in *.
  set (lg0 := with_console (Some Stdout) (Some Stderr) lg) in *.
  set (w0 := set_loggers _ _) in *.
  pose proof Hready0 as [Hl0 Hout0 Herr0 HF0 Hf0 Hroot0].
  assert (Hfile0 : file fl0 = None) by (unfold fl0; now destruct fl).
  assert (Hnone0 : logger fl0 = None) by (unfold fl0; now destruct fl).
  rewrite Hsetup, (run_bind _ _ _ _ _ (CloseFile_closed w0 f fl0 Hf0 Hfile0)).
  unfold recovering, loadLogger.
  rewrite (run_bind _ _ _ _ _ (load_Some loggers a lg0 w0 Hl0)).
  assert (Hpanic0 : newColorConfig (ColoredOutput lg0) w0 = Panic v w0).
  { replace (ColoredOutput lg0) with (ColoredOutput lg) by (unfold lg0; now destruct lg).
    apply (newColorConfig_panics_again _ w w0 v); try assumption;
      unfold w0; now destruct w. }
  unfold bind at 1. rewrite Hpanic0. cbn [and_then].
  rewrite (bind_then _ _ _ _
             (log_console_only fuel w0 a lg0 f fl0 LevelDebug "Panic occured: %s"
                [AString v] Hl0 HF0 Hf0 Hnone0)).
  destruct (console_half w0 w0 a lg0 LevelDebug
              (console_line w0 lg0 LevelDebug "Panic occured: %s" [AString v])
              Hl0 Hout0 Herr0)
    as (w' & Hrun & Hso & Hse & Hd & _ & _ & Hls & _).
  change (LevelDebug =? LevelFatal) with false in *.
  change (LevelDebug =? LevelError) with false in *.
  rewrite ?andb_false_r, ?andb_true_r in *. cbn [negb orb] in *.
  rewrite ?andb_false_r, ?andb_true_r, ?app_nil_r in *.
  rewrite Hrun. cbn [and_then].
  exists w', lg0. split; [reflexivity|].
  rewrite Hls, Hso, Hse, Hd.
  replace (console_line w0 lg0 LevelDebug "Panic occured: %s" [AString v])
    with (console_line w lg LevelDebug "Panic occured: %s" [AString v])
    by (unfold w0, lg0; now destruct w, lg).
  replace (lLevel lg0) with (lLevel lg) by (unfold lg0; now destruct lg).
  unfold w0, lg0. destruct w, lg. now repeat split.
Qed.

Lemma setup_recovers_panic_witness :
  exists w' lg',
    setup 1 (Some 7%nat) false Cases.no_console = Return tt w' /\
    loggers w' !! 7%nat = Some lg' /\
    colorConf lg' = mkColorConfig false /\
    stdout w' = ["Panic occured: console access failed"%string].
Proof.
  destruct (setup_recovers_panic 0 Cases.no_console 7
              Cases.colorful 1 Cases.silent_sink "console access failed"
              eq_refl eq_refl eq_refl eq_refl eq_refl eq_refl eq_refl)
    as (w' & lg' & Hrun & Hl & Hconf & _ & _ & Hso & _).
  exists w', lg'. split; [exact Hrun|]. split; [exact Hl|]. split; [exact Hconf|exact Hso].
Defined.

Lemma newColorConfig_returns_again (enable : bool) (w w2 : World) (conf : colorConfig) :
  environ w2 = environ w -> platform w2 = platform w ->
  newColorConfig enable w = Return conf w -> newColorConfig enable w2 = Return conf w2.
Proof.
  rewrite !newColorConfig_eq. unfold colors_decided. intros -> ->.
  destruct enable; [|intros H; injection H as <-; reflexivity].
  destruct (environ w !! "TERMINAL_DISABLE_COLORS"%string);
    [intros H; injection H as <-; reflexivity|].
  destruct (environ w !! "TERMINAL_ENABLE_COLORS"%string);
    [intros H; injection H as <-; reflexivity|].
  destruct (platform w) as [|[b|]]; try discriminate;
    intros H; injection H as <-; reflexivity.
Qed.

Lemma newColorConfig_known (enable : bool) (w : World) :
  terminal_known w -> exists conf, newColorConfig enable w = Return conf w.
Proof.
  intros Hknown. rewrite newColorConfig_eq. unfold colors_decided.
  destruct enable; [|eauto].
  destruct (environ w !! "TERMINAL_DISABLE_COLORS"%string); [eauto|].
  destruct (environ w !! "TERMINAL_ENABLE_COLORS"%string); [eauto|].
  destruct (platform w) as [|[b|]] eqn:E; eauto. now destruct Hknown.
Qed.

(** [setup(true)]: the sink keeps whatever file it has; only the back
    reference, the console writers and the color setting are assigned. *)
Lemma setup_keep (fuel : nat) (w : World) (a : nat) (lg : Logger) (f : nat)
    (fl : FileLogger) (conf : colorConfig) :
  loggers w !! a = Some lg -> File lg = Some f -> fileLoggers w !! f = Some fl ->
  newColorConfig (ColoredOutput lg) w = Return conf w ->
  setup fuel (Some a) true w =
    Return tt
      (set_loggers
         (<[a := with_colorConf conf (with_console (Some Stdout) (Some Stderr) lg)]>
            (loggers w))
         (set_fileLoggers (<[f := with_rootLogger (Some a) fl]> (fileLoggers w)) w)).
Proof.
  intros Hl HF Hf Hconf.
  destruct (setup_begin fuel w a lg f fl true Hl HF Hf) as [Hready0 Hsetup].
  rewrite andb_false_r in Hsetup. cbn [negb] in Hsetup.
  set (fl0 := with_rootLogger (Some a) fl) in *.
  set (lg0 := with_console (Some Stdout) (Some Stderr) lg) in *.
  set (w0 := set_loggers _ _) in *.
  pose proof Hready0 as [Hl0 _ _ _ _ _].
  rewrite Hsetup, bind_ret.
  unfold recovering, loadLogger.
  rewrite (run_bind _ _ _ _ _ (load_Some loggers a lg0 w0 Hl0)).
  assert (Hconf0 : newColorConfig (ColoredOutput lg0) w0 = Return conf w0).
  { replace (ColoredOutput lg0) with (ColoredOutput lg) by (unfold lg0; now destruct lg).
    apply (newColorConfig_returns_again _ w w0 conf); try assumption;
      unfold w0; now destruct w. }
  rewrite (run_bind _ _ _ _ _ Hconf0).
  rewrite (updateLogger_Some a lg0 _ w0 Hl0).
  unfold w0. flat. now rewrite insert_insert_eq.
Qed.

(** X13.  What [setup] does about the file when it is not to open one.
    With [keepFile] the sink's handle, [log.Logger], mutexes and path
    are left exactly as they are, no file is opened or closed and
    nothing is printed.  Without [keepFile] and with a blank path, an
    open handle is closed and the sink is left without file. *)
Theorem setup_keeps_or_closes (fuel : nat) (w : World) (a : nat) (lg : Logger) (f : nat)
    (fl : FileLogger) :
  loggers w !! a = Some lg -> File lg = Some f -> fileLoggers w !! f = Some fl ->
  terminal_known w ->
  (exists w',
     setup fuel (Some a) true w = Return tt w' /\
     fileLoggers w' !! f = Some (with_rootLogger (Some a) fl) /\
     files w' = files w /\ disk w' = disk w /\ mutexes w' = mutexes w /\
     stdout w' = stdout w /\ stderr w' = stderr w) /\
  (forall h m1 x,
     String.eqb (TrimSpace (Path fl)) EmptyString = true ->
     file fl = Some h -> fileSync fl = Some m1 ->
     mutexes w !! m1 = Some unlocked -> files w !! h = Some x ->
     exists w',
       setup fuel (Some a) false w = Return tt w' /\
       fileLoggers w' !! f = Some (with_file None None (with_rootLogger (Some a) fl)) /\
       files w' = <[h := mkOsFile (name x) true]> (files w) /\
       disk w' = disk w /\ mutexes w' = mutexes w).
Proof.
  intros Hl HF Hf Hknown. split.
  - destruct (newColorConfig_known (ColoredOutput lg) w Hknown) as [conf Hconf].
    rewrite (setup_keep fuel w a lg f fl conf) by assumption.
    eexists. split; [reflexivity|]. flat. lookups. now repeat split.
  - intros h m1 x Hblank Hfile Hm1 Hu1 Hh.
    destruct (setup_begin fuel w a lg f fl false Hl HF Hf) as [Hready0 Hsetup].
    rewrite Hblank in Hsetup. cbn [negb andb] in Hsetup.
    set (fl0 := with_rootLogger (Some a) fl) in *.
    set (lg0 := with_console (Some Stdout) (Some Stderr) lg) in *.
    set (w0 := set_loggers _ _) in *.
    pose proof Hready0 as [Hl0 _ _ _ Hf0 _].
    rewrite Hsetup.
    rewrite (run_bind _ _ _ _ _ (CloseFile_open w0 f fl0 h m1 x Hf0
               ltac:(unfold fl0; now destruct fl) ltac:(unfold fl0; now destruct fl)
               ltac:(unfold w0; now destruct w) ltac:(unfold w0; now destruct w))).
    set (w1 := set_fileLoggers _ _).
    destruct (setup_end fuel w1 a lg0) as (conf & _ & Hend).
    { unfold w1, w0. flat. now lookups. }
    { unfold w1, w0. now destruct w. }
    rewrite Hend. eexists. split; [reflexivity|].
    unfold w1, w0. flat. lookups. now repeat split.
Qed.

Lemma setup_keeps_or_closes_witness :
  exists w',
    setup 0 (Some 7%nat) true Demo.world = Return tt w' /\
    fileLoggers w' !! 1%nat = Some Demo.sink /\ files w' = files Demo.world.
Proof.
  destruct (setup_keeps_or_closes 0 Demo.world 7 Demo.facade 1 Demo.sink
              eq_refl eq_refl eq_refl ltac:(discriminate))
    as [(w' & Hrun & Hsink & Hfiles & _) _].
  exists w'. split; [exact Hrun|]. split; [exact Hsink|exact Hfiles].
Defined.

(** ** logger.go: two loggers on one file *)

Lemma copyFromFile_eq (w : World) (a : nat) (lg : Logger) (f : nat) (fl : FileLogger)
    (b : nat) (lgb : Logger) (g : nat) (flg : FileLogger)
    (assign : FileLogger -> FileLogger -> FileLogger) :
  loggers w !! a = Some lg -> File lg = Some f -> fileLoggers w !! f = Some fl ->
  loggers w !! b = Some lgb -> File lgb = Some g -> fileLoggers w !! g = Some flg ->
  copyFromFile (Some a) (Some b) assign w =
    Return tt (set_fileLoggers (<[f := assign flg fl]> (fileLoggers w)) w).
Proof.
  intros Hl HF Hf Hlb HG Hg. unfold copyFromFile, loadLogger, loadFileLogger.
  rewrite (run_bind _ _ _ _ _ (load_Some loggers a lg w Hl)).
  rewrite (run_bind _ _ _ _ _ (load_Some loggers b lgb w Hlb)).
  rewrite HG, (run_bind _ _ _ _ _ (load_Some fileLoggers g flg w Hg)).
  rewrite HF. now apply updateFileLogger_Some.
Qed.

Ltac step_copy a lg f b lgb g flg :=
  rewrite ?bind_assoc;
  erewrite run_bind
    by (eapply (copyFromFile_eq _ a lg f _ b lgb g flg); norm; lookups; eauto);
  norm; rewrite ?insert_insert_eq.

(** [NewLoggerWithFile] on two loggers with sinks of their own, as an
    equation on worlds. *)
Lemma NewLoggerWithFile_eq (fuel : nat) (w : World) (a : nat) (lg : Logger) (f : nat)
    (fl : FileLogger) (b : nat) (lgb : Logger) (g : nat) (flg : FileLogger)
    (conf : colorConfig) :
  loggers w !! a = Some lg -> File lg = Some f -> fileLoggers w !! f = Some fl ->
  loggers w !! b = Some lgb -> File lgb = Some g -> fileLoggers w !! g = Some flg ->
  f <> g ->
  newColorConfig (ColoredOutput lg) w = Return conf w ->
  NewLoggerWithFile fuel (Some a) (Some b) w =
    Return (Some a)
      (set_loggers
         (<[a := with_colorConf conf (with_console (Some Stdout) (Some Stderr) lg)]>
            (loggers w))
         (set_fileLoggers (<[f := sharing a fl flg]> (fileLoggers w)) w)).
Proof.
  intros Hl HF Hf Hlb HG Hg Hne Hconf.
  destruct w as [ck pf en cs oe dk so se fs ms fls ls].
  destruct fl as [lv pa ad s1 s2 lgr fi rt].
  norm. unfold NewLoggerWithFile.
  do 5 (step_copy a lg f b lgb g flg).
  cbn [with_handle with_Path with_logger with_fileSync with_fileSyncWrite
       fLevel Path AppendDate fileSync fileSyncWrite logger file rootLogger].
  rewrite ?bind_assoc.
  erewrite run_bind; cycle 1.
  { eapply (setup_keep fuel _ a lg f _ conf); norm; lookups; eauto.
    eapply newColorConfig_returns_again; [| |exact Hconf]; reflexivity. }
  norm. rewrite insert_insert_eq. reflexivity.
Qed.

(** X14.  [NewLoggerWithFile(logger, file)] for two loggers with sinks of
    their own: [logger] is returned, set up for the console, and its
    sink now holds the handle, the [log.Logger], both mutexes and the
    path of [file]'s sink, while it keeps its own threshold and its own
    [AppendDate].  The sink of [file] is left as it was, and no file is
    opened, closed or written. *)
Theorem NewLoggerWithFile_shares (fuel : nat) (w : World) (a : nat) (lg : Logger)
    (f : nat) (fl : FileLogger) (b : nat) (lgb : Logger) (g : nat) (flg : FileLogger) :
  loggers w !! a = Some lg -> File lg = Some f -> fileLoggers w !! f = Some fl ->
  loggers w !! b = Some lgb -> File lgb = Some g -> fileLoggers w !! g = Some flg ->
  f <> g -> terminal_known w ->
  exists w' lg',
    NewLoggerWithFile fuel (Some a) (Some b) w = Return (Some a) w' /\
    loggers w' !! a = Some lg' /\
    consoleLogger lg' = Some Stdout /\ consoleLoggerErr lg' = Some Stderr /\
    lLevel lg' = lLevel lg /\ File lg' = Some f /\
    fileLoggers w' !! f = Some (sharing a fl flg) /\
    fileLoggers w' !! g = Some flg /\
    files w' = files w /\ disk w' = disk w /\ mutexes w' = mutexes w /\
    stdout w' = stdout w /\ stderr w' = stderr w.
Proof.
  intros Hl HF Hf Hlb HG Hg Hne Hknown.
  destruct (newColorConfig_known (ColoredOutput lg) w Hknown) as [conf Hconf].
  rewrite (NewLoggerWithFile_eq fuel w a lg f fl b lgb g flg conf) by assumption.
  eexists _, _. split; [reflexivity|].
  flat. destruct lg. norm. lookups. now repeat split.
Qed.

Lemma NewLoggerWithFile_shares_witness :
  exists w',
    NewLoggerWithFile 0 (Some 8%nat) (Some 7%nat) Cases.two_configs = Return (Some 8%nat) w' /\
    fileLoggers w' !! 2%nat = Some Cases.audit_sink_shared /\
    fileLoggers w' !! 1%nat = Some Demo.sink /\
    files w' = files Cases.two_configs.
Proof.
  destruct (NewLoggerWithFile_shares 0 Cases.two_configs 8 Cases.audit 2 Cases.audit_sink
              7 Demo.facade 1 Demo.sink eq_refl eq_refl eq_refl eq_refl eq_refl eq_refl
              ltac:(discriminate) ltac:(discriminate))
    as (w' & lg' & Hrun & _ & _ & _ & _ & _ & Hf & Hg & Hfiles & _).
  exists w'. split; [exact Hrun|]. split; [exact Hf|]. split; [exact Hg|exact Hfiles].
Defined.

(** X15.  [NewLoggerWithFile] copies the handle but not [AppendDate].  Two
    loggers on one handle, the first without date suffix, the second
    with it: when the date has changed, the second logger's next line
    rotates, which closes the handle both hold and opens today's file
    for the second sink alone.  The first sink is left on the closed
    handle with no rotation of its own to come, and its next line
    reaches no file. *)
Theorem rotation_strands_sharer (fuel : nat) (w : World) (a : nat) (lg : Logger) (f : nat)
    (fl : FileLogger) (b : nat) (lgb : Logger) (g : nat) (flg : FileLogger)
    (h m1 m2 : nat) (n : string) (lb la : Level) (mb ma : string) (pb pa : list any) :
  ready w a lg f fl -> ready w b lgb g flg -> f <> g ->
  sink_open w fl h m1 m2 n -> sink_open w flg h m1 m2 n ->
  AppendDate fl = false ->
  rotation_due w flg n -> open_error w (current_path w flg) = None ->
  fLevel flg <= lb -> lb <> LevelFatal ->
  exists w1 w2,
    Log (S fuel) (Some b) lb mb pb w = Return tt w1 /\
    disk w1 = append_line (current_path w flg) (plain_line w lgb lb mb pb) (disk w) /\
    sink_stale w1 fl h m1 m2 n /\
    Log (S fuel) (Some a) la ma pa w1 =
      (if ((lLevel lg <=? la) && (la =? LevelFatal))%bool
       then Exit 1 w2 else Return tt w2) /\
    disk w2 = disk w1.
Proof.
  intros Hready Hreadyb Hne Hopen Hopenb Had Hdue Hok Hlvl Hnf.
  pose proof Hready as [Hl Hout Herr HF Hf Hroot].
  pose proof Hopen as [Hfile Hlg Hm1 Hm2 Hmne Hu1 Hu2 Hh].
  destruct (Log_open fuel w b lgb g flg h m1 m2 n lb mb pb Hreadyb Hopenb
              ltac:(intros _; exact Hok))
    as (w0 & w1 & h' & Hrun & Hwritten & _ & _ & Hd1 & Hfs1 & Hfls1 & Hls1 & Hms1).
  replace (lb =? LevelFatal) with false in Hrun by (symmetry; now apply Z.eqb_neq).
  rewrite andb_false_r in Hrun.
  replace (fLevel flg <=? lb) with true in Hwritten by (symmetry; now apply Z.leb_le).
  destruct Hwritten as [Hd0 _ _ Hls0 Hms0 _ Hs0 Hrot0 _ _ _ _].
  destruct (Hrot0 Hdue) as [_ Hclosed].
  rewrite (target_rotated w flg n Hdue) in Hd0.
  assert (Hready1 : ready w1 a lg f fl).
  { split; try assumption.
    - now rewrite Hls1, Hls0.
    - rewrite Hfls1, Hs0. now rewrite lookup_insert_ne by congruence. }
  assert (Hstale1 : sink_stale w1 fl h m1 m2 n).
  { split; try assumption.
    - now rewrite Hms1, Hms0.
    - now rewrite Hms1, Hms0.
    - now rewrite Hfs1. }
  assert (Hnd1 : ~ rotation_due w1 fl n).
  { intros [Had1 _]. congruence. }
  exists w1. 
  pose proof Hready1 as [Hl1 _ _ _ Hf1 _].
  destruct (file_half_stale (log fuel) w1 f fl h m1 m2 n
              (plain_line w1 lg la ma pa) la Hf1 Hstale1
              ltac:(intros Hdue1; now destruct Hnd1))
    as (w1' & Hrun1 & _ & _ & Hls1' & Hkeep & _).
  destruct (console_half w1 w1' a lg la (console_line w1 lg la ma pa))
    as (w2 & Hcon & _ & _ & Hd2 & _); try assumption.
  { now rewrite Hls1'. }
  exists w2. split; [exact Hrun|]. split; [now rewrite Hd1|]. split; [exact Hstale1|].
  split.
  - unfold Log. rewrite (log_S fuel w1 a lg f fl) by assumption.
    rewrite (run_bind _ _ _ _ _ Hrun1). exact Hcon.
  - rewrite Hd2. now apply Hkeep.
Qed.

Lemma rotation_strands_sharer_witness :
  exists w1 w2,
    Log 1 (Some 7%nat) LevelInfo "kept" [] Cases.shared_next_day = Return tt w1 /\
    disk w1 = append_line Demo.tomorrow
                (plain_line Cases.shared_next_day Demo.facade LevelInfo "kept" [])
                (disk Cases.shared_next_day) /\
    Log 1 (Some 8%nat) LevelError "lost" [] w1 = Return tt w2 /\
    disk w2 = disk w1.
Proof.
  assert (Hopen : forall fl, file fl = Some 0%nat -> logger fl = Some (FileWriter 0%nat) ->
            fileSync fl = Some 0%nat -> fileSyncWrite fl = Some 1%nat ->
            sink_open Cases.shared_next_day fl 0 0 1 Demo.today).
  { intros fl H1 H2 H3 H4. split; try assumption; try reflexivity. discriminate. }
  destruct (rotation_strands_sharer 0 Cases.shared_next_day 8 Cases.audit_ready 2
              Cases.audit_sink_shared 7 Demo.facade 1 Demo.sink 0 0 1 Demo.today
              LevelInfo LevelError "kept" "lost" [] []
              ltac:(split; reflexivity) ltac:(split; reflexivity) ltac:(discriminate)
              (Hopen Cases.audit_sink_shared eq_refl eq_refl eq_refl eq_refl)
              (Hopen Demo.sink eq_refl eq_refl eq_refl eq_refl)
              eq_refl ltac:(split; [reflexivity|discriminate]) eq_refl
              ltac:(discriminate) ltac:(discriminate))
    as (w1 & w2 & Hrun & Hd1 & _ & Hrun2 & Hd2).
  exists w1, w2. split; [exact Hrun|]. split; [exact Hd1|]. split; [exact Hrun2|exact Hd2].
Defined.

(** ** logger.go: CloneLogger *)

Lemma fresh_logger_address (ls : gmap nat Logger) :
  let c := fresh ({[ 0%nat ]} ∪ dom ls) in
  c <> 0%nat /\ ls !! c = None.
Proof.
  intros c. pose proof (is_fresh ({[ 0%nat ]} ∪ dom ls)) as Hfresh. fold c in Hfresh.
  split.
  - intros Hc. apply Hfresh. rewrite Hc. apply elem_of_union_l. now apply elem_of_singleton.
  - apply not_elem_of_dom. intros Hc. apply Hfresh. now apply elem_of_union_r.
Qed.

Lemma fresh_sink_address (fls : gmap nat FileLogger) :
  fls !! fresh (dom fls) = None.
Proof. apply not_elem_of_dom. apply is_fresh. Qed.

Lemma allocLogger_eq (v : Logger) (w : World) :
  allocLogger v w =
    Return (Some (fresh ({[ 0%nat ]} ∪ dom (loggers w))))
      (set_loggers (<[fresh ({[ 0%nat ]} ∪ dom (loggers w)) := v]> (loggers w)) w).
Proof. reflexivity. Qed.

Lemma allocFileLogger_eq (v : FileLogger) (w : World) :
  allocFileLogger v w =
    Return (Some (fresh (dom (fileLoggers w))))
      (set_fileLoggers (<[fresh (dom (fileLoggers w)) := v]> (fileLoggers w)) w).
Proof. reflexivity. Qed.

(** X16.  [CloneLogger] returns a logger at an address of its own, with a
    sink at an address of its own: every exported setting and the color
    request are those of the original, the sink is a copy that shares
    the original's handle, [log.Logger] and mutexes and points back at
    the clone.  The original logger and its sink are left exactly as
    they were, and no file is opened, closed or written. *)
Theorem CloneLogger_copies (fuel : nat) (w : World) (a : nat) (lg : Logger) (f : nat)
    (fl : FileLogger) :
  loggers w !! a = Some lg -> File lg = Some f -> fileLoggers w !! f = Some fl ->
  terminal_known w ->
  exists w' c f' conf,
    CloneLogger fuel (Some a) w = Return (Some c) w' /\
    c <> a /\ c <> 0%nat /\ f' <> f /\
    loggers w !! c = None /\ fileLoggers w !! f' = None /\
    loggers w' !! c =
      Some (mkLogger (lLevel lg) (ColoredOutput lg) (PrintSource lg) (OnlyPrintMessage lg)
              (FuncCallIncrement lg) (Prefix lg) (Some f') conf
              (Some Stdout) (Some Stderr)) /\
    fileLoggers w' !! f' = Some (with_rootLogger (Some c) fl) /\
    loggers w' !! a = Some lg /\
    fileLoggers w' !! f = Some fl /\
    files w' = files w /\ disk w' = disk w /\ mutexes w' = mutexes w /\
    stdout w' = stdout w /\ stderr w' = stderr w.
Proof.
  intros Hl HF Hf Hknown.
  destruct (newColorConfig_known (ColoredOutput lg) w Hknown) as [conf Hconf].
  destruct (fresh_logger_address (loggers w)) as [Hc0 Hcnone].
  pose proof (fresh_sink_address (fileLoggers w)) as Hfnone.
  set (c := fresh ({[ 0%nat ]} ∪ dom (loggers w))) in *.
  set (f' := fresh (dom (fileLoggers w))) in *.
  assert (Hca : c <> a) by congruence.
  assert (Hff : f' <> f) by congruence.
  exists (set_loggers
            (<[c := mkLogger (lLevel lg) (ColoredOutput lg) (PrintSource lg)
                      (OnlyPrintMessage lg) (FuncCallIncrement lg) (Prefix lg) (Some f') conf
                      (Some Stdout) (Some Stderr)]> (loggers w))
            (set_fileLoggers (<[f' := with_rootLogger (Some c) fl]> (fileLoggers w)) w)),
    c, f', conf.
  split.
  - set (lgc := mkLogger (lLevel lg) (ColoredOutput lg) (PrintSource lg)
                  (OnlyPrintMessage lg) (FuncCallIncrement lg) (Prefix lg) (Some f')
                  (colorConf lg) None None).
    set (w3 := set_loggers (<[c := lgc]> (loggers w))
                 (set_fileLoggers (<[f' := fl]> (fileLoggers w)) w)).
    assert (Hprefix : CloneLogger fuel (Some a) w =
                        NewLoggerWithFile fuel (Some c) (Some a) w3).
    { unfold w3, lgc, c, f'. clear - Hl HF Hf.
      destruct w as [ck pf en cs oe dk so se fs ms fls ls].
      destruct lg as [llv co ps op fi' px fr cc lo le].
      norm. subst.
      unfold CloneLogger, loadLogger, loadFileLogger.
      step @load_Some. step allocLogger_eq.
      step @load_Some. step @load_Some. step allocFileLogger_eq.
      step updateLogger_Some. cbn [with_File].
      step updateLogger_Some. step updateLogger_Some.
      now rewrite !insert_insert_eq. }
    rewrite Hprefix.
    rewrite (NewLoggerWithFile_eq fuel w3 c lgc f' fl a lg f fl conf).
    + f_equal. unfold w3, lgc. flat.
      destruct lg as [llv co ps op fi' px fr cc lo le].
      destruct fl as [lv pa ad s1 s2 lgr fi rt]. norm.
      cbn [sharing fLevel Path AppendDate fileSync fileSyncWrite logger file rootLogger].
      now rewrite !insert_insert_eq.
    + unfold w3. flat. now lookups.
    + reflexivity.
    + unfold w3. flat. now lookups.
    + unfold w3. flat. now lookups.
    + exact HF.
    + unfold w3. flat. now lookups.
    + exact Hff.
    + apply (newColorConfig_returns_again _ w w3 conf); try assumption; reflexivity.
  - flat. lookups. repeat split; assumption.
Qed.

Lemma CloneLogger_copies_witness :
  exists w' c,
    CloneLogger 0 (Some 7%nat) Demo.world = Return (Some c) w' /\
    c <> 7%nat /\
    loggers w' !! 7%nat = Some Demo.facade /\
    fileLoggers w' !! 1%nat = Some Demo.sink.
Proof.
  destruct (CloneLogger_copies 0 Demo.world 7 Demo.facade 1 Demo.sink
              eq_refl eq_refl eq_refl ltac:(discriminate))
    as (w' & c & f' & conf & Hrun & Hc & _ & _ & _ & _ & _ & _ & Hl & Hf & _).
  exists w', c. split; [exact Hrun|]. split; [exact Hc|]. split; [exact Hl|exact Hf].
Defined.

(** ** logger.go: NewLogger on a configuration as written *)




(** ** logger.go: the global logger *)

(** X18.  [init], whatever the state it starts from and whatever the
    environment: the global logger prints from Debug on without colors,
    source or prefix, its sink has threshold Info, no path and no file,
    and nothing has been opened, written or printed. *)
Theorem init_console_only (fuel : nat) (w : World) :
  exists w' f,
    init fuel w = Return tt w' /\
    fileLoggers w !! f = None /\
    loggers w' !! 0%nat =
      Some (mkLogger LevelDebug false false false 0 EmptyString (Some f)
              (mkColorConfig false) (Some Stdout) (Some Stderr)) /\
    fileLoggers w' !! f =
      Some (mkFileLogger LevelInfo EmptyString false None None None None (Some 0%nat)) /\
    (forall a, a <> 0%nat -> loggers w' !! a = loggers w !! a) /\
    (forall g, g <> f -> fileLoggers w' !! g = fileLoggers w !! g) /\
    files w' = files w /\ disk w' = disk w /\ mutexes w' = mutexes w /\
    stdout w' = stdout w /\ stderr w' = stderr w.
Proof.
  pose proof (fresh_sink_address (fileLoggers w)) as Hfnone.
  set (f := fresh (dom (fileLoggers w))) in *.
  set (fl := mkFileLogger LevelInfo EmptyString false None None None None None).
  set (lg := mkLogger LevelDebug false false false 0 EmptyString (Some f)
               (mkColorConfig false) None None).
  set (w1 := set_loggers (<[0%nat := lg]> (loggers w))
               (set_fileLoggers (<[f := fl]> (fileLoggers w)) w)).
  assert (Hinit : init fuel w = setup fuel dLogger false w1).
  { unfold init, allocFileLogger, assignLogger, dLogger, modify.
    unfold bind at 1. cbn [and_then]. fold f fl lg.
    unfold bind at 1. cbn [and_then]. unfold w1. now destruct w. }
  assert (Hl1 : loggers w1 !! 0%nat = Some lg).
  { unfold w1. flat. now lookups. }
  assert (Hf1 : fileLoggers w1 !! f = Some fl).
  { unfold w1. flat. now lookups. }
  destruct (setup_begin fuel w1 0 lg f fl false Hl1 eq_refl Hf1) as [Hready0 Hsetup].
  change (String.eqb (TrimSpace (Path fl)) EmptyString) with true in Hsetup.
  cbn [negb andb] in Hsetup.
  set (fl0 := with_rootLogger (Some 0%nat) fl) in *.
  set (lg0 := with_console (Some Stdout) (Some Stderr) lg) in *.
  set (w0 := set_loggers (<[0%nat := lg0]> (loggers w1))
               (set_fileLoggers (<[f := fl0]> (fileLoggers w1)) w1)) in *.
  pose proof Hready0 as [Hl0 _ _ _ Hf0 _].
  unfold dLogger in Hinit. rewrite Hsetup in Hinit.
  rewrite (run_bind _ _ _ _ _ (CloseFile_closed w0 f fl0 Hf0 eq_refl)) in Hinit.
  unfold recovering, loadLogger in Hinit.
  rewrite (run_bind _ _ _ _ _ (load_Some loggers 0 lg0 w0 Hl0)) in Hinit.
  change (newColorConfig (ColoredOutput lg0)) with (ret (mkColorConfig false) : M colorConfig)
    in Hinit.
  rewrite bind_ret in Hinit.
  rewrite (updateLogger_Some 0 lg0 _ w0 Hl0) in Hinit.
  eexists _, f. split; [exact Hinit|]. clear Hinit Hsetup.
  unfold w0, w1, lg0, fl0, lg, fl. flat. norm. lookups.
  repeat split; try assumption.
  - intros a Ha. now lookups.
  - intros g Hg. now lookups.
Qed.



(** ** logger.go: a logger that never went through setup *)

(** X20.  Without the console writers that [setup] installs, every call
    at or above the console threshold ends in a nil-pointer panic, at
    whatever level, and calls below the console threshold return.
    Neither stream changes, and the disk is as it was when the file
    gate is closed. *)
Theorem Log_before_setup_panics (fuel : nat) (w : World) (a : nat) (lg : Logger) (f : nat)
    (fl : FileLogger) (level : Level) (message : string) (parameters : list any) :
  loggers w !! a = Some lg -> File lg = Some f -> fileLoggers w !! f = Some fl ->
  consoleLogger lg = None -> consoleLoggerErr lg = None ->
  sink_usable w fl ->
  exists w',
    Log (S fuel) (Some a) level message parameters w =
      (if lLevel lg <=? level then Panic nil_dereference w' else Return tt w') /\
    stdout w' = stdout w /\ stderr w' = stderr w /\
    (file_gate fl level = false -> disk w' = disk w).
Proof.
  intros Hl HF Hf Hout Herr Huse.
  unfold Log. rewrite (log_S fuel w a lg f fl) by assumption.
  destruct (file_half_usable (log fuel) w f fl (plain_line w lg level message parameters)
              level Hf Huse) as (w1 & Hrun & Hso & Hse & Hls).
  rewrite (run_bind _ _ _ _ _ Hrun).
  exists w1. split.
  - unfold toConsole, loadLogger.
    rewrite (run_bind _ _ _ _ _ (load_Some loggers a lg w1 ltac:(now rewrite Hls))).
    rewrite Hout, Herr.
    destruct (lLevel lg <=? level); [|reflexivity].
    destruct (level =? LevelError); [reflexivity|].
    destruct (level =? LevelFatal); reflexivity.
  - repeat split; try assumption.
    intros Hgate. rewrite Hgate in Hrun. now injection Hrun as <-.
Qed.

Lemma Log_before_setup_panics_witness :
  exists w',
    Log 1 (Some 7%nat) LevelError "x" [] Demo.fresh_world = Panic nil_dereference w' /\
    stderr w' = [].
Proof.
  destruct (Log_before_setup_panics 0 Demo.fresh_world 7 Demo.fresh_facade 1 Demo.fresh_sink
              LevelError "x" [] eq_refl eq_refl eq_refl eq_refl eq_refl
              ltac:(left; reflexivity))
    as (w' & Hrun & _ & Hse & _).
  exists w'. split; [exact Hrun|exact Hse].
Defined.

(** ** file.go: one file per day *)

Lemma zero_pad_value (width : nat) (bound : Z) (z : Z) :
  all_below (Z.to_nat bound)
    (fun k => digits_value (zero_pad width (Z.of_nat k)) =? Z.of_nat k) = true ->
  0 <= z < bound ->
  digits_value (zero_pad width z) = z.
Proof.
  intros Hall Hz. rewrite <- (Z2Nat.id z) at 2 by lia. rewrite <- (Z2Nat.id z) at 1 by lia.
  apply Z.eqb_eq. apply (all_below_spec _ _ Hall). lia.
Qed.

Lemma zero_pad_4_value (z : Z) : 0 <= z <= 9999 -> digits_value (zero_pad 4 z) = z.
Proof.
  intros H. apply (zero_pad_value 4 10000); [vm_compute; reflexivity|lia].
Qed.

Lemma zero_pad_2_value (z : Z) : 0 <= z <= 99 -> digits_value (zero_pad 2 z) = z.
Proof.
  intros H. apply (zero_pad_value 2 100); [vm_compute; reflexivity|lia].
Qed.

Lemma zero_pad_4_inj (y1 y2 : Z) :
  0 <= y1 <= 9999 -> 0 <= y2 <= 9999 -> zero_pad 4 y1 = zero_pad 4 y2 -> y1 = y2.
Proof.
  intros H1 H2 H.
  rewrite <- (zero_pad_4_value y1 H1), <- (zero_pad_4_value y2 H2). now rewrite H.
Qed.

Lemma zero_pad_2_inj (z1 z2 : Z) :
  0 <= z1 <= 99 -> 0 <= z2 <= 99 -> zero_pad 2 z1 = zero_pad 2 z2 -> z1 = z2.
Proof.
  intros H1 H2 H.
  rewrite <- (zero_pad_2_value z1 H1), <- (zero_pad_2_value z2 H2). now rewrite H.
Qed.

Lemma format_date_inj (t1 t2 : Clock) :
  valid_clock t1 -> valid_clock t2 ->
  format_date t1 = format_date t2 -> same_day t1 t2.
Proof.
  intros (Hy1 & Hm1 & Hd1 & _) (Hy2 & Hm2 & Hd2 & _). unfold format_date. intros H.
  pose proof (zero_pad_4_inj (year t1) (year t2) Hy1 Hy2) as Iy.
  pose proof (zero_pad_2_inj (month t1) (month t2) ltac:(lia) ltac:(lia)) as Im.
  pose proof (zero_pad_2_inj (day t1) (day t2) ltac:(lia) ltac:(lia)) as Id.
  destruct (digits_only_4 _ (zero_pad_4 (year t1) Hy1)) as (a1 & a2 & a3 & a4 & Ea & _).
  destruct (digits_only_4 _ (zero_pad_4 (year t2) Hy2)) as (b1 & b2 & b3 & b4 & Eb & _).
  destruct (digits_only_2 _ (zero_pad_2 (month t1) ltac:(lia))) as (c1 & c2 & Ec & _).
  destruct (digits_only_2 _ (zero_pad_2 (month t2) ltac:(lia))) as (d1 & d2 & Ed & _).
  destruct (digits_only_2 _ (zero_pad_2 (day t1) ltac:(lia))) as (e1 & e2 & Ee & _).
  destruct (digits_only_2 _ (zero_pad_2 (day t2) ltac:(lia))) as (f1 & f2 & Ef & _).
  rewrite Ea, Eb, Ec, Ed, Ee, Ef in *.
  repeat first [rewrite app_cons in H | rewrite app_nil_l in H].
  injection H as -> -> -> -> -> -> -> ->.
  split; [|split]; auto.
Qed.

(** X21.  With [AppendDate] the file name depends on the calendar day and on
    nothing else of the clock: at two moments with valid dates
    [getFilePath] gives the same path exactly when they fall on the
    same day.  Hence a rotation is due exactly when the day is no
    longer the one the handle was opened on. *)
Theorem one_file_per_day (w1 w2 : World) (f : nat) (fl : FileLogger) :
  fileLoggers w1 !! f = Some fl -> fileLoggers w2 !! f = Some fl ->
  AppendDate fl = true ->
  valid_clock (clock w1) -> valid_clock (clock w2) ->
  exists p1 p2,
    getFilePath (Some f) w1 = Return p1 w1 /\
    getFilePath (Some f) w2 = Return p2 w2 /\
    (p1 = p2 <-> same_day (clock w1) (clock w2)) /\
    (rotation_due w2 fl p1 <-> ~ same_day (clock w1) (clock w2)).
Proof.
  intros Hf1 Hf2 Had Hv1 Hv2.
  exists (current_path w1 fl), (current_path w2 fl).
  split; [now apply getFilePath_spec|]. split; [now apply getFilePath_spec|].
  assert (Hiff : current_path w1 fl = current_path w2 fl <->
                 same_day (clock w1) (clock w2)).
  { unfold current_path. split.
    - intros H. apply format_date_inj; try assumption.
      now apply (path_date_inj fl).
    - intros (Hy & Hm & Hd). unfold format_date. now rewrite Hy, Hm, Hd. }
  split; [exact Hiff|].
  unfold rotation_due. rewrite <- Hiff. tauto.
Qed.

Lemma one_file_per_day_witness :
  exists p1 p2,
    getFilePath (Some 1%nat) Demo.world = Return p1 Demo.world /\
    getFilePath (Some 1%nat) Demo.next_day_read_only = Return p2 Demo.next_day_read_only /\
    p1 <> p2.
Proof.
  destruct (one_file_per_day Demo.world Demo.next_day_read_only 1 Demo.sink
              eq_refl eq_refl eq_refl
              ltac:(vm_compute; intuition discriminate)
              ltac:(vm_compute; intuition discriminate))
    as (p1 & p2 & H1 & H2 & Hiff & _).
  exists p1, p2. split; [exact H1|]. split; [exact H2|].
  intros Heq. apply Hiff in Heq. destruct Heq as (_ & _ & Hd). discriminate Hd.
Defined.

(** ** logger.go: two loggers, one file, call order *)

(** What one non-fatal call through an open sink leaves as it was. *)
Lemma Log_steady_frame (fuel : nat) (w : World) (a : nat) (lg : Logger) (f : nat)
    (fl : FileLogger) (h m1 m2 : nat) (n : string) (level : Level) (message : string)
    (parameters : list any) :
  ready w a lg f fl -> sink_open w fl h m1 m2 n -> ~ rotation_due w fl n ->
  level <> LevelFatal ->
  exists w',
    Log (S fuel) (Some a) level message parameters w = Return tt w' /\
    loggers w' = loggers w /\ fileLoggers w' = fileLoggers w /\
    mutexes w' = mutexes w /\ files w' = files w /\
    clock w' = clock w /\ callers w' = callers w /\
    disk w' =
      (if fLevel fl <=? level
       then append_line n (plain_line w lg level message parameters) (disk w)
       else disk w).
Proof.
  intros Hready Hopen Hnd Hnf.
  rewrite (Log_steady_eq fuel w a lg f fl h m1 m2 n) by assumption.
  eexists. split; [reflexivity|].
  destruct (fLevel fl <=? level), (lLevel lg <=? level), (level =? LevelError);
    flat; repeat split; reflexivity.
Qed.

(** X22.  Two loggers that hold the same open handle write into the same
    file, each at its own file threshold and with its own line layout,
    and the lines stand in the order of the calls. *)
Theorem shared_file_in_call_order (fuel : nat) (w : World) (a : nat) (lg : Logger)
    (f : nat) (fl : FileLogger) (b : nat) (lgb : Logger) (g : nat) (flg : FileLogger)
    (h m1 m2 : nat) (n : string) (la lb : Level) (ma mb : string) (pa pb : list any) :
  ready w a lg f fl -> ready w b lgb g flg ->
  sink_open w fl h m1 m2 n -> sink_open w flg h m1 m2 n ->
  ~ rotation_due w fl n -> ~ rotation_due w flg n ->
  la <> LevelFatal -> lb <> LevelFatal ->
  exists w',
    (Log (S fuel) (Some a) la ma pa ;;; Log (S fuel) (Some b) lb mb pb) w = Return tt w' /\
    default [] (disk w' !! n) =
      default [] (disk w !! n)
        ++ (if fLevel fl <=? la then [plain_line w lg la ma pa] else [])
        ++ (if fLevel flg <=? lb then [plain_line w lgb lb mb pb] else []) /\
    (forall p, p <> n -> disk w' !! p = disk w !! p).
Proof.
  intros Hready Hreadyb Hopen Hopenb Hnd Hndb Hnfa Hnfb.
  destruct (Log_steady_frame fuel w a lg f fl h m1 m2 n la ma pa Hready Hopen Hnd Hnfa)
    as (w1 & Hrun1 & Hls1 & Hfls1 & Hms1 & Hfs1 & Hck1 & Hcs1 & Hd1).
  assert (Hreadyb1 : ready w1 b lgb g flg).
  { destruct Hreadyb. split; try assumption; congruence. }
  assert (Hopenb1 : sink_open w1 flg h m1 m2 n).
  { destruct Hopenb. split; try assumption; congruence. }
  assert (Hndb1 : ~ rotation_due w1 flg n).
  { unfold rotation_due, current_path in *. now rewrite Hck1. }
  destruct (Log_steady_frame fuel w1 b lgb g flg h m1 m2 n lb mb pb Hreadyb1 Hopenb1 Hndb1
              Hnfb)
    as (w2 & Hrun2 & _ & _ & _ & _ & _ & _ & Hd2).
  exists w2. rewrite (run_bind _ _ _ _ _ Hrun1). split; [exact Hrun2|].
  replace (plain_line w1 lgb lb mb pb) with (plain_line w lgb lb mb pb) in Hd2
    by (unfold plain_line, source_of; now rewrite Hck1, Hcs1).
  rewrite Hd2, Hd1. split.
  - destruct (fLevel fl <=? la), (fLevel flg <=? lb);
      rewrite ?append_line_lookup; cbn [default from_option]; unfold id;
      rewrite ?append_line_lookup; cbn [default from_option]; unfold id;
      rewrite ?app_nil_r, <- ?List.app_assoc; reflexivity.
  - intros p Hp.
    destruct (fLevel fl <=? la), (fLevel flg <=? lb);
      rewrite ?append_line_other by congruence; reflexivity.
Qed.

Lemma shared_file_in_call_order_witness :
  exists w',
    (Log 1 (Some 8%nat) LevelWarning "from the audit" [] ;;;
     Log 1 (Some 7%nat) LevelInfo "from the facade" []) Cases.shared = Return tt w' /\
    default [] (disk w' !! Demo.today) =
      ["an earlier line"%string;
       plain_line Cases.shared Cases.audit_ready LevelWarning "from the audit" [];
       plain_line Cases.shared Demo.facade LevelInfo "from the facade" []].
Proof.
  assert (Hopen : forall fl, file fl = Some 0%nat -> logger fl = Some (FileWriter 0%nat) ->
            fileSync fl = Some 0%nat -> fileSyncWrite fl = Some 1%nat ->
            sink_open Cases.shared fl 0 0 1 Demo.today).
  { intros fl H1 H2 H3 H4. split; try assumption; try reflexivity. discriminate. }
  destruct (shared_file_in_call_order 0 Cases.shared 8 Cases.audit_ready 2
              Cases.audit_sink_shared 7 Demo.facade 1 Demo.sink 0 0 1 Demo.today
              LevelWarning LevelInfo "from the audit" "from the facade" [] []
              ltac:(split; reflexivity) ltac:(split; reflexivity)
              (Hopen Cases.audit_sink_shared eq_refl eq_refl eq_refl eq_refl)
              (Hopen Demo.sink eq_refl eq_refl eq_refl eq_refl)
              ltac:(intros [Had _]; discriminate Had)
              ltac:(intros [_ Hne]; apply Hne; reflexivity)
              ltac:(discriminate) ltac:(discriminate))
    as (w' & Hrun & Hd & _).
  exists w'. split; [exact Hrun|exact Hd].
Defined.

(** ** logger.go: colors stay on the console *)

(** X23.  Whether colors are on makes no difference to the log file: the same
    call through the same logger with any color setting leaves the
    same disk. *)
Theorem colors_never_reach_the_file (fuel : nat) (w : World) (a : nat) (lg : Logger)
    (f : nat) (fl : FileLogger) (h m1 m2 : nat) (n : string) (conf : colorConfig)
    (level : Level) (message : string) (parameters : list any) :
  ready w a lg f fl -> sink_open w fl h m1 m2 n ->
  (rotation_due w fl n -> open_error w (current_path w fl) = None) ->
  let w_c := set_loggers (<[a := with_colorConf conf lg]> (loggers w)) w in
  exists w' w_c',
    Log (S fuel) (Some a) level message parameters w =
      (if ((lLevel lg <=? level) && (level =? LevelFatal))%bool
       then Exit 1 w' else Return tt w') /\
    Log (S fuel) (Some a) level message parameters w_c =
      (if ((lLevel lg <=? level) && (level =? LevelFatal))%bool
       then Exit 1 w_c' else Return tt w_c') /\
    disk w_c' = disk w'.
Proof.
  intros Hready Hopen Hcan w_c.
  assert (Hready_c : ready w_c a (with_colorConf conf lg) f fl).
  { destruct Hready. unfold w_c. split; flat; lookups; try assumption;
      try reflexivity; now destruct lg. }
  assert (Hopen_c : sink_open w_c fl h m1 m2 n).
  { destruct Hopen. split; assumption. }
  destruct (Log_open fuel w a lg f fl h m1 m2 n level message parameters Hready Hopen Hcan)
    as (w1 & w' & h' & Hrun & Hfile & _ & _ & Hd & _).
  destruct (Log_open fuel w_c a (with_colorConf conf lg) f fl h m1 m2 n level message
              parameters Hready_c Hopen_c Hcan)
    as (w1c & w_c' & hc & Hrunc & Hfilec & _ & _ & Hdc & _).
  replace (lLevel (with_colorConf conf lg)) with (lLevel lg) in Hrunc by now destruct lg.
  exists w', w_c'. split; [exact Hrun|]. split; [exact Hrunc|].
  rewrite Hd, Hdc. destruct (fLevel fl <=? level).
  - destruct Hfile as [Hd1 _ _ _ _ _ _ _ _ _ _ _].
    destruct Hfilec as [Hd1c _ _ _ _ _ _ _ _ _ _ _].
    rewrite Hd1, Hd1c. unfold w_c. destruct w, lg. reflexivity.
  - now subst.
Qed.

Lemma colors_never_reach_the_file_witness :
  exists w' w_c',
    Log 1 (Some 7%nat) LevelError "x" [] Demo.world = Return tt w' /\
    Log 1 (Some 7%nat) LevelError "x" []
      (set_loggers (<[7%nat := with_colorConf (mkColorConfig true) Demo.facade]>
                      (loggers Demo.world)) Demo.world) = Return tt w_c' /\
    disk w_c' = disk w'.
Proof.
  exact (colors_never_reach_the_file 0 Demo.world 7 Demo.facade 1 Demo.sink 0 0 1 Demo.today
           (mkColorConfig true) LevelError "x" []
           ltac:(split; reflexivity) ltac:(split; try reflexivity; discriminate)
           ltac:(intros _; reflexivity)).
Defined.
